(** * FD-canvas-app: the Express server behind the Freshdesk canvas

    A shallow embedding of [server.js] (the Express application with the
    routes [/api/initialize], [/api/freshdesk/recent-tickets],
    [/api/freshdesk/create-ticket] and [/api/submit], the answers of
    [/api/freshdesk/statuses] and [/api/freshdesk/priorities], and the
    helper [fetchWithRetry]) together with the properties of its
    submission orchestrator.

    Conventions of the embedding
    - a JavaScript string is a [string]; one [ascii] stands for one code
      unit below U+0100, so the white space that [trim] removes is the
      set 9-13, 32 and 160;
    - a property that may be missing ([req.body.contact?.email], a form
      value) is an [option string]; JavaScript truthiness of such a value
      is [truthyO] (present and not the empty string);
    - the delay of the retrying client ([currentDelay]) is a rational
      [Q]: exact in [Retry.fetchWithRetry], rounded after every operation
      in [Retry.Rounded.fetchWithRetry], where the rounding of doubles is
      an argument; [Retry.Double.next_delay] is one step of the backoff on
      the binary64 numbers of the kernel;
    - the numbers of Freshdesk (the id of a ticket, of a mailbox, of a
      status) are naturals [N]; JavaScript holds them as doubles, which is
      the same thing below 2^53;
    - the outside world (Freshdesk, Intercom, the helpers imported from
      [./conversation-helper], [Math.random], elapsed time) is an
      explicit argument: an oracle that returns a value or an error. *)

From Stdlib Require Import PrimFloat.
From Stdlib Require FloatOps.
From Stdlib Require Import String Ascii List ZArith NArith QArith Qminmax Lia Lra Lqa Bool.
From Stdlib Require Import DecimalString DecimalN.
From stdpp Require Import gmap strings.

(* ===================================================================== *)
(** * JavaScript strings *)
(* ===================================================================== *)

Module Js.

(** [!!s] for a string: the empty string is the only falsy one. *)
Definition truthy (s : string) : bool :=
  match s with EmptyString => false | String _ _ => true end.

(** [!!v] for a value that is a string or [undefined]. *)
Definition truthyO (v : option string) : bool :=
  match v with Some s => truthy s | None => false end.

(** [a || b] on such values. *)
Definition or_else (a b : option string) : option string :=
  if truthyO a then a else b.

(** [a || 'literal']. *)
Definition or_str (a : option string) (b : string) : string :=
  match a with
  | Some s => if truthy s then s else b
  | None => b
  end.

(** White space and line terminators below U+0100. *)
Definition isWhiteSpace (c : ascii) : bool :=
  let n := nat_of_ascii c in
  ((9 <=? n) && (n <=? 13)) || (n =? 32) || (n =? 160).

Fixpoint trimStart (s : string) : string :=
  match s with
  | EmptyString => EmptyString
  | String c s' => if isWhiteSpace c then trimStart s' else s
  end.

Fixpoint trimEnd (s : string) : string :=
  match s with
  | EmptyString => EmptyString
  | String c s' =>
      match trimEnd s' with
      | EmptyString => if isWhiteSpace c then EmptyString else String c EmptyString
      | t => String c t
      end
  end.

(** [String.prototype.trim]. *)
Definition trim (s : string) : string := trimEnd (trimStart s).

Fixpoint drop (n : nat) (s : string) : string :=
  match n, s with
  | O, _ => s
  | S n', String _ s' => drop n' s'
  | S _, EmptyString => EmptyString
  end.

(** The first occurrence of [pat] in [s]: the text before it and the text
    after it ([s.indexOf(pat)] with both sides of the cut). *)
Fixpoint split_first (pat s : string) : option (string * string) :=
  if String.prefix pat s then Some (EmptyString, drop (String.length pat) s)
  else
    match s with
    | EmptyString => None
    | String c s' =>
        match split_first pat s' with
        | Some (before, after) => Some (String c before, after)
        | None => None
        end
    end.

(** [s.includes(pat)]. *)
Definition includes (s pat : string) : bool :=
  match split_first pat s with Some _ => true | None => false end.

(** [GetSubstitution] for a string pattern (no captures): in the
    replacement text [$$] is a dollar, [$&] the matched text, [$`] the
    text before the match and [$'] the text after it; any other [$] is
    literal. *)
Fixpoint getSubstitution (matched before after template : string) : string :=
  match template with
  | EmptyString => EmptyString
  | String c rest =>
      if Ascii.eqb c "$"%char then
        match rest with
        | String d rest' =>
            if Ascii.eqb d "$"%char then
              String "$"%char (getSubstitution matched before after rest')
            else if Ascii.eqb d "&"%char then
              matched +:+ getSubstitution matched before after rest'
            else if Ascii.eqb d "`"%char then
              before +:+ getSubstitution matched before after rest'
            else if Ascii.eqb d "'"%char then
              after +:+ getSubstitution matched before after rest'
            else String c (getSubstitution matched before after rest)
        | EmptyString => String c EmptyString
        end
      else String c (getSubstitution matched before after rest)
  end.

(** [s.replace(pat, replacement)] with a string pattern: only the first
    occurrence is replaced. *)
Definition replace (s pat replacement : string) : string :=
  match split_first pat s with
  | Some (before, after) =>
      before +:+ getSubstitution pat before after replacement +:+ after
  | None => s
  end.

(** The character [c] does not occur in [s]. *)
Fixpoint lacks (c : ascii) (s : string) : bool :=
  match s with
  | EmptyString => true
  | String x s' => negb (Ascii.eqb x c) && lacks c s'
  end.

(** No [$] in a text. *)
Definition no_dollar (s : string) : bool := lacks "$"%char s.

(** How many positions of [s] start an occurrence of [pat]. *)
Fixpoint occurrences (pat s : string) : nat :=
  match s with
  | EmptyString => 0
  | String _ s' =>
      (if String.prefix pat s then 1 else 0) + occurrences pat s'
  end.

(** A text of white space only. *)
Fixpoint blank (s : string) : bool :=
  match s with
  | EmptyString => true
  | String c s' => isWhiteSpace c && blank s'
  end.

(** [Number.MAX_SAFE_INTEGER], [2^53 - 1]: up to it, the integers are
    doubles and the arithmetic of JavaScript on them is exact. *)
Definition MAX_SAFE_INTEGER : N := 9007199254740991.

(** Template-literal rendering of a non-negative integer: its decimal
    digits. This is what JavaScript prints for a number below [10^21];
    from there on it prints in exponent notation, which is not modelled. *)
Definition showN (n : N) : string := NilEmpty.string_of_uint (N.to_uint n).

End Js.

(* ===================================================================== *)
(** * The retrying HTTP client: [fetchWithRetry] *)
(* ===================================================================== *)

Module Retry.

(** What one call of [axios({url, ...options, timeout: 10000})] does:
    the promise resolves with a response or rejects with an error (a
    transport failure, the 10 s timeout, or a status outside 2xx, which
    axios rejects as well). *)
Inductive Attempt (R E : Type) : Type :=
| Resolved (response : R)
| Rejected (error : E).
Arguments Resolved {R E} response.
Arguments Rejected {R E} error.

(** How a call of [fetchWithRetry] ends. [ReturnedUndefined] is the end of
    the function body after the [while] loop. *)
Inductive Result (R E : Type) : Type :=
| Returned (response : R)
| Threw (error : E)
| ReturnedUndefined.
Arguments Returned {R E} response.
Arguments Threw {R E} error.
Arguments ReturnedUndefined {R E}.

(** A finished call: its result, the number of axios calls made and the
    delays slept between them, oldest first. *)
Record Run (R E : Type) : Type := mkRun {
  result : Result R E;
  calls : nat;
  waits : list Q
}.
Arguments mkRun {R E} result calls waits.
Arguments result {R E} r.
Arguments calls {R E} r.
Arguments waits {R E} r.

(** The cap of the backoff, in milliseconds. *)
Definition cap : Q := 10000.

(** [Math.min(currentDelay * 2, 10000) * (0.8 + Math.random() * 0.4)]. *)
Definition next_delay (currentDelay random : Q) : Q :=
  (Qmin (currentDelay * 2) cap * ((8 # 10) + random * (4 # 10)))%Q.

Section Client.

Context {R E : Type}.

(** [axios k] is the outcome of the axios call number [k] (from 0) and
    [random k] the value of the [k]-th call of [Math.random()]. *)
Variable axios : nat -> Attempt R E.
Variable random : nat -> Q.

(** The [while (attempts <= retries)] loop; [fuel] bounds the number of
    iterations. *)
Fixpoint loop (fuel retries attempts : nat) (currentDelay : Q) (slept : list Q)
  : option (Run R E) :=
  match fuel with
  | O => None
  | S fuel' =>
      if attempts <=? retries then
        match axios attempts with
        | Resolved response => Some (mkRun (Returned response) (S attempts) slept)
        | Rejected error =>
            let attempts' := S attempts in
            if retries <? attempts' then
              Some (mkRun (Threw error) attempts' slept)
            else
              let delayForThisAttempt := currentDelay in
              loop fuel' retries attempts'
                   (next_delay currentDelay (random attempts))
                   (slept ++ [delayForThisAttempt])
        end
      else Some (mkRun ReturnedUndefined attempts slept)
  end.

(** [fetchWithRetry(url, options, retries, initialDelay)]. Every caller
    leaves [retries] and [initialDelay] at their defaults; [retries] is a
    natural number here. What the function does to [options] (method,
    headers, credentials) does not enter. *)
Definition fetchWithRetry (retries : nat) (initialDelay : Q) : option (Run R E) :=
  loop (S retries) retries 0 initialDelay [].

(** The call with its default arguments, [retries = 3] and
    [initialDelay = 500]. *)
Definition fetchWithRetry_default : option (Run R E) := fetchWithRetry 3 500.

(** The delay that a call sleeps after its failed attempt number [k]
    (from 0), when it goes on to another attempt: [currentDelay] at that
    point of the loop. *)
Fixpoint delay_after (initialDelay : Q) (k : nat) : Q :=
  match k with
  | O => initialDelay
  | S k' => next_delay (delay_after initialDelay k') (random k')
  end.

(** What a finished call tells about the attempts that were made: a
    response is the one of the last attempt, after failures only; an
    error is the one of attempt [retries + 1], after failures only. *)
Definition outcome_spec (retries : nat) (run : Run R E) : Prop :=
  calls run <= retries + 1 /\
  match result run with
  | Returned response =>
      1 <= calls run /\
      axios (calls run - 1) = Resolved response /\
      forall k, k < calls run - 1 -> exists e, axios k = Rejected e
  | Threw error =>
      calls run = retries + 1 /\
      axios retries = Rejected error /\
      forall k, k <= retries -> exists e, axios k = Rejected e
  | ReturnedUndefined => False
  end.

End Client.

(** One step of the backoff as the specification states it. *)
Definition backoff_step (d d' : Q) : Prop :=
  (Qmin (d * 2) cap * (8 # 10) <= d' /\ d' <= Qmin (d * 2) cap * (12 # 10))%Q.

(** ** The delays as doubles

    [currentDelay] is a double, and each operation of
    [Math.min(currentDelay * 2, 10000) * (0.8 + Math.random() * 0.4)]
    rounds its result to the nearest double. *)

(** Half the distance from 1 to the next double, [2^-53]: the largest
    relative error of rounding to the nearest double. *)
Definition unit_roundoff : Q := 1 # 9007199254740992.

(** The smallest positive normal double, [2^-1022], and the largest
    double, [2^1024 - 2^971]. *)
Definition smallest_normal : Q := 1 # (2 ^ 1022).
Definition largest_double : Q := inject_Z (2 ^ 1024 - 2 ^ 971).

(** [rounded x y]: [y] is [x] up to a relative error of [unit_roundoff],
    for a positive [x]. *)
Definition rounded (x y : Q) : Prop :=
  ((1 - unit_roundoff) * x <= y /\ y <= (1 + unit_roundoff) * x)%Q.

(** What is used of the rounding [fl] of the results of operations on
    doubles: it keeps the order of the results it does not overflow on,
    it keeps zero, and in the range of the normal doubles its relative
    error is at most [unit_roundoff]. Rounding to the nearest double has
    these three properties. *)
Record Rounding (fl : Q -> Q) : Prop := mkRounding {
  fl_monotone : forall x y, (x <= y)%Q -> (y <= largest_double)%Q -> (fl x <= fl y)%Q;
  fl_zero : (fl 0 == 0)%Q;
  fl_normal : forall x, (smallest_normal <= x)%Q -> (x <= largest_double)%Q ->
                        rounded x (fl x)
}.

Module Rounded.
Section Client.

Context {R E : Type}.

(** [axios k] and [random k] are as above; [fl x] is the double that an
    operation with the exact result [x] returns. *)
Variable axios : nat -> Attempt R E.
Variable random : nat -> Q.
Variable fl : Q -> Q.

(** [Math.min(currentDelay * 2, 10000) * (0.8 + Math.random() * 0.4)]:
    the literals [0.8] and [0.4], the two products, the sum and the
    product of the two factors are rounded; 2 and 10000 are doubles. *)
Definition next_delay (currentDelay random : Q) : Q :=
  fl (Qmin (fl (currentDelay * 2)) cap
      * fl (fl (8 # 10) + fl (random * fl (4 # 10))))%Q.

(** The [while (attempts <= retries)] loop for an integer [retries];
    [attempts] starts from 0 and is only counted up. *)
Fixpoint loop (fuel : nat) (retries : Z) (attempts : nat) (currentDelay : Q)
    (slept : list Q) : option (Run R E) :=
  match fuel with
  | O => None
  | S fuel' =>
      if (Z.of_nat attempts <=? retries)%Z then
        match axios attempts with
        | Resolved response => Some (mkRun (Returned response) (S attempts) slept)
        | Rejected error =>
            let attempts' := S attempts in
            if (retries <? Z.of_nat attempts')%Z then
              Some (mkRun (Threw error) attempts' slept)
            else
              let delayForThisAttempt := currentDelay in
              loop fuel' retries attempts'
                   (next_delay currentDelay (random attempts))
                   (slept ++ [delayForThisAttempt])
        end
      else Some (mkRun ReturnedUndefined attempts slept)
  end.

(** [fetchWithRetry(url, options, retries, initialDelay)] for an integer
    [retries], negative ones included. *)
Definition fetchWithRetry (retries : Z) (initialDelay : Q) : option (Run R E) :=
  loop (S (Z.to_nat retries)) retries 0 initialDelay [].

(** [currentDelay] after [k] rounds of the loop. *)
Fixpoint delay_after (initialDelay : Q) (k : nat) : Q :=
  match k with
  | O => initialDelay
  | S k' => next_delay (delay_after initialDelay k') (random k')
  end.

End Client.
End Rounded.

(** One step of the backoff as the specification states it, up to the
    relative error [eps]. *)
Definition backoff_step_within (eps d d' : Q) : Prop :=
  (Qmin (d * 2) cap * (8 # 10) * (1 - eps) <= d' /\
   d' <= Qmin (d * 2) cap * (12 # 10) * (1 + eps))%Q.

(** The largest delay whose double is finite, [2^1022]. *)
Definition largest_delay : Q := inject_Z (2 ^ 1022).

(** [2^-50], eight times [unit_roundoff]. *)
Definition slack : Q := 1 # 1125899906842624.

(** One step of the backoff on the binary64 numbers of the kernel. *)
Module Double.

(** [Math.min(currentDelay * 2, 10000) * (0.8 + Math.random() * 0.4)]. *)
#[warnings="-inexact-float"]
Definition next_delay (currentDelay random : float) : float :=
  let doubled := PrimFloat.mul currentDelay 2%float in
  PrimFloat.mul
    (if PrimFloat.ltb 10000%float doubled then 10000%float else doubled)
    (PrimFloat.add 0.8%float (PrimFloat.mul random 0.4%float)).

(** The number that a finite double stands for. *)
Definition value (x : float) : option Q :=
  match FloatOps.Prim2SF x with
  | SpecFloat.S754_zero _ => Some 0%Q
  | SpecFloat.S754_finite s m e =>
      Some ((if s then -1 else 1) * inject_Z (Z.pos m)
            * (if (0 <=? e)%Z then inject_Z (2 ^ e)
               else 1 # (2 ^ Z.to_pos (- e))))%Q
  | _ => None
  end.

(** The result of an operation on two doubles is its exact result up to
    [unit_roundoff]. *)
Definition rounds (exact : Q -> Q -> Q) (operation : float -> float -> float)
    (a b : float) : Prop :=
  match value a, value b, value (operation a b) with
  | Some x, Some y, Some z => rounded (exact x y) z
  | _, _, _ => False
  end.

End Double.

End Retry.

(* ===================================================================== *)
(** * The banner of [/api/freshdesk/create-ticket] *)
(* ===================================================================== *)

Module Banner.

(** The line feed of the template literal. *)
Definition nl : string := String (ascii_of_nat 10) EmptyString.

(** ['Chat Transcript Added'], the phrase the merge looks for. *)
Definition anchor : string := "Chat Transcript Added".

(** [`${process.env.INTERCOM_INBOX_URL}/conversation/${conversationId}`]. *)
Definition intercomUrl (inboxUrl conversationId : string) : string :=
  inboxUrl +:+ "/conversation/" +:+ conversationId.

(** The text of the URL line without its line ends. *)
Definition urlLine (url : string) : string :=
  "Intercom Conversation URL: " +:+ url.

(** [`Chat Transcript Added\n\nIntercom Conversation URL: ${intercomUrl}\n\n`]. *)
Definition urlSection (url : string) : string :=
  anchor +:+ nl +:+ nl +:+ urlLine url +:+ nl +:+ nl.

(** The merge of the banner into [ticketData.description]. *)
Definition merge (url description : string) : string :=
  if Js.truthy description && Js.includes description anchor then
    Js.replace description anchor (Js.trim (urlSection url))
  else
    urlSection url +:+ description.

End Banner.

(* ===================================================================== *)
(** * The Express application *)
(* ===================================================================== *)

Module Server.

(** ** Data *)

(** An error as the [catch] blocks read it: [error.message],
    [error.response?.data] (its text, when there is one) and
    [error.response?.data?.message]. *)
Record JsError : Type := mkError {
  message : string;
  response_data : option string;
  response_data_message : option string
}.

(** [error.response?.data?.message || error.message]. *)
Definition error_text (e : JsError) : string :=
  Js.or_str (response_data_message e) (message e).

(** A ticket of the Freshdesk list, with the fields the views read. *)
Record Ticket : Type := mkTicket {
  ticket_id : N;
  ticket_subject : string;
  ticket_created_at : string
}.

Record Mailbox : Type := mkMailbox {
  mailbox_name : string;
  mailbox_support_email : string;
  mailbox_product_id : N;
  mailbox_active : bool;
  mailbox_default_reply_email : bool
}.

(** An entry of [/admin/ticket_fields]. *)
Record Field : Type := mkField {
  field_id : N;
  field_name : string
}.

(** A choice of a ticket field; status choices are read through [id],
    priority choices through [value]. *)
Record Choice : Type := mkChoice {
  choice_id : N;
  choice_label : string;
  choice_value : N
}.

(** [contact] and [customer] of the request body. *)
Record Person : Type := mkPerson {
  person_email : option string;
  person_name : option string
}.

(** [conversation] of the request body. *)
Record ConversationRef : Type := mkConversationRef {
  conversation_ref_id : option string;
  source_body : option string;
  conversation_contact_email : option string;
  default_description_attribute : option string
}.

(** [input_values] of the request body. *)
Record InputValues : Type := mkInputValues {
  iv_email : option string;
  iv_subject : option string;
  iv_description : option string;
  iv_product_id : option string;
  iv_status : option string;
  iv_priority : option string
}.

(** The body of a request of the canvas. *)
Record Body : Type := mkBody {
  component_id : option string;
  contact : option Person;
  customer : option Person;
  conversation : option ConversationRef;
  conversation_id : option string;
  input_values : option InputValues
}.

(** [parseInt(s, 10)]; [None] is [NaN]. The result is the integer that
    the digits denote; JavaScript returns the nearest double, which is
    that integer up to [Js.MAX_SAFE_INTEGER]. *)
Definition digit (c : ascii) : option N :=
  let n := nat_of_ascii c in
  if (48 <=? n) && (n <=? 57) then Some (N.of_nat (n - 48)) else None.

Fixpoint digits (s : string) (acc : option N) : option N :=
  match s with
  | String c s' =>
      match digit c with
      | Some d => digits s' (Some (10 * default 0%N acc + d)%N)
      | None => acc
      end
  | EmptyString => acc
  end.

Definition parseInt10 (s : string) : option Z :=
  match Js.trimStart s with
  | String c r =>
      if Ascii.eqb c "-"%char then (fun n => (- Z.of_N n)%Z) <$> digits r None
      else if Ascii.eqb c "+"%char then Z.of_N <$> digits r None
      else Z.of_N <$> digits (String c r) None
  | EmptyString => None
  end.

(** The object handed to the ticket helpers. *)
Record TicketData : Type := mkTicketData {
  td_email : string;
  td_subject : string;
  td_description : string;
  td_source : N;
  td_product_id : option Z;
  td_status : option (option Z);
  td_priority : option (option Z);
  td_intercom_conversation_id : option string
}.

(** The ticket that [createFreshdeskTicket] resolves with. *)
Record TicketResponse : Type := mkTicketResponse {
  response_id : N
}.

(** The conversation that [fetchIntercomConversation] resolves with. Its
    content is only passed on to [formatConversationAsHtml]. *)
Definition Conversation : Type := string.

(** ** Views *)

Inductive Action : Type := Submit | Reload.

Record DropOption : Type := mkOption {
  option_id : string;
  option_text : string;
  option_value : string
}.

(** The components of a canvas. Of an input, [required_rule] and
    [format_rule] are the error texts of its [validation_rules]. *)
Inductive Component : Type :=
| CText (id : option string) (text : string) (style : option string)
        (size : option string)
| CInput (id label value : string) (placeholder : option string)
         (error : option string) (required_rule format_rule : option string)
| CTextarea (id label value : string)
| CDropdown (id label value : string) (options : option (list DropOption))
| CButton (id label style : string) (disabled : option bool) (action : Action)
| CDivider
| CSpacer (size : string).

(** [canvas.content]: the components, the selected [values] (status and
    priority) and the [validation_errors] (email and subject). *)
Record Canvas : Type := mkCanvas {
  components : list Component;
  values : option (string * string);
  validation_errors : option (option string * option string)
}.

(** What [res.json] is given. *)
Inductive ResBody : Type :=
| CanvasBody (c : Canvas)
| TicketsBody (tickets : list Ticket)
| CreatedBody (ticket : TicketResponse)
| ErrorBody (error : string) (details : option string).

(** ** State *)

(** A value of the [ticketTracker] map; the time stamps [startedAt] and
    [createdAt] are left out. *)
Record TicketInfo : Type := mkTicketInfo {
  inProgress : bool;
  ticketId : option N;
  error : option string
}.

(** [app.locals.intercomContext]. *)
Record IntercomContext : Type := mkContext {
  customerEmail : string;
  defaultTitle : string;
  defaultDescription : string
}.

(** The calls that leave the process. *)
Inductive ExternalCall : Type :=
| FetchMailboxes
| FetchTicketFields
| FetchFieldChoices (field : N)
| FetchRecentTickets (email : string)
| FetchIntercomConversation (conversationId : string)
| FormatConversationAsHtml (conversation : Conversation)
| AddConversationTranscriptToTicket (ticketData : TicketData)
                                    (conversationId : string)
| CreateFreshdeskTicket (ticketData : TicketData)
| PostIntercomNote (conversationId noteBody : string).

(** What a request leaves behind, oldest first: outside calls, the
    [console.error] lines that report a caught error, calls of
    [res.json], writes of the tracker and the start of the detached task. *)
Inductive Event : Type :=
| Call (c : ExternalCall)
| LogError (label : string) (e : JsError)
| Emit (status : N) (body : ResBody)
| TrackerSet (email : string) (info : TicketInfo)
| TrackerDelete (email : string)
| BackgroundScheduled.

(** The 9 s timer of [/api/submit]. *)
Inductive Timer : Type := Armed | Cleared | Fired.

(** The state of the process ([ticketTracker], [intercomContext]) and of
    the request being served ([responseSent], the timer, the time since
    the request came in, in milliseconds). *)
Record State : Type := mkState {
  ticketTracker : gmap string TicketInfo;
  intercomContext : option IntercomContext;
  responseSent : bool;
  timer : Timer;
  clock : N;
  trace : list Event
}.

(** The state in which a request finds the process. *)
Definition fresh_request (tracker : gmap string TicketInfo)
    (ctx : option IntercomContext) : State :=
  mkState tracker ctx false Armed 0 [].

(** ** The outside world *)

(** An awaited call: how it settles and how long that takes. *)
Record Timed (A : Type) : Type := mkTimed {
  reply : JsError + A;
  elapsed : N
}.
Arguments mkTimed {A} reply elapsed.
Arguments reply {A} t.
Arguments elapsed {A} t.

Record World : Type := mkWorld {
  FRESHDESK_DOMAIN : string;
  INTERCOM_INBOX_URL : string;
  (** the text [`${datePart}, ${formattedTime}`] that the views derive
      from [ticket.created_at] with [toLocaleString('en-IN', ...)] *)
  ticket_date_text : string -> string;
  (** [fetchWithRetry] on the mailboxes, the ticket fields, the choices
      of a field and the recent tickets of an email *)
  mailboxes_api : Timed (list Mailbox);
  ticket_fields_api : Timed (list Field);
  field_choices_api : N -> Timed (list Choice);
  recent_tickets_retry_api : string -> Timed (list Ticket);
  (** [axios.get] on the recent tickets, in the handler and in the
      callback of the timer *)
  recent_tickets_api : string -> Timed (list Ticket);
  recent_tickets_on_timeout : string -> JsError + list Ticket;
  (** the helpers of [./conversation-helper] *)
  fetchIntercomConversation : string -> JsError + Conversation;
  formatConversationAsHtml : Conversation -> JsError + string;
  addConversationTranscriptToTicket : TicketData -> string -> JsError + TicketData;
  createFreshdeskTicket : TicketData -> JsError + TicketResponse;
  (** [axios.post] of a note to the Intercom conversation *)
  intercom_reply_api : string -> string -> JsError + unit
}.

(** ** Effects *)

(** A computation ends normally or throws. *)
Inductive Outcome (A : Type) : Type :=
| Done (a : A)
| Raise (e : JsError).
Arguments Done {A} a.
Arguments Raise {A} e.

Definition M (A : Type) : Type := State -> Outcome A * State.

Definition ret {A : Type} (a : A) : M A := fun st => (Done a, st).

Definition bind {A B : Type} (m : M A) (k : A -> M B) : M B :=
  fun st =>
    match m st with
    | (Done a, st') => k a st'
    | (Raise e, st') => (Raise e, st')
    end.

Definition raise {A : Type} (e : JsError) : M A := fun st => (Raise e, st).

(** [try { m } catch (e) { handler e }]. *)
Definition try_catch {A : Type} (m : M A) (handler : JsError -> M A) : M A :=
  fun st =>
    match m st with
    | (Done a, st') => (Done a, st')
    | (Raise e, st') => handler e st'
    end.

Declare Scope js_scope.
Delimit Scope js_scope with js.
Notation "x <- m ;; k" := (bind m (fun x => k))
  (at level 100, m at next level, right associativity) : js_scope.
Notation "m ;; k" := (bind m (fun _ => k))
  (at level 100, right associativity) : js_scope.
Local Open Scope js_scope.

Definition with_tracker (st : State) (t : gmap string TicketInfo) : State :=
  mkState t (intercomContext st) (responseSent st) (timer st) (clock st) (trace st).
Definition with_context (st : State) (c : option IntercomContext) : State :=
  mkState (ticketTracker st) c (responseSent st) (timer st) (clock st) (trace st).
Definition with_responseSent (st : State) (b : bool) : State :=
  mkState (ticketTracker st) (intercomContext st) b (timer st) (clock st) (trace st).
Definition with_timer (st : State) (t : Timer) : State :=
  mkState (ticketTracker st) (intercomContext st) (responseSent st) t (clock st) (trace st).
Definition with_clock (st : State) (c : N) : State :=
  mkState (ticketTracker st) (intercomContext st) (responseSent st) (timer st) c (trace st).
Definition with_trace (st : State) (t : list Event) : State :=
  mkState (ticketTracker st) (intercomContext st) (responseSent st) (timer st) (clock st) t.

Definition record (ev : Event) : M unit :=
  fun st => (Done tt, with_trace st (trace st ++ [ev])).

(** [console.error(label, error)] in a [catch] block. *)
Definition console_error (label : string) (e : JsError) : M unit :=
  record (LogError label e).

(** [ticketTracker.set(email, info)]. *)
Definition tracker_set (email : string) (info : TicketInfo) : M unit :=
  fun st =>
    (Done tt,
     with_trace (with_tracker st (<[email := info]> (ticketTracker st)))
                (trace st ++ [TrackerSet email info])).

(** [ticketTracker.delete(email)]. *)
Definition tracker_delete (email : string) : M unit :=
  fun st =>
    (Done tt,
     with_trace (with_tracker st (delete email (ticketTracker st)))
                (trace st ++ [TrackerDelete email])).

Definition is_emit (ev : Event) : bool :=
  match ev with Emit _ _ => true | _ => false end.

(** [res.headersSent]. *)
Definition headersSent (st : State) : bool := existsb is_emit (trace st).

(** The number of calls of [res.json] so far. *)
Definition emissions (st : State) : nat :=
  length (List.filter is_emit (trace st)).

(** The responses handed to [res.json], oldest first. *)
Definition emitted (st : State) : list (N * ResBody) :=
  omap (fun ev => match ev with Emit s b => Some (s, b) | _ => None end)
       (trace st).

Definition ERR_HTTP_HEADERS_SENT : JsError :=
  mkError "Cannot set headers after they are sent to the client" None None.

(** [res.status(status).json(body)]: Express throws when a response has
    gone out already. The call is recorded either way. *)
Definition res_json (status : N) (body : ResBody) : M unit :=
  fun st =>
    let st' := with_trace st (trace st ++ [Emit status body]) in
    if headersSent st then (Raise ERR_HTTP_HEADERS_SENT, st') else (Done tt, st').

(** An awaited call outside of [/api/submit]: no timer is pending. *)
Definition call {A : Type} (c : ExternalCall) (r : JsError + A) : M A :=
  record (Call c) ;;
  match r with
  | inl e => raise e
  | inr a => ret a
  end.

(** ** Views *)

(** [s.toLowerCase()] on code units below U+0100. *)
Definition lower_char (c : ascii) : ascii :=
  let n := nat_of_ascii c in
  if ((65 <=? n) && (n <=? 90))
     || ((192 <=? n) && (n <=? 222) && negb (n =? 215))
  then ascii_of_nat (n + 32) else c.

Fixpoint toLowerCase (s : string) : string :=
  match s with
  | EmptyString => EmptyString
  | String c s' => String (lower_char c) (toLowerCase s')
  end.

(** A present, truthy value. *)
Definition truthy_value (v : option string) : option string :=
  match v with
  | Some s => if Js.truthy s then Some s else None
  | None => None
  end.

Definition submit_button (disabled : option bool) : Component :=
  CButton "submit_ticket_button" "Create Ticket" "primary" disabled Submit.

Definition cancel_button (disabled : option bool) : Component :=
  CButton "cancel" "Cancel" "secondary" disabled Submit.

(** The head of the home page: the create button, a divider and the
    header of the recent tickets. *)
Definition home_header (label : string) : list Component :=
  [ CButton "create_ticket" label "primary" None Submit;
    CDivider;
    CText (Some "recent_tickets_header") "Recent Tickets" (Some "header") None ].

Definition no_tickets : Component :=
  CText (Some "no_tickets") "No recent tickets" (Some "muted") None.

(** The subject of a ticket, cut after 40 code units. *)
Definition displaySubject (subject : string) : string :=
  if 40 <? String.length subject then String.substring 0 40 subject +:+ "..."
  else subject.

Definition ticket_components (w : World) (t : Ticket) : list Component :=
  let id := Js.showN (ticket_id t) in
  [ CText (Some ("ticket_" +:+ id))
          ("[#" +:+ id +:+ " - " +:+ displaySubject (ticket_subject t) +:+ "]("
             +:+ FRESHDESK_DOMAIN w +:+ "/a/tickets/" +:+ id +:+ ")")
          (Some "muted") None;
    CText (Some ("ticket_date_" +:+ id))
          (ticket_date_text w (ticket_created_at t))
          (Some "muted") (Some "small");
    CSpacer "xs" ].

(** The lines of the recent tickets, or the line that says there are none. *)
Definition tickets_part (w : World) (tickets : list Ticket) : list Component :=
  match tickets with
  | [] => [no_tickets]
  | _ => flat_map (ticket_components w) tickets
  end.

(** The home page with the given recent tickets. *)
Definition home_view (w : World) (label : string) (tickets : list Ticket)
  : ResBody :=
  CanvasBody (mkCanvas (home_header label ++ tickets_part w tickets) None None).

(** The home page of the branches that answer without looking anything up. *)
Definition plain_home_view : ResBody :=
  CanvasBody
    (mkCanvas (home_header "Create a Freshdesk Ticket" ++ [no_tickets]) None None).

(** The view sent when the data of the form cannot be loaded. *)
Definition load_error_view : ResBody :=
  CanvasBody
    (mkCanvas
       [ CText None "Error" (Some "header") None;
         CText None "Failed to load Freshdesk data. Please try again in a moment."
               (Some "error") None;
         CButton "retry_button" "Retry" "primary" None Submit ]
       None None).

(** The view sent when subject, description or mailbox is missing. *)
Definition required_fields_view : ResBody :=
  CanvasBody
    (mkCanvas
       [ CText None "Please fill in all required fields" (Some "error") None;
         CButton "try_again" "Try Again" "primary" None Reload ]
       None None).

Definition mailbox_option (m : Mailbox) : DropOption :=
  mkOption ("product_" +:+ Js.showN (mailbox_product_id m))
           (mailbox_name m +:+ " (" +:+ mailbox_support_email m +:+ ")")
           (Js.showN (mailbox_product_id m)).

Definition status_option (c : Choice) : DropOption :=
  mkOption ("status_" +:+ Js.showN (choice_id c)) (choice_label c)
           (Js.showN (choice_id c)).

Definition priority_option (c : Choice) : DropOption :=
  mkOption ("priority_" +:+ Js.showN (choice_value c)) (choice_label c)
           (Js.showN (choice_value c)).

(** [choices.find(c => c.label.toLowerCase() === label) || choices[0]]. *)
Definition default_choice (label : string) (choices : list Choice)
  : option Choice :=
  match List.find (fun c => String.eqb (toLowerCase (choice_label c)) label) choices with
  | Some c => Some c
  | None => head choices
  end.

Definition email_input (value : string) (error : option string) : Component :=
  CInput "email" "Email" value (Some "Enter email address") error
         (Some "Email is required") (Some "Please enter a valid email address").

(** The form that the [create_ticket] button opens. *)
Definition form_view (customerEmail defaultTitle : string)
    (mailboxes : list Mailbox) (statusChoices priorityChoices : list Choice)
  : ResBody :=
  let activeMailboxes := List.filter mailbox_active mailboxes in
  let mailbox_dropdown :=
    match activeMailboxes with
    | [] => []
    | first :: _ =>
        let defaultMailbox :=
          default first (List.find mailbox_default_reply_email activeMailboxes) in
        [ CDropdown "product_id" "Configure Email"
                    ("product_" +:+ Js.showN (mailbox_product_id defaultMailbox))
                    (Some (map mailbox_option activeMailboxes)) ]
    end in
  let selectedStatus := default_choice "open" statusChoices in
  let selectedPriority := default_choice "medium" priorityChoices in
  let status_value :=
    match selectedStatus with
    | Some c => "status_" +:+ Js.showN (choice_id c)
    | None => ""
    end in
  let priority_value :=
    match selectedPriority with
    | Some c => "priority_" +:+ Js.showN (choice_value c)
    | None => ""
    end in
  let status_dropdown :=
    match statusChoices with
    | [] => []
    | _ => [ CDropdown "status" "Status" status_value
                       (Some (map status_option statusChoices)) ]
    end in
  let priority_dropdown :=
    match priorityChoices with
    | [] => []
    | _ => [ CDropdown "priority" "Priority" priority_value
                       (Some (map priority_option priorityChoices)) ]
    end in
  CanvasBody
    (mkCanvas
       ([ CText None "Create a new Freshdesk ticket" (Some "header") None;
          email_input customerEmail None;
          CInput "subject" "Subject"
                 (if Js.truthy defaultTitle then defaultTitle else "New Ticket")
                 None None None None;
          CTextarea "description" "Description" "Chat Transcript Added" ]
          ++ mailbox_dropdown ++ status_dropdown ++ priority_dropdown
          ++ [ submit_button (Some false); cancel_button (Some false) ])
       (Some (status_value, priority_value))
       (Some (Some (if Js.truthy customerEmail then "" else "Email is required"),
              None))).

(** The form sent back when the email or the subject of a submission is
    empty. *)
Definition error_form_view (inputValues : InputValues) (defaultTitle : string)
    (isEmailEmpty isSubjectEmpty : bool)
    (activeMailboxes : list Mailbox) (statusChoices priorityChoices : list Choice)
  : ResBody :=
  let mailbox_dropdown :=
    match activeMailboxes with
    | [] => []
    | first :: _ =>
        [ CDropdown "product_id" "Configure Email"
                    (Js.or_str (iv_product_id inputValues)
                               ("product_" +:+ Js.showN (mailbox_product_id first)))
                    (Some (map mailbox_option activeMailboxes)) ]
    end in
  let status_dropdown :=
    match statusChoices with
    | [] => []
    | _ => [ CDropdown "status" "Status"
                       (Js.or_str (iv_status inputValues) "status_2")
                       (Some (map status_option statusChoices)) ]
    end in
  let priority_dropdown :=
    match priorityChoices with
    | [] => []
    | _ => [ CDropdown "priority" "Priority"
                       (Js.or_str (iv_priority inputValues) "priority_2")
                       (Some (map priority_option priorityChoices)) ]
    end in
  CanvasBody
    (mkCanvas
       ([ CText None
                (if isEmailEmpty && isSubjectEmpty then "Email and Subject are required"
                 else if isEmailEmpty then "Email is required"
                 else "Subject is required")
                (Some "error") None;
          email_input (if isEmailEmpty then "" else default "" (iv_email inputValues))
                      (if isEmailEmpty then Some "Email is required" else None);
          CInput "subject" "Subject"
                 (if isSubjectEmpty then ""
                  else Js.or_str (iv_subject inputValues)
                         (if Js.truthy defaultTitle then defaultTitle else "New Ticket"))
                 None
                 (if isSubjectEmpty then Some "Subject is required" else None)
                 (Some "Subject is required") None;
          CTextarea "description" "Description"
                    (Js.or_str (iv_description inputValues) "Chat Transcript Added") ]
          ++ mailbox_dropdown ++ status_dropdown ++ priority_dropdown
          ++ [ submit_button None; cancel_button None ])
       None
       (Some (if isEmailEmpty then Some "Email is required" else None,
              if isSubjectEmpty then Some "Subject is required" else None))).

(** The form of the second check of email and subject. *)
Definition second_check_view (inputValues : InputValues)
    (subject description defaultTitle defaultDescription : string) : ResBody :=
  let dropdown (id label : string) (v : option string) :=
    match truthy_value v with
    | Some x => [ CDropdown id label x None ]
    | None => []
    end in
  CanvasBody
    (mkCanvas
       ([ CText None "Create a new Freshdesk ticket" (Some "header") None;
          email_input "" (Some "Email is required");
          CInput "subject" "Subject"
                 (if Js.truthy subject then subject
                  else if Js.truthy defaultTitle then defaultTitle else "New Ticket")
                 None None None None;
          CTextarea "description" "Description"
                    (if Js.truthy description then description else defaultDescription) ]
          ++ dropdown "product_id" "Configure Email" (iv_product_id inputValues)
          ++ dropdown "status" "Status" (iv_status inputValues)
          ++ dropdown "priority" "Priority" (iv_priority inputValues)
          ++ [ submit_button (Some false); cancel_button (Some false) ])
       None
       (Some (Some "Email is required", None))).

(** The error shown at the input called [id], if the view has such an
    input and flags it. *)
Definition field_error (id : string) (view : ResBody) : option string :=
  match view with
  | CanvasBody c =>
      match List.find (fun comp =>
                         match comp with
                         | CInput i _ _ _ _ _ _ => String.eqb i id
                         | _ => false
                         end) (components c) with
      | Some (CInput _ _ _ _ error _ _) => error
      | _ => None
      end
  | _ => None
  end.

(** [canvas.content.validation_errors] of a view. *)
Definition view_validation_errors (view : ResBody)
  : option (option string * option string) :=
  match view with
  | CanvasBody c => validation_errors c
  | _ => None
  end.

(** The steps of the detached task: reading the transcript is step 1,
    creating the ticket step 2, the note step 3 and the write of the
    tracker step 4. *)
Definition phase (ev : Event) : option nat :=
  match ev with
  | Call (FetchIntercomConversation _) | Call (FormatConversationAsHtml _) => Some 1
  | Call (AddConversationTranscriptToTicket _ _) | Call (CreateFreshdeskTicket _) =>
      Some 2
  | Call (PostIntercomNote _ _) => Some 3
  | TrackerSet _ _ => Some 4
  | _ => None
  end.

Fixpoint nondecreasing (l : list nat) : bool :=
  match l with
  | a :: (b :: _) as rest => (a <=? b) && nondecreasing rest
  | _ => true
  end.

(** The notes posted, oldest first. *)
Definition notes_of (events : list Event) : list (string * string) :=
  omap (fun ev => match ev with
                  | Call (PostIntercomNote cid noteBody) => Some (cid, noteBody)
                  | _ => None
                  end) events.

(** The writes of the tracker, oldest first. *)
Definition tracker_writes (events : list Event) : list (string * TicketInfo) :=
  omap (fun ev => match ev with
                  | TrackerSet email info => Some (email, info)
                  | _ => None
                  end) events.

(** The tickets handed to [createFreshdeskTicket], oldest first. *)
Definition creations_of (events : list Event) : list TicketData :=
  omap (fun ev => match ev with
                  | Call (CreateFreshdeskTicket ticketData) => Some ticketData
                  | _ => None
                  end) events.

(** ** [postIntercomNote] *)

(** The helper catches the failure of its request and returns [null]. *)
Definition postIntercomNote (w : World) (conversationId noteBody : string)
  : M unit :=
  try_catch
    (call (PostIntercomNote conversationId noteBody)
          (intercom_reply_api w conversationId noteBody))
    (fun e => console_error "Error posting note to Intercom:" e).

(** ** [POST /api/submit] *)

(** What the detached task of an accepted submission closes over. *)
Record Background : Type := mkBackground {
  bg_email : string;
  bg_subject : string;
  bg_description : string;
  bg_product_id : string;
  bg_status : string;
  bg_priority : string;
  bg_conversationId : option string
}.

(** The [ticketData] that the detached task builds from what it closes
    over and from the description it has arrived at. *)
Definition task_ticket_data (task : Background) (description : string)
  : TicketData :=
  mkTicketData (bg_email task) (bg_subject task) description 2
               (parseInt10 (bg_product_id task))
               (if Js.truthy (bg_status task)
                then Some (parseInt10 (bg_status task)) else None)
               (if Js.truthy (bg_priority task)
                then Some (parseInt10 (bg_priority task)) else None)
               None.

(** The notes that the detached task posts. *)
Definition success_note (w : World) (ticketResponse : TicketResponse) : string :=
  "Freshdesk Ticket creation successful." +:+ Banner.nl +:+ "Ticket URL: "
    +:+ (FRESHDESK_DOMAIN w +:+ "/a/tickets/"
           +:+ Js.showN (response_id ticketResponse)).

Definition failure_note (error : JsError) : string :=
  "Freshdesk Ticket creation failed. Contact Admin." +:+ Banner.nl
    +:+ "Error: " +:+ error_text error.

(** The tracker value of a submission in progress. *)
Definition in_progress : TicketInfo := mkTicketInfo true None None.

(** The tracker value of a created ticket. *)
Definition completed (id : N) : TicketInfo := mkTicketInfo false (Some id) None.

(** The tracker value of a failed creation. *)
Definition failed (text : string) : TicketInfo := mkTicketInfo false None (Some text).

(** A finished creation, one way or the other. *)
Definition terminal (info : TicketInfo) : Prop :=
  (exists id, info = completed id) \/ (exists text, info = failed text).

(** The delay of the timer, in milliseconds. *)
Definition deadline : N := 9000.

Section Submit.

Variable w : World.
Variable body : Body.

Definition contact_email : option string := contact body ≫= person_email.
Definition customer_email : option string := customer body ≫= person_email.
Definition contact_name : option string := contact body ≫= person_name.
Definition customer_name : option string := customer body ≫= person_name.

(** [req.body.input_values || {}]. *)
Definition form_values : InputValues :=
  default (mkInputValues None None None None None None) (input_values body).

(** [`Conversation from ${contactName}`] of the submit handler. *)
Definition request_title : string :=
  "Conversation from "
    +:+ Js.or_str (Js.or_else contact_name customer_name) "Contact".

(** [req.body.contact?.email || req.body.customer?.email || '']. *)
Definition request_email : string :=
  Js.or_str (Js.or_else contact_email customer_email) "".

(** [req.body.conversation?.source?.body || '']. *)
Definition request_description : string :=
  Js.or_str (conversation body ≫= source_body) "".

(** [req.body.conversation_id || req.body.conversation?.id]. *)
Definition request_conversation : option string :=
  Js.or_else (conversation_id body) (conversation body ≫= conversation_ref_id).

(** [req.body.component_id === id]. *)
Definition component_is (id : string) : bool :=
  match component_id body with
  | Some c => String.eqb c id
  | None => false
  end.

(** The callback of [setTimeout(..., 9000)]. Its request for the recent
    tickets is taken to settle before the handler goes on. *)
Definition onTimeout : M unit :=
  fun st =>
    if responseSent st then (Done tt, st)
    else
      let email :=
        Js.or_else contact_email
          (Js.or_else customer_email (customerEmail <$> intercomContext st)) in
      ((match truthy_value email with
        | Some e =>
            if component_is "submit_ticket_button" then tracker_set e in_progress
            else ret tt
        | None => ret tt
        end) ;;
       part <- try_catch
                 (match truthy_value email with
                  | Some e =>
                      data <- call (FetchRecentTickets e)
                                   (recent_tickets_on_timeout w e) ;;
                      ret (tickets_part w data)
                  | None => ret [no_tickets]
                  end)
                 (fun error =>
                    console_error "Error fetching recent tickets on timeout:" error ;;
                    ret [no_tickets]) ;;
       res_json 200
         (CanvasBody
            (mkCanvas (home_header "Create a Freshdesk Ticket" ++ part) None None)))
        (with_responseSent st true).

(** Time passes while the handler waits; a pending timer goes off once
    the deadline is reached. What its callback throws is not the
    handler's to catch. *)
Definition tick (ms : N) : M unit :=
  fun st =>
    let st1 := with_clock st (clock st + ms)%N in
    match timer st1 with
    | Armed =>
        if (deadline <=? clock st1)%N
        then (Done tt, snd (onTimeout (with_timer st1 Fired)))
        else (Done tt, st1)
    | _ => (Done tt, st1)
    end.

(** [await] of an outside call in the handler. *)
Definition await {A : Type} (c : ExternalCall) (t : Timed A) : M A :=
  record (Call c) ;;
  tick (elapsed t) ;;
  match reply t with
  | inl e => raise e
  | inr a => ret a
  end.

(** [sendResponse]: the first call answers the request and clears the
    timer, later calls do nothing. *)
Definition sendResponse (responseData : ResBody) : M unit :=
  fun st =>
    if responseSent st then (Done tt, st)
    else res_json 200 responseData (with_timer (with_responseSent st true) Cleared).

(** The choices of the field called [name], when there is such a field. *)
Definition fetch_choices (name : string) (fields : list Field) : M (list Choice) :=
  match List.find (fun f => String.eqb (field_name f) name) fields with
  | Some f => await (FetchFieldChoices (field_id f)) (field_choices_api w (field_id f))
  | None => ret []
  end.

(** The branch of the [create_ticket] button. *)
Definition show_form (customerEmail defaultTitle : string) : M unit :=
  loaded <- try_catch
              (mailboxes <- await FetchMailboxes (mailboxes_api w) ;;
               fields <- await FetchTicketFields (ticket_fields_api w) ;;
               statusChoices <- fetch_choices "status" fields ;;
               priorityChoices <- fetch_choices "priority" fields ;;
               ret (Some (mailboxes, statusChoices, priorityChoices)))
              (fun error =>
                 console_error "Error fetching Freshdesk data:" error ;;
                 res_json 500 load_error_view ;;
                 ret None) ;;
  match loaded with
  | Some (mailboxes, statusChoices, priorityChoices) =>
      sendResponse
        (form_view customerEmail defaultTitle mailboxes statusChoices priorityChoices)
  | None => ret tt
  end.

(** The data of the drop-downs of the error form. What was assigned
    before a request failed is kept. *)
Definition refetch_form_data : M (list Mailbox * list Choice * list Choice) :=
  let caught {A : Type} (m : M A) (kept : A) : M A :=
    try_catch m (fun error =>
                   console_error "Error fetching form data:" error ;; ret kept) in
  caught
    (mailboxes <- await FetchMailboxes (mailboxes_api w) ;;
     let activeMailboxes := List.filter mailbox_active mailboxes in
     caught
       (fields <- await FetchTicketFields (ticket_fields_api w) ;;
        caught
          (statusChoices <- fetch_choices "status" fields ;;
           caught
             (priorityChoices <- fetch_choices "priority" fields ;;
              ret (activeMailboxes, statusChoices, priorityChoices))
             (activeMailboxes, statusChoices, []))
          (activeMailboxes, [], []))
       (activeMailboxes, [], []))
    ([], [], []).

(** [!v || v.trim() === '']. *)
Definition is_empty (v : option string) : bool :=
  match v with
  | Some s => negb (Js.truthy s) || negb (Js.truthy (Js.trim s))
  | None => true
  end.

(** [v ? v.replace(prefix, '') : '']. *)
Definition strip_prefix (prefix : string) (v : option string) : string :=
  match truthy_value v with
  | Some s => Js.replace s prefix ""
  | None => ""
  end.

(** The values that a submission is read for, once email and subject
    have passed the first check. *)
Definition submitted_email : string :=
  Js.trim (default "" (iv_email form_values)).
Definition submitted_subject : string :=
  Js.trim (default "" (iv_subject form_values)).
Definition submitted_description : string :=
  Js.or_str (iv_description form_values) request_description.
Definition submitted_product_id : string :=
  strip_prefix "product_" (iv_product_id form_values).
Definition submitted_status : string :=
  strip_prefix "status_" (iv_status form_values).
Definition submitted_priority : string :=
  strip_prefix "priority_" (iv_priority form_values).

(** The task that an accepted submission detaches. *)
Definition submitted_task : Background :=
  mkBackground submitted_email submitted_subject submitted_description
               submitted_product_id submitted_status submitted_priority
               request_conversation.

(** The submission passes every check of the handler. *)
Definition accepted : bool :=
  negb (is_empty (iv_email form_values))
  && negb (is_empty (iv_subject form_values))
  && Js.truthy submitted_description
  && Js.truthy submitted_product_id.

(** The branch of the [submit_ticket_button] button. It returns the task
    it has detached, if any. *)
Definition submit_ticket (defaultTitle defaultDescription : string)
  : M (option Background) :=
  let inputValues := form_values in
  let isEmailEmpty := is_empty (iv_email inputValues) in
  let isSubjectEmpty := is_empty (iv_subject inputValues) in
  if isEmailEmpty || isSubjectEmpty then
    formData <- refetch_form_data ;;
    let '(activeMailboxes, statusChoices, priorityChoices) := formData in
    sendResponse
      (error_form_view inputValues defaultTitle isEmailEmpty isSubjectEmpty
                       activeMailboxes statusChoices priorityChoices) ;;
    ret None
  else
    let email := Js.trim (default "" (iv_email inputValues)) in
    let subject := Js.trim (default "" (iv_subject inputValues)) in
    let description := Js.or_str (iv_description inputValues) defaultDescription in
    let product_id := strip_prefix "product_" (iv_product_id inputValues) in
    let status := strip_prefix "status_" (iv_status inputValues) in
    let priority := strip_prefix "priority_" (iv_priority inputValues) in
    if negb (Js.truthy email) || negb (Js.truthy subject) then
      sendResponse
        (second_check_view inputValues subject description defaultTitle
                           defaultDescription) ;;
      ret None
    else if negb (Js.truthy subject) || negb (Js.truthy description)
            || negb (Js.truthy product_id) then
      sendResponse required_fields_view ;;
      ret None
    else
      let conversationId := request_conversation in
      recentTickets <- try_catch
                         (await (FetchRecentTickets email) (recent_tickets_api w email))
                         (fun error =>
                            console_error "Error fetching recent tickets:" error ;;
                            ret []) ;;
      (if Js.truthy email then tracker_set email in_progress else ret tt) ;;
      sendResponse (home_view w "Create a Freshdesk Ticket" recentTickets) ;;
      record BackgroundScheduled ;;
      ret (Some (mkBackground email subject description product_id status priority
                              conversationId)).

(** The branch of the [cancel] button. *)
Definition cancel : M unit :=
  try_catch
    (fun st =>
       let customerEmail :=
         Js.or_else contact_email
           (Js.or_else customer_email (customerEmail <$> intercomContext st)) in
       (part <- match truthy_value customerEmail with
                | Some e =>
                    try_catch
                      (data <- await (FetchRecentTickets e)
                                     (recent_tickets_retry_api w e) ;;
                       ret (tickets_part w data))
                      (fun error =>
                         console_error "Error fetching recent tickets:" error ;;
                         ret [no_tickets])
                | None => ret [no_tickets]
                end ;;
        sendResponse
          (CanvasBody (mkCanvas (home_header "Create a Ticket" ++ part) None None)))
         st)
    (fun error =>
       console_error "Error handling cancel button:" error ;;
       sendResponse
         (CanvasBody (mkCanvas (home_header "Create a Ticket" ++ [no_tickets])
                               None None))).

(** The body of the outer [try] block. *)
Definition handler_body : M (option Background) :=
  let defaultTitle := request_title in
  let customerEmail := request_email in
  let defaultDescription := request_description in
  (fun st =>
     (Done tt,
      with_context st (Some (mkContext customerEmail defaultTitle defaultDescription)))) ;;
  if component_is "create_ticket" then
    show_form customerEmail defaultTitle ;; ret None
  else if component_is "submit_ticket_button" then
    submit_ticket defaultTitle defaultDescription
  else if component_is "cancel" then
    cancel ;; ret None
  else if component_is "refresh_status" || component_is "retry_button" then
    res_json 200 plain_home_view ;; ret None
  else
    res_json 200 plain_home_view ;; ret None.

(** [sendResponse] is a [const] of the [try] block; the [catch] block
    that names it is outside of its scope. *)
Definition ReferenceError : JsError :=
  mkError "sendResponse is not defined" None None.

(** The handler up to the point where its promise settles. An error
    that reaches the outer [catch] ends in the rejection of that promise,
    which is handed to Express. *)
Definition handler : M (option Background) :=
  try_catch handler_body
    (fun error =>
       console_error "Error processing form submission:" error ;;
       raise ReferenceError).

(** The detached task of an accepted submission. *)
Definition background (task : Background) : M unit :=
  let email := bg_email task in
  let conversationId := truthy_value (bg_conversationId task) in
  try_catch
    (description <-
       match conversationId with
       | Some cid =>
           try_catch
             (conversation <- call (FetchIntercomConversation cid)
                                   (fetchIntercomConversation w cid) ;;
              transcriptHtml <- call (FormatConversationAsHtml conversation)
                                     (formatConversationAsHtml w conversation) ;;
              ret (if Js.truthy transcriptHtml
                   then bg_description task +:+ Banner.nl +:+ Banner.nl +:+ transcriptHtml
                   else bg_description task))
             (fun error =>
                console_error "Error fetching or formatting conversation:" error ;;
                ret (bg_description task))
       | None => ret (bg_description task)
       end ;;
     let ticketData := task_ticket_data task description in
     ticketDataWithTranscript <-
       match conversationId with
       | Some cid =>
           call (AddConversationTranscriptToTicket ticketData cid)
                (addConversationTranscriptToTicket w ticketData cid)
       | None => ret ticketData
       end ;;
     ticketResponse <- call (CreateFreshdeskTicket ticketDataWithTranscript)
                            (createFreshdeskTicket w ticketDataWithTranscript) ;;
     match conversationId with
     | Some cid => postIntercomNote w cid (success_note w ticketResponse)
     | None => ret tt
     end ;;
     if Js.truthy email
     then tracker_set email (completed (response_id ticketResponse))
     else ret tt)
    (fun error =>
       console_error "Background processing: Error creating ticket:" error ;;
       match conversationId with
       | Some cid => postIntercomNote w cid (failure_note error)
       | None => ret tt
       end ;;
       if Js.truthy email then tracker_set email (failed (error_text error))
       else ret tt).

(** A timer that is still pending when the handler is done goes off 9 s
    after the request came in. *)
Definition settle (st : State) : State :=
  match timer st with
  | Armed => snd (onTimeout (with_timer st Fired))
  | _ => st
  end.

(** The state when the handler's promise has settled. *)
Definition after_handler (st : State) : State := snd (handler st).

(** The request from its arrival to the end of everything it started:
    the handler, then the detached task if there is one, then the timer
    if it is still pending. *)
Definition submit (st : State) : State :=
  match handler st with
  | (Done (Some task), st1) => settle (snd (background task st1))
  | (_, st1) => settle st1
  end.

End Submit.

(** ** [POST /api/initialize] *)

(** [customer.email || contact.email ||
    (conversation.contact ? conversation.contact.email : '') || '']. *)
Definition initialize_email (body : Body) : string :=
  Js.or_str
    (Js.or_else (customer_email body)
       (Js.or_else (contact_email body)
          (conversation body ≫= conversation_contact_email))) "".

(** What the handler does to the state of the process: it forgets a
    submission in progress of the customer and stores the context. The
    rest of the handler (the recent tickets and the view) writes neither
    the tracker nor the context. *)
Definition initialize (body : Body) : M unit :=
  let customerEmail := initialize_email body in
  (fun st =>
     match ticketTracker st !! customerEmail with
     | Some ticketInfo =>
         if Js.truthy customerEmail && inProgress ticketInfo
         then tracker_delete customerEmail st
         else (Done tt, st)
     | None => (Done tt, st)
     end) ;;
  let contactName :=
    Js.or_str (Js.or_else (contact_name body) (customer_name body)) "" in
  let defaultTitle :=
    if Js.truthy contactName then "Conversation from " +:+ contactName
    else "New Conversation" in
  let defaultDescription :=
    Js.or_str
      (Js.or_else (conversation body ≫= default_description_attribute)
                  (conversation body ≫= source_body)) "" in
  fun st =>
    (Done tt,
     with_context st (Some (mkContext customerEmail defaultTitle defaultDescription))).

(** ** [GET /api/freshdesk/recent-tickets] *)

(** [query_email] is [req.query.email]. *)
Definition recent_tickets (w : World) (query_email : option string) : M unit :=
  try_catch
    (fun st =>
       let customerEmail :=
         Js.or_else query_email (customerEmail <$> intercomContext st) in
       match truthy_value customerEmail with
       | None => res_json 400 (ErrorBody "Customer email is required" None) st
       | Some e =>
           (tickets <- call (FetchRecentTickets e)
                            (reply (recent_tickets_retry_api w e)) ;;
            res_json 200 (TicketsBody tickets)) st
       end)
    (fun error =>
       console_error "Error fetching recent tickets:" error ;;
       res_json 500
         (ErrorBody "Failed to fetch recent tickets from Freshdesk"
                    (Some (message error)))).

(** ** [POST /api/freshdesk/create-ticket] *)

Record CreateTicketBody : Type := mkCreateTicketBody {
  ct_email : option string;
  ct_subject : option string;
  ct_description : option string;
  ct_status : option string;
  ct_priority : option string;
  ct_product_id : option string;
  ct_conversation_id : option string;
  ct_conversation : option ConversationRef
}.

Definition with_description (t : TicketData) (d : string) : TicketData :=
  mkTicketData (td_email t) (td_subject t) d (td_source t) (td_product_id t)
               (td_status t) (td_priority t) (td_intercom_conversation_id t).

Definition with_conversation_id (t : TicketData) (cid : string) : TicketData :=
  mkTicketData (td_email t) (td_subject t) (td_description t) (td_source t)
               (td_product_id t) (td_status t) (td_priority t) (Some cid).

Definition create_ticket (w : World) (req : CreateTicketBody) : M unit :=
  try_catch
    (let conversationId :=
       Js.or_else (ct_conversation_id req)
                  (ct_conversation req ≫= conversation_ref_id) in
     match truthy_value (ct_email req), truthy_value (ct_subject req),
           truthy_value (ct_description req), truthy_value (ct_product_id req) with
     | Some email, Some subject, Some description, Some product_id =>
         let ticketData :=
           mkTicketData email subject description 2 (parseInt10 product_id)
                        (parseInt10 <$> truthy_value (ct_status req))
                        (parseInt10 <$> truthy_value (ct_priority req))
                        None in
         ticketData <-
           match truthy_value conversationId with
           | Some cid =>
               let ticketData := with_conversation_id ticketData cid in
               ticketData <-
                 try_catch
                   (call (AddConversationTranscriptToTicket ticketData cid)
                         (addConversationTranscriptToTicket w ticketData cid))
                   (fun transcriptError =>
                      console_error "Error adding conversation transcript:"
                                    transcriptError ;;
                      ret ticketData) ;;
               let intercomUrl := Banner.intercomUrl (INTERCOM_INBOX_URL w) cid in
               ret (with_description ticketData
                      (Banner.merge intercomUrl (td_description ticketData)))
           | None => ret ticketData
           end ;;
         ticket <- call (CreateFreshdeskTicket ticketData)
                        (createFreshdeskTicket w ticketData) ;;
         res_json 200 (CreatedBody ticket)
     | _, _, _, _ => res_json 400 (ErrorBody "Missing required fields" None)
     end)
    (fun error =>
       console_error "Error creating ticket:" error ;;
       res_json 500
         (ErrorBody "Failed to create ticket"
                    (Some (Js.or_str (response_data error) (message error))))).

(** ** Predicates of the proofs *)

(** The state in which the next request finds the process. *)
Definition next_request (st : State) : State :=
  fresh_request (ticketTracker st) (intercomContext st).

(** An event that neither answers the request nor writes the tracker. *)
Definition quiet_event (ev : Event) : bool :=
  match ev with Call _ | LogError _ _ => true | _ => false end.

(** [st'] differs from [st] in the time and in calls and log lines only. *)
Definition untouched (st st' : State) : Prop :=
  ticketTracker st' = ticketTracker st /\
  intercomContext st' = intercomContext st /\
  responseSent st' = responseSent st /\
  timer st' = timer st /\
  exists l, trace st' = trace st ++ l /\ forallb quiet_event l = true.

(** A computation that only waits: the clock never goes back, and a run
    that ends before the deadline is [untouched]. *)
Definition waits_only {A : Type} (m : M A) : Prop :=
  forall st,
    (clock st <= clock (snd (m st)))%N /\
    ((clock (snd (m st)) < deadline)%N -> untouched st (snd (m st))).

(** A computation that never throws. *)
Definition never_throws {A : Type} (m : M A) : Prop :=
  forall st, exists a, fst (m st) = Done a.

(** A computation that leaves [app.locals.intercomContext] alone. *)
Definition keeps_context {A : Type} (m : M A) : Prop :=
  forall st, intercomContext (snd (m st)) = intercomContext st.

(** The [try] block of the [create_ticket] branch: the requests for
    the data of the form, as [show_form] makes them. *)
Definition load_form_data (w : World) (body : Body)
  : M (option (list Mailbox * list Choice * list Choice)) :=
  mailboxes <- await w body FetchMailboxes (mailboxes_api w) ;;
  fields <- await w body FetchTicketFields (ticket_fields_api w) ;;
  statusChoices <- fetch_choices w body "status" fields ;;
  priorityChoices <- fetch_choices w body "priority" fields ;;
  ret (Some (mailboxes, statusChoices, priorityChoices)).

(** A view that is not the form of the second check. *)
Definition other_view (b : ResBody) : Prop :=
  forall inputValues subject description defaultTitle defaultDescription,
    b <> second_check_view inputValues subject description defaultTitle
                           defaultDescription.

(** The flag [responseSent] and the timer are [sent] and [pending]. *)
Definition flags (sent : bool) (pending : Timer) (st : State) : Prop :=
  responseSent st = sent /\ timer st = pending.

(** The context that the handler of [/api/submit] stores for [body]. *)
Definition own_context (body : Body) (st : State) : Prop :=
  intercomContext st
  = Some (mkContext (request_email body) (request_title body)
                    (request_description body)).

(** An event that is not the lookup of the tickets of someone else: a
    lookup is for the email of the contact or customer of the request or
    for the email typed into its form. *)
Definition own_lookup (body : Body) (ev : Event) : Prop :=
  match ev with
  | Call (FetchRecentTickets email) =>
      email = request_email body \/ email = submitted_email body
  | _ => True
  end.

(** A computation under which [I] stays true. *)
Definition preserves {A : Type} (I : State -> Prop) (m : M A) : Prop :=
  forall st, I st -> I (snd (m st)).

(** A computation that does not throw when it starts in a state of [I]. *)
Definition total {A : Type} (I : State -> Prop) (m : M A) : Prop :=
  forall st, I st -> exists a, fst (m st) = Done a.

(** A computation that returns values of [Q] only. *)
Definition returns {A : Type} (Q : A -> Prop) (m : M A) : Prop :=
  forall st a, fst (m st) = Done a -> Q a.

(** Every event since the trace was [prefix] is a [good] one. *)
Definition events_since (prefix : list Event) (good : Event -> Prop) (st : State)
  : Prop :=
  exists l, trace st = prefix ++ l /\ Forall good l.

(** The request has not been answered and its timer is pending, or it has
    been answered once, [responseSent] is set and the timer is not pending
    any more. *)
Definition answered_once (st : State) : Prop :=
  (responseSent st = false /\ timer st = Armed /\ emissions st = 0) \/
  (responseSent st = true /\ timer st <> Armed /\ emissions st = 1).

(** Once [responseSent] is set or the timer is not pending any more, a
    response has gone out. *)
Definition answered_when_settled (st : State) : Prop :=
  responseSent st = true \/ timer st <> Armed -> 1 <= emissions st.

(** What an event does to the tracker. *)
Definition apply_event (tracker : gmap string TicketInfo) (ev : Event)
  : gmap string TicketInfo :=
  match ev with
  | TrackerSet email info => <[email := info]> tracker
  | TrackerDelete email => delete email tracker
  | _ => tracker
  end.

(** The tracker is what the events so far have made of [tracker]. *)
Definition tracked (tracker : gmap string TicketInfo) (st : State) : Prop :=
  ticketTracker st = fold_left apply_event (trace st) tracker.

(** An event that writes the tracker. *)
Definition is_write (ev : Event) : bool :=
  match ev with TrackerSet _ _ | TrackerDelete _ => true | _ => false end.

(** A call of [createFreshdeskTicket]. *)
Definition is_creation (ev : Event) : bool :=
  match ev with Call (CreateFreshdeskTicket _) => true | _ => false end.

End Server.

(* ===================================================================== *)
(** * The lookup routes of the React client *)
(* ===================================================================== *)

Module Lookup.
Import Server.

(** What [res.json] is given by [GET /api/freshdesk/statuses] and
    [GET /api/freshdesk/priorities]: the statuses as [{id, label}], the
    priorities as Freshdesk lists them, or an error without details. *)
Inductive Answer : Type :=
| StatusList (statuses : list (N * string))
| PriorityList (choices : list Choice)
| Failure (error : string).

(** The [try] block of both routes up to the choices of the field called
    [name]: the ticket fields are asked for, the field is looked up by its
    name ([throw new Error('... field not found')] without it) and its
    choices are asked for. Both requests go through [fetchWithRetry]. *)
Definition choices_of (w : World) (name : string) (not_found : string)
  : JsError + list Choice :=
  match reply (ticket_fields_api w) with
  | inl e => inl e
  | inr fields =>
      match List.find (fun f => String.eqb (field_name f) name) fields with
      | None => inl (mkError not_found None None)
      | Some f => reply (field_choices_api w (field_id f))
      end
  end.

(** [GET /api/freshdesk/statuses]: the status and the body of the answer. *)
Definition statuses (w : World) : N * Answer :=
  match choices_of w "status" "Status field not found" with
  | inr choices =>
      (200%N, StatusList (map (fun c => (choice_id c, choice_label c)) choices))
  | inl _ => (500%N, Failure "Failed to fetch statuses from Freshdesk")
  end.

(** [GET /api/freshdesk/priorities]. *)
Definition priorities (w : World) : N * Answer :=
  match choices_of w "priority" "Priority field not found" with
  | inr choices => (200%N, PriorityList choices)
  | inl _ => (500%N, Failure "Failed to fetch priorities from Freshdesk")
  end.

End Lookup.

(* ===================================================================== *)
(** * Requests and worlds of the examples *)
(* ===================================================================== *)

Module Scenario.
Import Server.

Definition alice : string := "alice@example.com".
Definition bob : string := "bob@example.com".

Definition alice_ticket : Ticket := mkTicket 1 "Invoice of Alice" "2024-05-01T10:00:00Z".
Definition bob_ticket : Ticket := mkTicket 2 "Password of Bob" "2024-05-02T11:00:00Z".

(** The tickets that Freshdesk lists for an email. *)
Definition tickets_of (email : string) : list Ticket :=
  if String.eqb email alice then [alice_ticket]
  else if String.eqb email bob then [bob_ticket]
  else [].

(** Every request to the outside succeeds and takes [ms] milliseconds;
    the ticket that is created has the number 42. *)
Definition world_taking (ms : N) : World :=
  mkWorld "https://acme.freshdesk.com" "https://app.intercom.com/inbox"
          (fun created_at => created_at)
          (mkTimed (inr []) ms) (mkTimed (inr []) ms)
          (fun _ => mkTimed (inr []) ms)
          (fun email => mkTimed (inr (tickets_of email)) ms)
          (fun email => mkTimed (inr (tickets_of email)) ms)
          (fun email => inr (tickets_of email))
          (fun _ => inr "conversation") (fun _ => inr "<p>Hello</p>")
          (fun ticketData _ => inr ticketData)
          (fun _ => inr (mkTicketResponse 42)) (fun _ _ => inr tt).

(** Freshdesk answers in 100 ms. *)
Definition world : World := world_taking 100.

(** Freshdesk answers in 9.5 s. *)
Definition slow_world : World := world_taking 9500.

(** Intercom does not hand out the conversation. *)
Definition world_without_transcript : World :=
  mkWorld "https://acme.freshdesk.com" "https://app.intercom.com/inbox"
          (fun created_at => created_at)
          (mkTimed (inr []) 100) (mkTimed (inr []) 100)
          (fun _ => mkTimed (inr []) 100)
          (fun email => mkTimed (inr (tickets_of email)) 100)
          (fun email => mkTimed (inr (tickets_of email)) 100)
          (fun email => inr (tickets_of email))
          (fun _ => inl (mkError "Request failed with status code 404" None None))
          (fun _ => inr "<p>Hello</p>")
          (fun ticketData _ => inr ticketData)
          (fun _ => inr (mkTicketResponse 42)) (fun _ _ => inr tt).

Definition person (email : string) : option Person :=
  Some (mkPerson (Some email) None).

(** A form: email, subject, description and mailbox. *)
Definition form (email subject : string) (description product_id : option string)
  : option InputValues :=
  Some (mkInputValues (Some email) (Some subject) description product_id None None).

(** A click on a button that the handler does not know. *)
Definition unknown_button : Body :=
  mkBody (Some "some_other_button") (person alice) None None None None.

(** A submission whose email has no [@]. *)
Definition malformed_email : Body :=
  mkBody (Some "submit_ticket_button") (person alice) None None None
         (form "not-an-email" "Help" (Some "It is broken") (Some "product_7")).

(** A submission whose email is empty. *)
Definition empty_email : Body :=
  mkBody (Some "submit_ticket_button") (person alice) None None None
         (form "" "Help" (Some "It is broken") (Some "product_7")).

(** A submission with email and subject but no mailbox. *)
Definition no_mailbox : Body :=
  mkBody (Some "submit_ticket_button") (person alice) None None None
         (form alice "Help" (Some "It is broken") None).

(** A submission with email, subject and mailbox but no description. *)
Definition no_description : Body :=
  mkBody (Some "submit_ticket_button") (person alice) None None None
         (form alice "Help" None (Some "product_7")).

(** A complete submission without a conversation. *)
Definition complete_by (email : string) : Body :=
  mkBody (Some "submit_ticket_button") (person email) None None None
         (form email "Help" (Some "It is broken") (Some "product_7")).

Definition complete : Body := complete_by alice.

(** A complete submission from the conversation 77. *)
Definition complete_in_conversation : Body :=
  mkBody (Some "submit_ticket_button") (person alice) None None (Some "77")
         (form alice "Help" (Some "It is broken") (Some "product_7")).

(** A complete submission in which the agent has replaced the email of
    the contact, Alice, by the one of Bob. *)
Definition edited_email : Body :=
  mkBody (Some "submit_ticket_button") (person alice) None None None
         (form bob "Help" (Some "It is broken") (Some "product_7")).

(** The canvas is opened for a customer. *)
Definition opened_by (email : string) : Body :=
  mkBody None None (person email) None None None.

(** The process after it has started. *)
Definition started : State := fresh_request ∅ None.

(** The task of [complete_in_conversation]. *)
Definition task_in_conversation : Background :=
  mkBackground alice "Help" "It is broken" "7" "" "" (Some "77").

(** The URL of the conversation 77 in the inbox. *)
Definition conversation_url : string :=
  Banner.intercomUrl "https://app.intercom.com/inbox" "77".

(** A request to [/api/freshdesk/create-ticket] from the conversation 77. *)
Definition create_request : CreateTicketBody :=
  mkCreateTicketBody (Some alice) (Some "Help") (Some "It is broken") None None
                     (Some "7") (Some "77") None.

(** An error of Freshdesk. *)
Definition server_error : JsError :=
  mkError "Request failed with status code 500" None (Some "Internal error").

(** A click on the button that opens the form. *)
Definition open_form : Body :=
  mkBody (Some "create_ticket") (person alice) None None None None.

(** A click on the button that leaves the form. *)
Definition cancel_click : Body :=
  mkBody (Some "cancel") (person alice) None None None None.

(** Freshdesk does not hand out the mailboxes. *)
Definition world_without_mailboxes : World :=
  mkWorld "https://acme.freshdesk.com" "https://app.intercom.com/inbox"
          (fun created_at => created_at)
          (mkTimed (inl server_error) 100) (mkTimed (inr []) 100)
          (fun _ => mkTimed (inr []) 100)
          (fun email => mkTimed (inr (tickets_of email)) 100)
          (fun email => mkTimed (inr (tickets_of email)) 100)
          (fun email => inr (tickets_of email))
          (fun _ => inr "conversation") (fun _ => inr "<p>Hello</p>")
          (fun ticketData _ => inr ticketData)
          (fun _ => inr (mkTicketResponse 42)) (fun _ _ => inr tt).

(** A mailbox, a status and a priority of Freshdesk. *)
Definition support_mailbox : Mailbox :=
  mkMailbox "Support" "support@example.com" 7 true true.
Definition open_status : Choice := mkChoice 2 "Open" 2.
Definition high_priority : Choice := mkChoice 3 "High" 3.

(** A submission that holds what the form offers for them. *)
Definition selected : Body :=
  mkBody (Some "submit_ticket_button") (person alice) None None None
         (Some (mkInputValues (Some alice) (Some "Help") (Some "It is broken")
                              (Some "product_7") (Some "status_2")
                              (Some "priority_3"))).

(** The task of [complete]. *)
Definition task_alone : Background :=
  mkBackground alice "Help" "It is broken" "7" "" "" None.

(** Freshdesk lists a mailbox, two statuses and a priority. *)
Definition closed_status : Choice := mkChoice 5 "Closed" 5.
Definition world_with_choices : World :=
  mkWorld "https://acme.freshdesk.com" "https://app.intercom.com/inbox"
          (fun created_at => created_at)
          (mkTimed (inr [support_mailbox]) 100)
          (mkTimed (inr [mkField 11 "status"; mkField 12 "priority"]) 100)
          (fun field =>
             mkTimed (inr (if (field =? 11)%N then [closed_status; open_status]
                           else [high_priority])) 100)
          (fun email => mkTimed (inr (tickets_of email)) 100)
          (fun email => mkTimed (inr (tickets_of email)) 100)
          (fun email => inr (tickets_of email))
          (fun _ => inr "conversation") (fun _ => inr "<p>Hello</p>")
          (fun ticketData _ => inr ticketData)
          (fun _ => inr (mkTicketResponse 42)) (fun _ _ => inr tt).

(** Intercom is down: the conversation cannot be fetched, the helper that
    adds the transcript to the ticket throws, and no note can be posted. *)
Definition intercom_down : JsError :=
  mkError "Request failed with status code 503" None None.
Definition world_without_intercom : World :=
  mkWorld "https://acme.freshdesk.com" "https://app.intercom.com/inbox"
          (fun created_at => created_at)
          (mkTimed (inr []) 100) (mkTimed (inr []) 100)
          (fun _ => mkTimed (inr []) 100)
          (fun email => mkTimed (inr (tickets_of email)) 100)
          (fun email => mkTimed (inr (tickets_of email)) 100)
          (fun email => inr (tickets_of email))
          (fun _ => inl intercom_down) (fun _ => inr "<p>Hello</p>")
          (fun _ _ => inl intercom_down)
          (fun _ => inr (mkTicketResponse 42)) (fun _ _ => inl intercom_down).

(** A submission with email, subject and mailbox but no description, from
    a conversation that starts with the message "From chat". *)
Definition described_by_conversation : Body :=
  mkBody (Some "submit_ticket_button") (person alice) None
         (Some (mkConversationRef None (Some "From chat") None None)) None
         (form alice "Help" None (Some "product_7")).

(** An arithmetic that rounds every result up by the largest relative
    error of a double. *)
Definition round_up (x : Q) : Q := (x * (1 + Retry.unit_roundoff))%Q.

(** Two values of [Math.random()]: the doubles that print as
    0.5827881649441329 and 0.9999999999999999. *)
Definition first_draw : float := 0x1.2a6335d9dc9f8p-1%float.
Definition second_draw : float := 0x1.fffffffffffffp-1%float.

End Scenario.

(* ===================================================================== *)
(** * Facts about strings and about the banner *)
(* ===================================================================== *)

Module JsFacts.
Import Js.

Lemma append_nil (b : string) : "" +:+ b = b.
Proof. reflexivity. Qed.

Lemma append_cons (x : ascii) (a b : string) :
  String x a +:+ b = String x (a +:+ b).
Proof. reflexivity. Qed.

Lemma append_assoc (a b c : string) : (a +:+ b) +:+ c = a +:+ (b +:+ c).
Proof.
  induction a as [|x a IH]; [reflexivity|].
  rewrite !append_cons. f_equal. exact IH.
Qed.

Lemma length_append (a b : string) :
  String.length (a +:+ b) = String.length a + String.length b.
Proof.
  induction a as [|x a IH]; [reflexivity|].
  rewrite append_cons. simpl. f_equal. exact IH.
Qed.

Lemma prefix_append (p s : string) : String.prefix p (p +:+ s) = true.
Proof.
  induction p as [|x p IH]; [now destruct s|].
  rewrite append_cons. simpl.
  destruct (ascii_dec x x) as [_|Hne]; [exact IH | now destruct Hne].
Qed.

Lemma drop_append (p s : string) : drop (String.length p) (p +:+ s) = s.
Proof. induction p as [|x p IH]; [reflexivity | exact IH]. Qed.

Lemma prefix_split (p s : string) :
  String.prefix p s = true -> s = p +:+ drop (String.length p) s.
Proof.
  revert s. induction p as [|x p IH]; intros s H; [reflexivity|].
  destruct s as [|y s]; simpl in H; [discriminate|].
  destruct (ascii_dec x y) as [->|]; [|discriminate].
  rewrite append_cons. simpl. f_equal. now apply IH.
Qed.

(** The two sides that [split_first] returns surround an occurrence. *)
Lemma split_first_sound (pat s before after : string) :
  split_first pat s = Some (before, after) ->
  s = before +:+ pat +:+ after.
Proof.
  revert before. induction s as [|c s IH]; intros before H.
  - cbn [split_first] in H.
    destruct (String.prefix pat "") eqn:Hp; [|discriminate].
    injection H as <- <-. rewrite append_nil. now apply prefix_split.
  - cbn [split_first] in H.
    destruct (String.prefix pat (String c s)) eqn:Hp.
    + injection H as <- <-. rewrite append_nil. now apply prefix_split.
    + destruct (split_first pat s) as [[b a]|]; [|discriminate].
      injection H as <- <-. rewrite append_cons. f_equal. now apply IH.
Qed.

Lemma split_first_prefix (pat rest : string) :
  split_first pat (pat +:+ rest) = Some ("", rest).
Proof.
  destruct (pat +:+ rest) eqn:E; cbn [split_first]; rewrite <- E;
    now rewrite prefix_append, drop_append.
Qed.

(** A text that holds [pat] includes it. *)
Lemma includes_append (a pat b : string) :
  includes (a +:+ pat +:+ b) pat = true.
Proof.
  unfold includes. induction a as [|c a IH].
  - rewrite append_nil. now rewrite split_first_prefix.
  - rewrite append_cons. cbn [split_first].
    destruct (String.prefix pat (String c (a +:+ pat +:+ b))); [reflexivity|].
    destruct (split_first pat (a +:+ pat +:+ b)) as [[? ?]|]; [reflexivity|discriminate].
Qed.

Lemma includes_split (s pat : string) :
  includes s pat = true ->
  exists before after, split_first pat s = Some (before, after).
Proof.
  unfold includes. destruct (split_first pat s) as [[b a]|]; [eauto|discriminate].
Qed.

(** A replacement text without a dollar sign is taken as it is. *)
Lemma getSubstitution_plain (matched before after template : string) :
  no_dollar template = true ->
  getSubstitution matched before after template = template.
Proof.
  unfold no_dollar.
  induction template as [|c t IH]; intros H; [reflexivity|].
  simpl in H. apply andb_true_iff in H as [Hc Ht].
  cbn [getSubstitution]. apply negb_true_iff in Hc. rewrite Hc.
  f_equal. now apply IH.
Qed.

Lemma lacks_append (c : ascii) (a b : string) :
  lacks c (a +:+ b) = lacks c a && lacks c b.
Proof.
  induction a as [|x a IH]; [reflexivity|].
  rewrite append_cons. simpl. rewrite IH. now rewrite andb_assoc.
Qed.

Lemma lacks_trimEnd (c : ascii) (s : string) :
  lacks c s = true -> lacks c (trimEnd s) = true.
Proof.
  induction s as [|x s IH]; intros H; [reflexivity|].
  simpl in H. apply andb_true_iff in H as [Hx Hs].
  cbn [trimEnd]. specialize (IH Hs).
  destruct (trimEnd s) eqn:E.
  - destruct (isWhiteSpace x); [reflexivity|]. simpl. now rewrite Hx.
  - simpl. rewrite Hx. exact IH.
Qed.

Lemma lacks_trimStart (c : ascii) (s : string) :
  lacks c s = true -> lacks c (trimStart s) = true.
Proof.
  induction s as [|x s IH]; intros H; [reflexivity|].
  cbn [trimStart]. destruct (isWhiteSpace x); [|exact H].
  simpl in H. apply andb_true_iff in H as [_ Hs]. now apply IH.
Qed.

Lemma lacks_trim (c : ascii) (s : string) :
  lacks c s = true -> lacks c (trim s) = true.
Proof. intros H. now apply lacks_trimEnd, lacks_trimStart. Qed.

(** [trimEnd] leaves alone what comes before a character that stays. *)
Lemma trimEnd_append (a b : string) :
  trimEnd b <> "" -> trimEnd (a +:+ b) = a +:+ trimEnd b.
Proof.
  intros Hb. induction a as [|c a IH]; [reflexivity|].
  rewrite !append_cons. cbn [trimEnd]. rewrite IH.
  destruct (a +:+ trimEnd b) eqn:E; [|reflexivity].
  destruct a; [|discriminate]. now rewrite append_nil in E.
Qed.

Lemma trimEnd_keeps (a b : string) (c : ascii) :
  isWhiteSpace c = false -> trimEnd (a +:+ String c b) <> "".
Proof.
  intros Hc. induction a as [|x a IH].
  - rewrite append_nil. cbn [trimEnd]. rewrite Hc. now destruct (trimEnd b).
  - rewrite append_cons. cbn [trimEnd].
    destruct (trimEnd (a +:+ String c b)); [now destruct IH | discriminate].
Qed.

(** *** Counting occurrences *)

Lemma prefix_mismatch (c x : ascii) (p s : string) :
  Ascii.eqb x c = false -> String.prefix (String c p) (String x s) = false.
Proof.
  intros H. simpl. destruct (ascii_dec c x) as [->|]; [|reflexivity].
  now rewrite Ascii.eqb_refl in H.
Qed.

(** A stretch without the first character of [pat] starts no occurrence. *)
Lemma occurrences_lacks (c : ascii) (p a b : string) :
  lacks c a = true ->
  occurrences (String c p) (a +:+ b) = occurrences (String c p) b.
Proof.
  induction a as [|x a IH]; intros H; [reflexivity|].
  simpl in H. apply andb_true_iff in H as [Hx Ha]. apply negb_true_iff in Hx.
  rewrite append_cons. cbn [occurrences].
  rewrite (prefix_mismatch _ _ _ _ Hx). now rewrite IH.
Qed.

(** Whether [pat] starts a text is decided by the first characters. *)
Lemma prefix_decided (pat a x y : string) :
  String.length pat <= String.length a ->
  String.prefix pat (a +:+ x) = String.prefix pat (a +:+ y).
Proof.
  revert a. induction pat as [|c p IH]; intros a Hlen.
  - now destruct (a +:+ x), (a +:+ y).
  - destruct a as [|d a]; [simpl in Hlen; lia|].
    rewrite !append_cons. simpl.
    destruct (ascii_dec c d); [|reflexivity].
    apply IH. simpl in Hlen. lia.
Qed.

(** Nothing starts before the first occurrence, whatever follows it. *)
Lemma occurrences_before (pat s before after rest : string) :
  split_first pat s = Some (before, after) ->
  occurrences pat (before +:+ pat +:+ rest) = occurrences pat (pat +:+ rest).
Proof.
  revert before. induction s as [|c s IH]; intros before H.
  - cbn [split_first] in H.
    destruct (String.prefix pat ""); [|discriminate].
    now injection H as <- <-.
  - cbn [split_first] in H.
    destruct (String.prefix pat (String c s)) eqn:Hp.
    + now injection H as <- <-.
    + destruct (split_first pat s) as [[b a]|] eqn:Hs; [|discriminate].
      injection H as <- <-.
      rewrite append_cons. cbn [occurrences].
      rewrite (split_first_sound _ _ _ _ Hs) in Hp.
      assert (Hd : String.prefix pat (String c (b +:+ pat +:+ rest)) = false).
      { rewrite <- Hp.
        rewrite <- (append_cons c b), <- (append_cons c b (pat +:+ a)).
        rewrite <- !append_assoc. apply prefix_decided.
        rewrite length_append. lia. }
      rewrite Hd. now apply IH.
Qed.

Lemma occurrences_absent (pat s : string) :
  includes s pat = false -> occurrences pat s = 0.
Proof.
  unfold includes. induction s as [|c s IH]; intros H; [reflexivity|].
  cbn [split_first] in H. cbn [occurrences].
  destruct (String.prefix pat (String c s)); [discriminate|].
  destruct (split_first pat s) as [[? ?]|]; [discriminate|].
  now rewrite IH.
Qed.

End JsFacts.

Module BannerFacts.
Import Js Banner JsFacts.

(** The banner that takes the place of the anchor: the anchor, then the
    rest of the section without the white space at its end. *)
Lemma trim_urlSection (url : string) :
  trim (urlSection url)
  = anchor +:+ trimEnd (nl +:+ nl +:+ urlLine url +:+ nl +:+ nl).
Proof.
  unfold trim, urlSection.
  assert (Hs : trimStart (anchor +:+ nl +:+ nl +:+ urlLine url +:+ nl +:+ nl)
               = anchor +:+ nl +:+ nl +:+ urlLine url +:+ nl +:+ nl) by reflexivity.
  rewrite Hs. apply trimEnd_append.
  unfold urlLine.
  change (nl +:+ nl +:+ ("Intercom Conversation URL: " +:+ url) +:+ nl +:+ nl)
    with ((nl +:+ nl) +:+ String "I" ("ntercom Conversation URL: " +:+ url +:+ nl +:+ nl)).
  now apply trimEnd_keeps.
Qed.

Lemma no_dollar_urlSection (url : string) :
  no_dollar url = true -> no_dollar (trim (urlSection url)) = true.
Proof.
  unfold no_dollar. intros H. apply lacks_trim. unfold urlSection, urlLine.
  rewrite !lacks_append, H. reflexivity.
Qed.

Lemma includes_truthy (s : string) : includes s anchor = true -> truthy s = true.
Proof. now destruct s. Qed.

(** The replace branch of the merge. *)
Lemma merge_replace (url d before after : string) :
  no_dollar url = true ->
  split_first anchor d = Some (before, after) ->
  merge url d = before +:+ trim (urlSection url) +:+ after.
Proof.
  intros Hu Hs. unfold merge.
  assert (Hi : includes d anchor = true) by (unfold includes; now rewrite Hs).
  rewrite Hi, (includes_truthy _ Hi). simpl. unfold replace. rewrite Hs.
  now rewrite getSubstitution_plain by now apply no_dollar_urlSection.
Qed.

(** The prepend branch of the merge. *)
Lemma merge_prepend (url d : string) :
  includes d anchor = false -> merge url d = urlSection url +:+ d.
Proof. intros Hi. unfold merge. rewrite Hi. now rewrite andb_false_r. Qed.

Lemma merge_includes (url d : string) :
  no_dollar url = true -> includes (merge url d) anchor = true.
Proof.
  intros Hu. destruct (includes d anchor) eqn:Hi.
  - destruct (includes_split _ _ Hi) as (before & after & Hs).
    rewrite (merge_replace _ _ _ _ Hu Hs), trim_urlSection.
    rewrite append_assoc. apply includes_append.
  - rewrite (merge_prepend _ _ Hi). unfold urlSection.
    rewrite !append_assoc. apply (includes_append "").
Qed.

Lemma merge_grows (url d : string) :
  no_dollar url = true -> includes d anchor = true ->
  String.length d < String.length (merge url d).
Proof.
  intros Hu Hi. destruct (includes_split _ _ Hi) as (before & after & Hs).
  rewrite (merge_replace _ _ _ _ Hu Hs), trim_urlSection.
  rewrite (split_first_sound _ _ _ _ Hs) at 1.
  rewrite !length_append.
  assert (0 < String.length (trimEnd (nl +:+ nl +:+ urlLine url +:+ nl +:+ nl))).
  { unfold urlLine.
    change (nl +:+ nl +:+ ("Intercom Conversation URL: " +:+ url) +:+ nl +:+ nl)
      with ((nl +:+ nl) +:+ String "I" ("ntercom Conversation URL: " +:+ url +:+ nl +:+ nl)).
    pose proof (trimEnd_keeps (nl +:+ nl) ("ntercom Conversation URL: " +:+ url +:+ nl +:+ nl) "I" eq_refl) as Hk.
    destruct (trimEnd _); [now destruct Hk | simpl; lia]. }
  lia.
Qed.

(** The anchor starts once in a text that begins with it, plus the times
    it starts in what follows. *)
Lemma occurrences_anchor_head (rest : string) :
  occurrences anchor (anchor +:+ rest) = S (occurrences anchor rest).
Proof.
  change (anchor +:+ rest) with (String "C" ("hat Transcript Added" +:+ rest)).
  cbn [occurrences].
  change (String "C" ("hat Transcript Added" +:+ rest)) with (anchor +:+ rest).
  rewrite prefix_append.
  change anchor with (String "C" "hat Transcript Added") at 1.
  now rewrite occurrences_lacks.
Qed.

(** The URL line starts no occurrence of the anchor. *)
Lemma occurrences_url_part (tail rest : string) :
  lacks "C" tail = true ->
  occurrences anchor
    (nl +:+ nl +:+ "Intercom Conversation URL" +:+ tail +:+ rest)
  = occurrences anchor rest.
Proof.
  intros Ht.
  change (nl +:+ nl +:+ "Intercom Conversation URL" +:+ tail +:+ rest)
    with ((nl +:+ nl +:+ "Intercom ")
            +:+ String "C" (String "o" ("nversation URL" +:+ tail +:+ rest))).
  change anchor with (String "C" "hat Transcript Added").
  rewrite occurrences_lacks by reflexivity.
  cbn [occurrences]. cbn [String.prefix].
  destruct (ascii_dec "C" "C") as [_|Hne]; [|now destruct Hne].
  destruct (ascii_dec "h" "o") as [Heq|_]; [discriminate|].
  change (String "o" ("nversation URL" +:+ tail +:+ rest))
    with ("onversation URL" +:+ tail +:+ rest).
  rewrite occurrences_lacks by reflexivity.
  now rewrite occurrences_lacks.
Qed.

Lemma trimEnd_url_part (url : string) :
  trimEnd (nl +:+ nl +:+ urlLine url +:+ nl +:+ nl)
  = nl +:+ nl +:+ "Intercom Conversation URL"
       +:+ trimEnd (": " +:+ url +:+ nl +:+ nl).
Proof.
  unfold urlLine.
  change (nl +:+ nl +:+ ("Intercom Conversation URL: " +:+ url) +:+ nl +:+ nl)
    with ((nl +:+ nl +:+ "Intercom Conversation URL")
            +:+ (": " +:+ url +:+ nl +:+ nl)).
  rewrite trimEnd_append; [now rewrite !append_assoc|].
  change (": " +:+ url +:+ nl +:+ nl)
    with ("" +:+ String ":" (" " +:+ url +:+ nl +:+ nl)).
  now apply trimEnd_keeps.
Qed.

(** The merge leaves as many anchors as it finds, or one where it finds
    none. *)
Lemma merge_occurrences (url d : string) :
  no_dollar url = true -> lacks "C" url = true ->
  occurrences anchor (merge url d) = Nat.max 1 (occurrences anchor d).
Proof.
  intros Hu HC. destruct (includes d anchor) eqn:Hi.
  - destruct (includes_split _ _ Hi) as (before & after & Hs).
    rewrite (merge_replace _ _ _ _ Hu Hs), trim_urlSection, trimEnd_url_part.
    rewrite (split_first_sound _ _ _ _ Hs) at 1.
    rewrite !append_assoc.
    rewrite !(occurrences_before _ _ _ _ _ Hs), !occurrences_anchor_head.
    rewrite occurrences_url_part; [lia|].
    apply lacks_trimEnd. now rewrite !lacks_append, HC.
  - rewrite (merge_prepend _ _ Hi), (occurrences_absent _ _ Hi).
    cbn [Nat.max].
    unfold urlSection, urlLine. rewrite !append_assoc.
    rewrite occurrences_anchor_head.
    change (nl +:+ nl +:+ "Intercom Conversation URL: " +:+ url +:+ nl +:+ nl +:+ d)
      with (nl +:+ nl +:+ "Intercom Conversation URL" +:+ ": "
               +:+ url +:+ nl +:+ nl +:+ d).
    rewrite occurrences_url_part by reflexivity.
    change anchor with (String "C" "hat Transcript Added").
    rewrite (occurrences_lacks _ _ url) by assumption.
    change (nl +:+ nl +:+ d) with ((nl +:+ nl) +:+ d).
    rewrite occurrences_lacks by reflexivity.
    change (String "C" "hat Transcript Added") with anchor.
    now rewrite (occurrences_absent _ _ Hi).
Qed.

(** C4, as amended. For a URL without a dollar sign: a description
    without the anchor gets the banner in front; in a description with the
    anchor the first occurrence is replaced by the banner without the
    white space at its end, the text around it is kept; either way the
    result includes the anchor, and for a URL without a capital C the
    anchor occurs in it as often as before, or once where it was absent.
    The merge is not idempotent: a second merge makes the text longer. *)
Theorem merge_rule (url d : string) :
  no_dollar url = true ->
  (includes d anchor = false -> merge url d = urlSection url +:+ d) /\
  (forall before after,
      split_first anchor d = Some (before, after) ->
      d = before +:+ anchor +:+ after /\
      merge url d = before +:+ trim (urlSection url) +:+ after) /\
  includes (merge url d) anchor = true /\
  (lacks "C" url = true ->
   occurrences anchor (merge url d) = Nat.max 1 (occurrences anchor d)) /\
  String.length (merge url d) < String.length (merge url (merge url d)).
Proof.
  intros Hu. repeat split.
  - apply merge_prepend.
  - now apply split_first_sound.
  - now apply merge_replace.
  - now apply merge_includes.
  - now apply merge_occurrences.
  - apply merge_grows; [assumption|]. now apply merge_includes.
Qed.

End BannerFacts.

(* ===================================================================== *)
(** * Facts about the retrying client *)
(* ===================================================================== *)

Module RetryFacts.
Import Retry.

Section ClientFacts.
Context {R E : Type}.
Variable axios : nat -> Attempt R E.
Variable random : nat -> Q.

(** The loop never runs out of fuel when the fuel covers the attempts
    that are left. *)
Lemma loop_total fuel retries attempts d slept :
  0 < fuel -> retries + 1 - attempts <= fuel ->
  exists run, loop axios random fuel retries attempts d slept = Some run.
Proof.
  revert attempts d slept.
  induction fuel as [|fuel IH]; intros attempts d slept Hpos Hf; [lia|].
  simpl. destruct (attempts <=? retries) eqn:Hle; [|eauto].
  destruct (axios attempts); [eauto|].
  destruct (retries <? S attempts) eqn:Hlt; [eauto|].
  apply Nat.leb_le in Hle. apply Nat.ltb_ge in Hlt. apply IH; lia.
Qed.

Lemma fetchWithRetry_total retries initialDelay :
  exists run, fetchWithRetry axios random retries initialDelay = Some run.
Proof. apply loop_total; lia. Qed.

Lemma next_delay_step d r :
  (0 <= d)%Q -> (0 <= r)%Q -> (r < 1)%Q ->
  backoff_step d (next_delay d r) /\ (0 <= next_delay d r)%Q.
Proof.
  intros Hd Hr0 Hr1. unfold backoff_step, next_delay.
  assert (Hm : (0 <= Qmin (d * 2) cap)%Q).
  { apply Q.min_glb; [lra | unfold cap; lra]. }
  set (m := Qmin (d * 2) cap) in *. clearbody m.
  repeat split; nra.
Qed.

Lemma loop_outcome fuel retries attempts d slept run :
  attempts <= retries ->
  (forall k, k < attempts -> exists e, axios k = Rejected e) ->
  loop axios random fuel retries attempts d slept = Some run ->
  outcome_spec axios retries run.
Proof.
  revert attempts d slept.
  induction fuel as [|fuel IH]; intros attempts d slept Hle Hrej Hrun;
    [discriminate|].
  simpl in Hrun.
  destruct (attempts <=? retries) eqn:Hcond;
    [|apply Nat.leb_gt in Hcond; lia].
  destruct (axios attempts) as [response|error] eqn:Hax.
  - injection Hrun as <-. unfold outcome_spec; simpl.
    rewrite Nat.sub_0_r. repeat split; [lia | lia | assumption | assumption].
  - assert (Hrej' : forall k, k < S attempts -> exists e, axios k = Rejected e).
    { intros k Hk. destruct (Nat.eq_dec k attempts) as [->|Hne]; [eauto|].
      apply Hrej. lia. }
    destruct (retries <? S attempts) eqn:Hlast.
    + apply Nat.ltb_lt in Hlast. assert (attempts = retries) as -> by lia.
      injection Hrun as <-. unfold outcome_spec; simpl.
      repeat split; [lia | lia | assumption |].
      intros k Hk. apply Hrej'. lia.
    + apply Nat.ltb_ge in Hlast. eapply IH; eassumption.
Qed.

(** C6. With its default arguments [fetchWithRetry] always comes to an
    end after at most 4 calls of axios. When it returns, it returns the
    response of the call it has just made, and every call before that one
    was rejected. When it throws, all 4 calls were rejected and what it
    throws is the error of the fourth. It ends in no other way. *)
Theorem fetchWithRetry_default_attempts :
  exists run,
    fetchWithRetry_default axios random = Some run /\
    calls run <= 4 /\
    match result run with
    | Returned response =>
        1 <= calls run /\
        axios (calls run - 1) = Resolved response /\
        forall k, k < calls run - 1 -> exists e, axios k = Rejected e
    | Threw error =>
        calls run = 4 /\
        axios 3 = Rejected error /\
        forall k, k <= 3 -> exists e, axios k = Rejected e
    | ReturnedUndefined => False
    end.
Proof.
  destruct (fetchWithRetry_total 3 500) as [run Hrun].
  exists run. split; [exact Hrun|].
  apply (loop_outcome _ _ 0 _ _ _ (Nat.le_0_l 3)) in Hrun; [exact Hrun|].
  intros k Hk. lia.
Qed.

End ClientFacts.

Lemma leb_of_nat (a b : nat) : (Z.of_nat a <=? Z.of_nat b)%Z = (a <=? b).
Proof.
  destruct (Z.leb_spec (Z.of_nat a) (Z.of_nat b)), (Nat.leb_spec a b);
    first [reflexivity | lia].
Qed.

Lemma ltb_of_nat (a b : nat) : (Z.of_nat a <? Z.of_nat b)%Z = (a <? b).
Proof.
  destruct (Z.ltb_spec (Z.of_nat a) (Z.of_nat b)), (Nat.ltb_spec a b);
    first [reflexivity | lia].
Qed.

Lemma exact_loop {R E : Type} (axios : nat -> Attempt R E) (random : nat -> Q)
    fuel retries attempts d slept :
  Rounded.loop axios random (fun x => x) fuel (Z.of_nat retries) attempts d slept
  = loop axios random fuel retries attempts d slept.
Proof.
  revert attempts d slept.
  induction fuel as [|fuel IH]; intros attempts d slept; [reflexivity|].
  simpl. rewrite leb_of_nat.
  destruct (attempts <=? retries); [|reflexivity].
  destruct (axios attempts); [reflexivity|].
  change (Z.pos (Pos.of_succ_nat attempts)) with (Z.of_nat (S attempts)).
  rewrite ltb_of_nat.
  destruct (retries <? S attempts); [reflexivity|].
  apply IH.
Qed.

(** The client with exact delays is the client with rounded delays when
    nothing is rounded and [retries] is a natural number. *)
Lemma exact_fetchWithRetry {R E : Type} (axios : nat -> Attempt R E)
    (random : nat -> Q) (retries : nat) (initialDelay : Q) :
  Rounded.fetchWithRetry axios random (fun x => x) (Z.of_nat retries) initialDelay
  = fetchWithRetry axios random retries initialDelay.
Proof.
  unfold Rounded.fetchWithRetry, fetchWithRetry. rewrite Nat2Z.id.
  apply exact_loop.
Qed.

Section RoundedFacts.
Context {R E : Type}.
Variable axios : nat -> Attempt R E.
Variable random : nat -> Q.
Variable fl : Q -> Q.

Lemma rounded_loop_total fuel retries attempts d slept :
  0 < fuel -> (retries + 1 - Z.of_nat attempts <= Z.of_nat fuel)%Z ->
  exists run, Rounded.loop axios random fl fuel retries attempts d slept = Some run.
Proof.
  revert attempts d slept.
  induction fuel as [|fuel IH]; intros attempts d slept Hpos Hf; [lia|].
  simpl. destruct (Z.of_nat attempts <=? retries)%Z eqn:Hle; [|eauto].
  destruct (axios attempts); [eauto|].
  change (Z.pos (Pos.of_succ_nat attempts)) with (Z.of_nat (S attempts)).
  destruct (retries <? Z.of_nat (S attempts))%Z eqn:Hlt; [eauto|].
  apply Z.leb_le in Hle. apply Z.ltb_ge in Hlt. apply IH; lia.
Qed.

Lemma rounded_total retries initialDelay :
  exists run,
    Rounded.fetchWithRetry axios random fl retries initialDelay = Some run.
Proof. apply rounded_loop_total; lia. Qed.

(** With a negative [retries] the condition of the loop is false at
    once. *)
Lemma rounded_negative retries initialDelay :
  (retries < 0)%Z ->
  Rounded.fetchWithRetry axios random fl retries initialDelay
  = Some (mkRun ReturnedUndefined 0 []).
Proof.
  intros Hneg. unfold Rounded.fetchWithRetry. simpl.
  destruct (Z.leb_spec (Z.of_nat 0) retries) as [Hle|_]; [simpl in Hle; lia|].
  reflexivity.
Qed.

Lemma rounded_loop_outcome fuel retries attempts d slept run :
  (Z.of_nat attempts <= retries)%Z ->
  (forall k, k < attempts -> exists e, axios k = Rejected e) ->
  Rounded.loop axios random fl fuel retries attempts d slept = Some run ->
  outcome_spec axios (Z.to_nat retries) run.
Proof.
  revert attempts d slept.
  induction fuel as [|fuel IH]; intros attempts d slept Hle Hrej Hrun;
    [discriminate|].
  simpl in Hrun.
  destruct (Z.of_nat attempts <=? retries)%Z eqn:Hcond;
    [|apply Z.leb_gt in Hcond; lia].
  destruct (axios attempts) as [response|error] eqn:Hax.
  - injection Hrun as <-. unfold outcome_spec; simpl.
    rewrite Nat.sub_0_r. repeat split; [lia | lia | assumption | assumption].
  - assert (Hrej' : forall k, k < S attempts -> exists e, axios k = Rejected e).
    { intros k Hk. destruct (Nat.eq_dec k attempts) as [->|Hne]; [eauto|].
      apply Hrej. lia. }
    change (Z.pos (Pos.of_succ_nat attempts)) with (Z.of_nat (S attempts)) in Hrun.
    destruct (retries <? Z.of_nat (S attempts))%Z eqn:Hlast.
    + apply Z.ltb_lt in Hlast.
      assert (attempts = Z.to_nat retries) as Heq by lia.
      injection Hrun as <-. unfold outcome_spec; simpl.
      repeat split; [lia | lia | now rewrite <- Heq |].
      intros k Hk. apply Hrej'. lia.
    + apply Z.ltb_ge in Hlast. eapply IH; eassumption.
Qed.

Lemma seq_snoc (n : nat) : seq 0 (S n) = seq 0 n ++ [n].
Proof. now rewrite seq_S. Qed.

(** The loop sleeps [currentDelay] once after each failed attempt that is
    followed by another attempt. *)
Lemma rounded_loop_waits fuel retries initialDelay attempts slept run :
  (Z.of_nat attempts <= retries)%Z ->
  slept = map (Rounded.delay_after random fl initialDelay) (seq 0 attempts) ->
  Rounded.loop axios random fl fuel retries attempts
               (Rounded.delay_after random fl initialDelay attempts) slept
  = Some run ->
  1 <= calls run /\
  waits run
  = map (Rounded.delay_after random fl initialDelay) (seq 0 (calls run - 1)).
Proof.
  revert attempts slept.
  induction fuel as [|fuel IH]; intros attempts slept Hle Hslept Hrun;
    [discriminate|].
  simpl in Hrun.
  destruct (Z.of_nat attempts <=? retries)%Z eqn:Hcond;
    [|apply Z.leb_gt in Hcond; lia].
  destruct (axios attempts) as [response|error].
  - injection Hrun as <-. simpl. rewrite Nat.sub_0_r. split; [lia | exact Hslept].
  - change (Z.pos (Pos.of_succ_nat attempts)) with (Z.of_nat (S attempts)) in Hrun.
    destruct (retries <? Z.of_nat (S attempts))%Z eqn:Hlast.
    + injection Hrun as <-. simpl. rewrite Nat.sub_0_r. split; [lia | exact Hslept].
    + apply Z.ltb_ge in Hlast.
      refine (IH (S attempts) _ Hlast _ Hrun).
      rewrite seq_snoc, map_app, Hslept. reflexivity.
Qed.

Lemma lookup_map_seq {A : Type} (f : nat -> A) (n a k : nat) (x : A) :
  map f (seq a n) !! k = Some x -> k < n /\ x = f (a + k).
Proof.
  revert a k. induction n as [|n IH]; intros a k; simpl; [discriminate|].
  destruct k as [|k]; simpl.
  - intros [= <-]. rewrite Nat.add_0_r. split; [lia | reflexivity].
  - intros H. destruct (IH _ _ H) as [Hk ->]. split; [lia|]. f_equal. lia.
Qed.

Lemma lookup_map_seq_lt {A : Type} (f : nat -> A) (n k : nat) :
  k < n -> map f (seq 0 n) !! k = Some (f k).
Proof.
  intros Hk. change (map f (seq 0 n)) with (f <$> seq 0 n).
  rewrite list_lookup_fmap, lookup_seq_lt by exact Hk. reflexivity.
Qed.

(** ** The bounds of one step *)

Lemma product_bounds (a x b c y d : Q) :
  (0 <= a)%Q -> (a <= x)%Q -> (x <= b)%Q ->
  (0 <= c)%Q -> (c <= y)%Q -> (y <= d)%Q ->
  (a * c <= x * y)%Q /\ (x * y <= b * d)%Q.
Proof. intros. split; nra. Qed.

Lemma smallest_normal_small :
  (0 < smallest_normal)%Q /\ (smallest_normal <= 1 # 4)%Q.
Proof. split; vm_compute; first [reflexivity | discriminate]. Qed.

Lemma largest_double_large :
  (13000 <= largest_delay)%Q /\ (largest_delay * 2 <= largest_double)%Q.
Proof. split; vm_compute; discriminate. Qed.

Hypothesis random_range : forall k, (0 <= random k)%Q /\ (random k < 1)%Q.
Hypothesis fl_rounding : Rounding fl.

(** One step of the backoff on a delay in the range of the doubles. *)
Lemma next_delay_within d r :
  (smallest_normal <= d)%Q -> (d <= largest_delay)%Q ->
  (0 <= r)%Q -> (r < 1)%Q ->
  backoff_step_within slack d (Rounded.next_delay fl d r) /\
  (smallest_normal <= Rounded.next_delay fl d r)%Q /\
  (Rounded.next_delay fl d r <= largest_delay)%Q.
Proof.
  intros Hd1 Hd2 Hr0 Hr1.
  destruct fl_rounding as [Hmono Hzero Hnormal].
  destruct smallest_normal_small as [Hlo0 Hlo1].
  destruct largest_double_large as [Hhi1 Hhi2].
  unfold rounded, unit_roundoff in Hnormal.
  unfold backoff_step_within, slack, Rounded.next_delay.
  set (lo := smallest_normal) in *. set (hi := largest_double) in *.
  set (top := largest_delay) in *.
  clearbody lo hi top.
  destruct (Hnormal (4 # 10)%Q) as [C4l C4u]; [lra | lra|].
  destruct (Hnormal (8 # 10)%Q) as [C8l C8u]; [lra | lra|].
  set (c4 := fl (4 # 10)) in *. set (c8 := fl (8 # 10)) in *.
  assert (Hp0 : (0 <= fl (r * c4))%Q).
  { assert (H : (fl 0 <= fl (r * c4))%Q) by (apply Hmono; nra). lra. }
  assert (Hp1 : (fl (r * c4) <= fl c4)%Q) by (apply Hmono; nra).
  destruct (Hnormal c4) as [_ Hc4]; [lra | lra|].
  set (p := fl (r * c4)) in *. clearbody p.
  destruct (Hnormal (c8 + p)%Q) as [Jl Ju]; [lra | lra|].
  set (j := fl (c8 + p)) in *. clearbody j.
  destruct (Hnormal (d * 2)%Q) as [Tl Tu]; [lra | lra|].
  set (t := fl (d * 2)) in *. clearbody t.
  assert (Hm0 : (lo * 2 <= Qmin (d * 2) cap)%Q).
  { apply Q.min_glb; [lra | unfold cap; lra]. }
  assert (Hm1 : (Qmin (d * 2) cap <= 10000)%Q) by apply Q.le_min_r.
  assert (Hm2 : (Qmin (d * 2) cap <= d * 2)%Q) by apply Q.le_min_l.
  assert (Hml : ((1 - (1 # 9007199254740992)) * Qmin (d * 2) cap <= Qmin t cap)%Q).
  { apply Q.min_glb; [lra | unfold cap in *; lra]. }
  assert (Hmu : (Qmin t cap <= (1 + (1 # 9007199254740992)) * Qmin (d * 2) cap)%Q).
  { destruct (Q.min_spec (d * 2) cap) as [[_ Heq] | [_ Heq]]; rewrite Heq.
    - pose proof (Q.le_min_l t cap). lra.
    - pose proof (Q.le_min_r t cap). unfold cap in *. lra. }
  set (m := Qmin (d * 2) cap) in *. set (m' := Qmin t cap) in *.
  clearbody m m'.
  destruct (product_bounds
              ((1 - (1 # 9007199254740992)) * m) m'
              ((1 + (1 # 9007199254740992)) * m)
              ((1 - (1 # 9007199254740992)) * ((1 - (1 # 9007199254740992)) * (8 # 10)))
              j
              ((1 + (1 # 9007199254740992))
               * ((1 + (1 # 9007199254740992)) * (8 # 10)
                  + (1 + (1 # 9007199254740992))
                    * ((1 + (1 # 9007199254740992)) * (4 # 10)))))
    as [Ql Qu]; try lra.
  destruct (Hnormal (m' * j)%Q) as [Dl Du]; [lra | lra|].
  set (q := (m' * j)%Q) in *. clearbody q.
  repeat split; lra.
Qed.

Lemma delay_after_in_range initialDelay k :
  (smallest_normal <= initialDelay)%Q -> (initialDelay <= largest_delay)%Q ->
  (smallest_normal <= Rounded.delay_after random fl initialDelay k)%Q /\
  (Rounded.delay_after random fl initialDelay k <= largest_delay)%Q.
Proof.
  intros H0 H1. induction k as [|k [IH0 IH1]]; simpl; [split; assumption|].
  destruct (random_range k) as [Hr0 Hr1].
  now destruct (next_delay_within _ _ IH0 IH1 Hr0 Hr1) as (_ & ? & ?).
Qed.

(** C5, as amended. Whatever the attempts do and whatever integer
    [retries] is, as long as [Math.random] stays in [0, 1), the first
    delay is a normal double up to [2^1022] (500 by default) and every
    operation on doubles rounds as rounding to nearest does, a call comes
    to an end and has slept once after each of its calls of axios but the
    last; a failed attempt that leaves a retry is followed by a sleep. The
    first delay slept is [initialDelay]; every later one is
    [Math.min(d * 2, 10000) * (0.8 + Math.random() * 0.4)] of the delay [d]
    before it, each operation rounded, and lies between 0.8 and 1.2 times
    the minimum of [2 d] and the cap of 10000 ms up to a relative error of
    [2^-50]. *)
Theorem fetchWithRetry_backoff (retries : Z) (initialDelay : Q) :
  (smallest_normal <= initialDelay)%Q -> (initialDelay <= largest_delay)%Q ->
  exists run,
    Rounded.fetchWithRetry axios random fl retries initialDelay = Some run /\
    length (waits run) = calls run - 1 /\
    (forall k, (Z.of_nat k < retries)%Z ->
               (forall i, i <= k -> exists e, axios i = Rejected e) ->
               exists d, waits run !! k = Some d) /\
    (forall d, waits run !! 0 = Some d -> d = initialDelay) /\
    (forall n d d',
        waits run !! n = Some d -> waits run !! S n = Some d' ->
        d' = fl (Qmin (fl (d * 2)) 10000
                 * fl (fl (8 # 10) + fl (random n * fl (4 # 10))))%Q /\
        (Qmin (d * 2) 10000 * (8 # 10) * (1 - slack) <= d')%Q /\
        (d' <= Qmin (d * 2) 10000 * (12 # 10) * (1 + slack))%Q).
Proof.
  intros H0 H1.
  destruct (Z.lt_ge_cases retries 0) as [Hneg | Hpos].
  { exists (mkRun ReturnedUndefined 0 []).
    split; [now apply rounded_negative|]. simpl.
    repeat split; try discriminate. intros k Hk. lia. }
  destruct (rounded_total retries initialDelay) as [run Hrun].
  exists run. split; [exact Hrun|].
  pose proof (rounded_loop_outcome _ _ 0 _ _ _ Hpos
                (fun k (Hk : k < 0) => match Nat.nlt_0_r k Hk with end) Hrun)
    as [Hcalls Hres].
  destruct (rounded_loop_waits _ retries initialDelay 0 [] run Hpos eq_refl Hrun)
    as [Hone Hw].
  rewrite Hw. split; [now rewrite length_map, length_seq|].
  split.
  { intros k Hk Hrej. exists (Rounded.delay_after random fl initialDelay k).
    apply lookup_map_seq_lt.
    destruct (result run) as [response|error|].
    - destruct Hres as (_ & Hlast & _).
      destruct (Nat.lt_ge_cases k (calls run - 1)) as [?|Hge]; [assumption|].
      destruct (Hrej (calls run - 1) Hge) as [e He]. congruence.
    - destruct Hres as (-> & _). lia.
    - destruct Hres. }
  split.
  { intros d Hd. now apply lookup_map_seq in Hd as [_ ->]. }
  intros n d d' Hn HSn.
  apply lookup_map_seq in Hn as [_ ->]. apply lookup_map_seq in HSn as [_ ->].
  simpl. split; [reflexivity|].
  destruct (delay_after_in_range initialDelay n H0 H1) as [Hl Hu].
  destruct (random_range n) as [Hr0 Hr1].
  destruct (next_delay_within _ _ Hl Hu Hr0 Hr1) as [Hstep _].
  exact Hstep.
Qed.

End RoundedFacts.
End RetryFacts.

(* ===================================================================== *)
(** * Facts about the detached task *)
(* ===================================================================== *)

Module BackgroundFacts.
Import Server JsFacts.

Lemma includes_suffix (a pat : string) : Js.includes (a +:+ pat) pat = true.
Proof.
  pose proof (includes_append a pat "") as H.
  assert (E : pat +:+ "" = pat).
  { clear. induction pat as [|c p IH]; [reflexivity|].
    rewrite append_cons. now rewrite IH. }
  now rewrite E in H.
Qed.

Lemma success_note_reference (w : World) (r : TicketResponse) :
  Js.includes (success_note w r)
    (FRESHDESK_DOMAIN w +:+ "/a/tickets/" +:+ Js.showN (response_id r)) = true.
Proof.
  unfold success_note.
  set (reference := FRESHDESK_DOMAIN w +:+ "/a/tickets/" +:+ Js.showN (response_id r)).
  rewrite <- !append_assoc. apply includes_suffix.
Qed.

Lemma failure_note_text (e : JsError) :
  Js.includes (failure_note e) (error_text e) = true.
Proof.
  unfold failure_note. generalize (error_text e). intros text.
  rewrite <- !append_assoc. apply includes_suffix.
Qed.

Ltac unfold_effects :=
  cbv beta iota zeta delta
      [background postIntercomNote bind try_catch call tracker_set
       record ret raise console_error].

(** Reading the fields of a state that was built by the updates. *)
Ltac read_state :=
  cbn [with_trace with_tracker with_context with_responseSent with_timer
       with_clock trace ticketTracker intercomContext responseSent timer clock
       fst snd app].

Ltac split_replies :=
  repeat (match goal with
          | |- context [match ?x with inl _ => _ | inr _ => _ end] =>
              destruct x eqn:?
          end; cbv beta iota zeta); read_state.

(** Rewriting with what the outside has answered. *)
Ltac use_replies :=
  repeat match goal with
         | H : _ = inl _ |- _ => rewrite H
         | H : _ = inr _ |- _ => rewrite H
         end;
  cbv beta iota zeta.

(** C8, as amended. The detached task runs its steps in the order
    transcript, ticket, note, tracker, and this is all it does.
    - Transcript: with a conversation identifier it fetches the
      conversation and formats it; when one of the two fails, the error is
      logged and the description stays as submitted, which is no failure
      of the task. Without a conversation identifier nothing is fetched.
    - Ticket: with a conversation identifier the ticket data goes through
      [addConversationTranscriptToTicket]; what comes back, or the ticket
      data itself without a conversation identifier, is handed to
      [createFreshdeskTicket]. The error of the first of the two that
      fails ends the step.
    - Note, then tracker: after the ticket was created, the success note
      with the URL of the ticket is posted and then the tracker is marked
      completed with the ticket; after an error of the ticket step, the
      error is logged, the failure note with the text of the error is
      posted and then the tracker is marked failed with that text. The
      note is posted only with a conversation identifier, the tracker is
      written only for an email that is not empty. *)
Theorem background_order (w : World) (task : Background) (st : State) :
  exists (transcript ticket : list Event) (description : string)
         (outcome : JsError + TicketResponse),
    let email := bg_email task in
    let conversationId := truthy_value (bg_conversationId task) in
    let ticketData :=
      mkTicketData email (bg_subject task) description 2
                   (parseInt10 (bg_product_id task))
                   (if Js.truthy (bg_status task)
                    then Some (parseInt10 (bg_status task)) else None)
                   (if Js.truthy (bg_priority task)
                    then Some (parseInt10 (bg_priority task)) else None)
                   None in
    let note (text : string) : list Event :=
      match conversationId with
      | Some cid =>
          Call (PostIntercomNote cid text)
          :: match intercom_reply_api w cid text with
             | inl error => [LogError "Error posting note to Intercom:" error]
             | inr _ => []
             end
      | None => []
      end in
    let write (info : TicketInfo) : list Event :=
      if Js.truthy email then [TrackerSet email info] else [] in
    match conversationId with
    | None => transcript = [] /\ description = bg_description task
    | Some cid =>
        match fetchIntercomConversation w cid with
        | inl error =>
            transcript
            = [ Call (FetchIntercomConversation cid);
                LogError "Error fetching or formatting conversation:" error ] /\
            description = bg_description task
        | inr conversation =>
            match formatConversationAsHtml w conversation with
            | inl error =>
                transcript
                = [ Call (FetchIntercomConversation cid);
                    Call (FormatConversationAsHtml conversation);
                    LogError "Error fetching or formatting conversation:" error ] /\
                description = bg_description task
            | inr transcriptHtml =>
                transcript
                = [ Call (FetchIntercomConversation cid);
                    Call (FormatConversationAsHtml conversation) ] /\
                description
                = (if Js.truthy transcriptHtml
                   then bg_description task +:+ Banner.nl +:+ Banner.nl
                          +:+ transcriptHtml
                   else bg_description task)
            end
        end
    end /\
    match conversationId with
    | None =>
        ticket = [Call (CreateFreshdeskTicket ticketData)] /\
        outcome = createFreshdeskTicket w ticketData
    | Some cid =>
        match addConversationTranscriptToTicket w ticketData cid with
        | inl error =>
            ticket = [Call (AddConversationTranscriptToTicket ticketData cid)] /\
            outcome = inl error
        | inr ticketDataWithTranscript =>
            ticket
            = [ Call (AddConversationTranscriptToTicket ticketData cid);
                Call (CreateFreshdeskTicket ticketDataWithTranscript) ] /\
            outcome = createFreshdeskTicket w ticketDataWithTranscript
        end
    end /\
    trace (snd (background w task st))
    = trace st ++ transcript ++ ticket
        ++ match outcome with
           | inr ticketResponse =>
               note (success_note w ticketResponse)
               ++ write (completed (response_id ticketResponse))
           | inl error =>
               LogError "Background processing: Error creating ticket:" error
               :: note (failure_note error) ++ write (failed (error_text error))
           end /\
    ticketTracker (snd (background w task st))
    = (if Js.truthy email
       then <[email := match outcome with
                       | inr ticketResponse => completed (response_id ticketResponse)
                       | inl error => failed (error_text error)
                       end]> (ticketTracker st)
       else ticketTracker st) /\
    (forall ticketResponse,
        Js.includes (success_note w ticketResponse)
          (FRESHDESK_DOMAIN w +:+ "/a/tickets/"
             +:+ Js.showN (response_id ticketResponse)) = true) /\
    (forall error, Js.includes (failure_note error) (error_text error) = true).
Proof.
  unfold_effects. unfold task_ticket_data.
  destruct (Js.truthy (bg_email task)) eqn:Hemail;
    destruct (truthy_value (bg_conversationId task)) as [cid|];
    cbv beta iota zeta.
  all: split_replies.
  all: eexists _, _, _, _; cbv beta iota zeta.
  all: (split; [use_replies; split; reflexivity|]).
  all: (split; [use_replies; split; reflexivity|]).
  all: (split; [use_replies; rewrite <- ?app_assoc; reflexivity|]).
  all: (split; [use_replies; reflexivity|]).
  all: split; [apply success_note_reference | apply failure_note_text].
Qed.

(** C7. When the conversation cannot be fetched or cannot be formatted,
    the detached task logs the error and goes on to the ticket with the
    values of the form and the description as it was submitted, which it
    hands to [addConversationTranscriptToTicket]. When that helper
    returns, what it returns is handed to [createFreshdeskTicket], once.
    When that helper throws in its turn, the task does not come to
    [createFreshdeskTicket] at all: the error is logged, the failure note
    is posted and the tracker is marked failed. *)
Theorem transcript_failure_outcome (w : World) (task : Background)
    (cid : string) (st : State) (error : JsError) :
  truthy_value (bg_conversationId task) = Some cid ->
  (fetchIntercomConversation w cid = inl error \/
   exists conversation,
     fetchIntercomConversation w cid = inr conversation /\
     formatConversationAsHtml w conversation = inl error) ->
  exists ticketData before after,
    ticketData
    = mkTicketData (bg_email task) (bg_subject task) (bg_description task) 2
                   (parseInt10 (bg_product_id task))
                   (if Js.truthy (bg_status task)
                    then Some (parseInt10 (bg_status task)) else None)
                   (if Js.truthy (bg_priority task)
                    then Some (parseInt10 (bg_priority task)) else None)
                   None /\
    trace (snd (background w task st))
    = trace st ++ before
        ++ [ LogError "Error fetching or formatting conversation:" error;
             Call (AddConversationTranscriptToTicket ticketData cid) ]
        ++ after /\
    creations_of before = [] /\
    match addConversationTranscriptToTicket w ticketData cid with
    | inr ticketDataWithTranscript =>
        creations_of after = [ticketDataWithTranscript]
    | inl error' =>
        creations_of after = [] /\
        In (LogError "Background processing: Error creating ticket:" error') after /\
        notes_of after = [(cid, failure_note error')] /\
        ticketTracker (snd (background w task st))
        = (if Js.truthy (bg_email task)
           then <[bg_email task := failed (error_text error')]> (ticketTracker st)
           else ticketTracker st)
    end.
Proof.
  intros Hcid Hfail. unfold_effects. rewrite Hcid.
  unfold task_ticket_data.
  destruct Hfail as [Hfetch | (conversation & Hfetch & Hformat)].
  - rewrite Hfetch. cbv beta iota zeta.
    destruct (Js.truthy (bg_email task)).
    all: split_replies.
    all: eexists _, [_], _.
    all: (split; [reflexivity|]).
    all: (split; [rewrite <- !app_assoc; reflexivity|]).
    all: (split; [reflexivity|]).
    all: use_replies.
    all: first [reflexivity | repeat split; simpl; auto].
  - rewrite Hfetch. cbv beta iota zeta. rewrite Hformat. cbv beta iota zeta.
    destruct (Js.truthy (bg_email task)).
    all: split_replies.
    all: eexists _, [_; _], _.
    all: (split; [reflexivity|]).
    all: (split; [rewrite <- !app_assoc; reflexivity|]).
    all: (split; [reflexivity|]).
    all: use_replies.
    all: first [reflexivity | repeat split; simpl; auto].
Qed.

(** The detached task always comes to its end: it throws nothing, sends
    no response and leaves the tracker with a terminal value for the
    email of the submission. *)
Lemma background_settles (w : World) (task : Background) (st : State) :
  Js.truthy (bg_email task) = true ->
  exists events info,
    background w task st
    = (Done tt,
       mkState (<[bg_email task := info]> (ticketTracker st))
               (intercomContext st) (responseSent st) (timer st) (clock st)
               (trace st ++ events)) /\
    terminal info /\
    List.filter is_emit events = [] /\
    tracker_writes events = [(bg_email task, info)].
Proof.
  intros Hemail. unfold_effects. rewrite Hemail.
  destruct (truthy_value (bg_conversationId task)) as [cid|];
    cbv beta iota zeta.
  all: split_replies.
  all: eexists _, _.
  all: (split; [rewrite <- ?app_assoc; reflexivity|]).
  all: (split; [first [left; eexists; reflexivity | right; eexists; reflexivity]|]).
  all: split; reflexivity.
Qed.

(** What the tracker holds in the end is what became of the ticket: the
    ticket that [createFreshdeskTicket] has returned, or the text of the
    error of the helper that has thrown. *)
Lemma background_result (w : World) (task : Background) (st : State) :
  Js.truthy (bg_email task) = true ->
  exists events info,
    background w task st
    = (Done tt,
       mkState (<[bg_email task := info]> (ticketTracker st))
               (intercomContext st) (responseSent st) (timer st) (clock st)
               (trace st ++ events)) /\
    List.filter is_emit events = [] /\
    tracker_writes events = [(bg_email task, info)] /\
    ((exists ticketData ticketResponse,
         creations_of events = [ticketData] /\
         createFreshdeskTicket w ticketData = inr ticketResponse /\
         info = completed (response_id ticketResponse))
     \/
     (exists error,
         In (LogError "Background processing: Error creating ticket:" error) events /\
         ((exists ticketData,
              creations_of events = [ticketData] /\
              createFreshdeskTicket w ticketData = inl error)
          \/
          (exists ticketData cid,
              creations_of events = [] /\
              In (Call (AddConversationTranscriptToTicket ticketData cid)) events /\
              addConversationTranscriptToTicket w ticketData cid = inl error)) /\
         info = failed (error_text error))).
Proof.
  intros Hemail. unfold_effects. rewrite Hemail.
  destruct (truthy_value (bg_conversationId task)) as [cid|];
    cbv beta iota zeta.
  all: split_replies.
  all: eexists _, _.
  all: (split; [rewrite <- ?app_assoc; reflexivity|]).
  all: (split; [reflexivity|]).
  all: (split; [reflexivity|]).
  all: first
    [ left; eexists _, _; split; [reflexivity|]; split; [eassumption | reflexivity]
    | right; eexists; split; [simpl; tauto|]; split; [|reflexivity];
      first
        [ left; eexists; split; [reflexivity | eassumption]
        | right; eexists _, _; split; [reflexivity|]; split; [simpl; tauto | eassumption] ] ].
Qed.

End BackgroundFacts.

(* ===================================================================== *)
(** * Facts about the submit handler *)
(* ===================================================================== *)

Module ServerFacts.
Import Server.

Lemma emissions_app (st : State) (l : list Event) :
  emissions (with_trace st (trace st ++ l))
  = emissions st + length (List.filter is_emit l).
Proof. unfold emissions. simpl. now rewrite List.filter_app, List.length_app. Qed.

(** The callback of the timer calls [res.json] once when no response has
    been marked as sent. *)
Lemma onTimeout_emits (w : World) (body : Body) (st : State) :
  responseSent st = false ->
  emissions (snd (onTimeout w body st)) = S (emissions st).
Proof.
  intros Hs. unfold onTimeout. rewrite Hs.
  destruct (truthy_value _) as [e|]; simpl.
  - destruct (component_is body "submit_ticket_button");
      unfold bind, try_catch, call, tracker_set, record, res_json, ret, raise, console_error; simpl;
      destruct (recent_tickets_on_timeout w e); simpl;
      match goal with |- context [if ?b then _ else _] => destruct b end; simpl;
      unfold emissions; simpl; rewrite !List.filter_app, !List.length_app; simpl; lia.
  - unfold bind, try_catch, call, tracker_set, record, res_json, ret, raise, console_error; simpl.
      match goal with |- context [if ?b then _ else _] => destruct b end; simpl;
      unfold emissions; simpl; rewrite !List.filter_app, !List.length_app; simpl; lia.
Qed.

(** *** Waiting before the deadline changes nothing *)

Lemma untouched_refl st : untouched st st.
Proof.
  repeat split. exists []. now rewrite app_nil_r.
Qed.

Lemma untouched_trans st1 st2 st3 :
  untouched st1 st2 -> untouched st2 st3 -> untouched st1 st3.
Proof.
  intros (Ha & Hb & Hc & Hd & l & Hl & Hq) (Ha' & Hb' & Hc' & Hd' & l' & Hl' & Hq').
  repeat split; try congruence.
  exists (l ++ l'). split.
  - rewrite Hl', Hl. now rewrite app_assoc.
  - rewrite forallb_app. now rewrite Hq, Hq'.
Qed.

Lemma waits_only_ret {A : Type} (a : A) : waits_only (ret a).
Proof. intros st. simpl. split; [lia | intros _; apply untouched_refl]. Qed.

Lemma waits_only_raise {A : Type} (e : JsError) : waits_only (@raise A e).
Proof. intros st. simpl. split; [lia | intros _; apply untouched_refl]. Qed.

Lemma waits_only_bind {A B : Type} (m : M A) (k : A -> M B) :
  waits_only m -> (forall a, waits_only (k a)) -> waits_only (bind m k).
Proof.
  intros Hm Hk st. unfold bind.
  destruct (Hm st) as [Hmono Hun].
  destruct (m st) as [[a|e] st1]; simpl in *.
  - destruct (Hk a st1) as [Hmono' Hun'].
    split; [lia|]. intros Hlt.
    eapply untouched_trans; [apply Hun; lia | now apply Hun'].
  - split; assumption.
Qed.

Lemma waits_only_try_catch {A : Type} (m : M A) (h : JsError -> M A) :
  waits_only m -> (forall e, waits_only (h e)) -> waits_only (try_catch m h).
Proof.
  intros Hm Hh st. unfold try_catch.
  destruct (Hm st) as [Hmono Hun].
  destruct (m st) as [[a|e] st1]; simpl in *.
  - split; assumption.
  - destruct (Hh e st1) as [Hmono' Hun'].
    split; [lia|]. intros Hlt.
    eapply untouched_trans; [apply Hun; lia | now apply Hun'].
Qed.

Lemma waits_only_record (ev : Event) :
  quiet_event ev = true -> waits_only (record ev).
Proof.
  intros Hq st. simpl. split; [lia|]. intros _.
  repeat split. exists [ev]. split; [reflexivity|]. simpl. now rewrite Hq.
Qed.

Lemma waits_only_console_error (label : string) (e : JsError) :
  waits_only (console_error label e).
Proof. now apply waits_only_record. Qed.

Lemma onTimeout_clock (w : World) (body : Body) (st : State) :
  clock (snd (onTimeout w body st)) = clock st.
Proof.
  unfold onTimeout. destruct (responseSent st); [reflexivity|].
  unfold bind, try_catch, call, tracker_set, record, res_json, ret, raise, console_error.
  destruct (truthy_value _) as [e|]; simpl.
  - destruct (component_is body "submit_ticket_button"); simpl;
      destruct (recent_tickets_on_timeout w e); simpl;
      match goal with |- context [if ?b then _ else _] => destruct b end;
      reflexivity.
  - match goal with |- context [if ?b then _ else _] => destruct b end;
      reflexivity.
Qed.

Lemma waits_only_tick (w : World) (body : Body) (ms : N) :
  waits_only (tick w body ms).
Proof.
  intros st. unfold tick. simpl.
  destruct (timer st) eqn:Ht; simpl.
  - destruct (deadline <=? clock st + ms)%N eqn:Hd; simpl.
    + rewrite onTimeout_clock. simpl. split; [lia|].
      intros Hlt. apply N.leb_le in Hd. lia.
    + split; [lia|]. intros _. repeat split; try assumption.
      exists []. now rewrite app_nil_r.
  - split; [lia|]. intros _. repeat split; try assumption.
    exists []. now rewrite app_nil_r.
  - split; [lia|]. intros _. repeat split; try assumption.
    exists []. now rewrite app_nil_r.
Qed.

Lemma waits_only_await {A : Type} (w : World) (body : Body)
    (c : ExternalCall) (t : Timed A) :
  waits_only (await w body c t).
Proof.
  unfold await.
  apply waits_only_bind; [now apply waits_only_record|]. intros _.
  apply waits_only_bind; [apply waits_only_tick|]. intros _.
  destruct (reply t); [apply waits_only_raise | apply waits_only_ret].
Qed.

Lemma waits_only_fetch_choices (w : World) (body : Body) (name : string)
    (fields : list Field) :
  waits_only (fetch_choices w body name fields).
Proof.
  unfold fetch_choices.
  destruct (find _ fields); [apply waits_only_await | apply waits_only_ret].
Qed.

Lemma waits_only_refetch_form_data (w : World) (body : Body) :
  waits_only (refetch_form_data w body).
Proof.
  unfold refetch_form_data. cbv beta zeta.
  repeat first
    [ apply waits_only_await
    | apply waits_only_fetch_choices
    | apply waits_only_console_error
    | apply waits_only_ret
    | apply waits_only_try_catch
    | apply waits_only_bind
    | intros ? ].
Qed.

(** Comparisons of string literals. *)
Ltac eval_eqb :=
  repeat match goal with
         | |- context [String.eqb ?a ?b] =>
             let v := eval vm_compute in (String.eqb a b) in
             change (String.eqb a b) with v
         end.

Lemma refetch_form_data_never_throws (w : World) (body : Body) :
  never_throws (refetch_form_data w body).
Proof.
  intros st. unfold refetch_form_data. cbv beta zeta. unfold try_catch at 1.
  match goal with |- context [match ?m st with _ => _ end] => destruct (m st) as [[a|e] st1] end.
  - eauto.
  - simpl. eauto.
Qed.

Lemma quiet_no_emit (l : list Event) :
  forallb quiet_event l = true ->
  existsb is_emit l = false /\
  List.filter is_emit l = [] /\
  omap (fun ev => match ev with Emit s b => Some (s, b) | _ => None end) l = [].
Proof.
  induction l as [|ev l IH]; intros H; [repeat split|].
  simpl in H. apply andb_true_iff in H as [He Hl].
  destruct (IH Hl) as (H1 & H2 & H3).
  destruct ev; try discriminate; simpl; rewrite ?H1, ?H2; repeat split;
    exact H3.
Qed.

Lemma component_is_eq (body : Body) (id id' : string) :
  component_id body = Some id -> component_is body id' = String.eqb id id'.
Proof. intros H. unfold component_is. now rewrite H. Qed.

(** C2, as amended. A submission of the ticket form whose email or
    subject is empty after trimming, handled before the deadline of 9 s,
    is answered once, with the form; the email input carries the error
    "Email is required" exactly when the email is empty, the subject
    input carries "Subject is required" exactly when the subject is
    empty, [validation_errors] says the same, and the tracker is left
    as it was. *)
Theorem empty_field_rejected (w : World) (body : Body)
    (tracker : gmap string TicketInfo) (ctx : option IntercomContext) :
  component_id body = Some "submit_ticket_button" ->
  is_empty (iv_email (form_values body)) || is_empty (iv_subject (form_values body)) = true ->
  (clock (after_handler w body (fresh_request tracker ctx)) < deadline)%N ->
  ticketTracker (submit w body (fresh_request tracker ctx)) = tracker /\
  exists view,
    emitted (submit w body (fresh_request tracker ctx)) = [(200%N, view)] /\
    (exists mailboxes statusChoices priorityChoices,
        view = error_form_view (form_values body) (request_title body)
                 (is_empty (iv_email (form_values body)))
                 (is_empty (iv_subject (form_values body)))
                 mailboxes statusChoices priorityChoices) /\
    field_error "email" view
    = (if is_empty (iv_email (form_values body))
       then Some "Email is required" else None) /\
    field_error "subject" view
    = (if is_empty (iv_subject (form_values body))
       then Some "Subject is required" else None) /\
    view_validation_errors view
    = Some (if is_empty (iv_email (form_values body))
            then Some "Email is required" else None,
            if is_empty (iv_subject (form_values body))
            then Some "Subject is required" else None).
Proof.
  intros Hc Hempty.
  set (st1 := with_context (fresh_request tracker ctx)
                (Some (mkContext (request_email body) (request_title body)
                                 (request_description body)))).
  destruct (refetch_form_data w body st1) as [out st2] eqn:Hr.
  destruct (refetch_form_data_never_throws w body st1) as [[[mb sc] pc] Hout].
  destruct (waits_only_refetch_form_data w body st1) as [_ Hun].
  rewrite Hr in Hout, Hun. simpl in Hout, Hun. subst out.
  assert (Hh : handler w body (fresh_request tracker ctx)
               = try_catch
                   (bind (sendResponse
                            (error_form_view (form_values body) (request_title body)
                               (is_empty (iv_email (form_values body)))
                               (is_empty (iv_subject (form_values body))) mb sc pc))
                         (fun _ => ret None))
                   (fun error =>
                      bind (console_error "Error processing form submission:" error)
                           (fun _ => raise ReferenceError)) st2).
  { unfold handler, handler_body, try_catch at 1, bind at 1. cbv beta zeta.
    fold st1.
    rewrite !(component_is_eq _ _ _ Hc). eval_eqb. cbv iota.
    unfold submit_ticket. cbv beta zeta. rewrite Hempty.
    unfold bind at 1. rewrite Hr. reflexivity. }
  unfold after_handler, submit. rewrite Hh. clear Hh.
  unfold try_catch, bind, sendResponse, res_json, ret, raise, console_error, record.
  intros Hclock.
  assert (Hc2 : (clock st2 < deadline)%N).
  { revert Hclock.
    unfold headersSent. simpl.
    destruct (responseSent st2), (existsb is_emit (trace st2)); simpl; auto. }
  destruct (Hun Hc2) as (Ht & _ & Hs & Htm & l & Hl & Hq).
  destruct (quiet_no_emit l Hq) as (Hq1 & Hq2 & Hq3).
  simpl in Ht, Hs, Htm, Hl.
  rewrite Hs. unfold headersSent. simpl. rewrite Hl, Hq1. simpl.
  split; [exact Ht|].
  eexists. split.
  { unfold emitted. simpl. rewrite omap_app, Hq3. reflexivity. }
  split; [eauto|].
  repeat split; destruct mb, sc, pc; reflexivity.
Qed.

Lemma is_empty_false (v : option string) :
  is_empty v = false ->
  exists s, v = Some s /\ Js.truthy (Js.trim s) = true.
Proof.
  destruct v as [s|]; [|discriminate]. simpl. intros H.
  apply orb_false_iff in H as [_ H]. apply negb_false_iff in H. eauto.
Qed.

Lemma accepted_checks (body : Body) :
  accepted body = true ->
  is_empty (iv_email (form_values body)) = false /\
  is_empty (iv_subject (form_values body)) = false /\
  Js.truthy (submitted_email body) = true /\
  Js.truthy (submitted_subject body) = true /\
  Js.truthy (submitted_description body) = true /\
  Js.truthy (submitted_product_id body) = true.
Proof.
  unfold accepted. intros H.
  apply andb_true_iff in H as [H Hp]. apply andb_true_iff in H as [H Hd].
  apply andb_true_iff in H as [He' Hs'].
  destruct (is_empty (iv_email (form_values body))) eqn:He; [discriminate|].
  destruct (is_empty (iv_subject (form_values body))) eqn:Hs; [discriminate|].
  destruct (is_empty_false _ He) as (e & Ee & Te).
  destruct (is_empty_false _ Hs) as (s & Es & Ts).
  unfold submitted_email, submitted_subject. rewrite Ee, Es.
  cbn [default]. auto 10.
Qed.

(** The handler on a submission that passes its checks and finds the
    recent tickets before the deadline. *)
Lemma accepted_handler (w : World) (body : Body)
    (tracker : gmap string TicketInfo) (ctx : option IntercomContext) :
  component_id body = Some "submit_ticket_button" ->
  accepted body = true ->
  (clock (after_handler w body (fresh_request tracker ctx)) < deadline)%N ->
  exists tickets l now,
    forallb quiet_event l = true /\
    handler w body (fresh_request tracker ctx)
    = (Done (Some (submitted_task body)),
       mkState (<[submitted_email body := in_progress]> tracker)
               (Some (mkContext (request_email body) (request_title body)
                                (request_description body)))
               true Cleared now
               (l ++ [ TrackerSet (submitted_email body) in_progress;
                       Emit 200 (home_view w "Create a Freshdesk Ticket" tickets);
                       BackgroundScheduled ])).
Proof.
  intros Hc Hacc.
  destruct (accepted_checks body Hacc) as (He & Hs & Te & Ts & Td & Tp).
  set (st1 := with_context (fresh_request tracker ctx)
                (Some (mkContext (request_email body) (request_title body)
                                 (request_description body)))).
  set (fetch := try_catch
                  (await w body (FetchRecentTickets (submitted_email body))
                         (recent_tickets_api w (submitted_email body)))
                  (fun error =>
                     bind (console_error "Error fetching recent tickets:" error)
                          (fun _ => ret []))).
  assert (Hw : waits_only fetch).
  { apply waits_only_try_catch; [apply waits_only_await|]. intros e.
    apply waits_only_bind; [apply waits_only_console_error|]. intros _.
    apply waits_only_ret. }
  assert (Hn : exists tickets, fst (fetch st1) = Done tickets).
  { unfold fetch, try_catch. destruct (await _ _ _ _ st1) as [[a|e] st']; simpl; eauto. }
  destruct Hn as [tickets Hn].
  destruct (fetch st1) as [out st2] eqn:Hf. simpl in Hn. subst out.
  destruct (Hw st1) as [_ Hun]. rewrite Hf in Hun. simpl in Hun.
  assert (Hh : handler w body (fresh_request tracker ctx)
               = try_catch
                   (bind (tracker_set (submitted_email body) in_progress)
                      (fun _ =>
                         bind (sendResponse
                                 (home_view w "Create a Freshdesk Ticket" tickets))
                           (fun _ =>
                              bind (record BackgroundScheduled)
                                (fun _ => ret (Some (submitted_task body))))))
                   (fun error =>
                      bind (console_error "Error processing form submission:" error)
                           (fun _ => raise ReferenceError)) st2).
  { unfold handler, handler_body, try_catch at 1, bind at 1. cbv beta zeta.
    fold st1.
    rewrite !(component_is_eq _ _ _ Hc). eval_eqb. cbv iota.
    unfold submit_ticket. cbv beta zeta. rewrite He, Hs. cbv beta iota zeta.
    fold (submitted_email body) (submitted_subject body)
         (submitted_description body) (submitted_product_id body)
         (submitted_status body) (submitted_priority body).
    rewrite Te, Ts, Td, Tp. cbv beta iota zeta.
    cbn [orb negb]. cbv beta iota zeta.
    fold fetch. unfold bind at 1. rewrite Hf.
    reflexivity. }
  unfold after_handler. rewrite Hh. clear Hh.
  cbv beta iota zeta delta
      [try_catch bind tracker_set sendResponse res_json ret raise
       console_error record headersSent].
  cbn [with_trace with_tracker with_context with_responseSent with_timer
       with_clock trace ticketTracker intercomContext responseSent timer clock
       fst snd].
  intros Hclock.
  assert (Hc2 : (clock st2 < deadline)%N).
  { revert Hclock.
    destruct (responseSent st2);
      repeat match goal with
             | |- context [if ?b then _ else _] => destruct b
             end; cbn [snd clock]; auto. }
  destruct (Hun Hc2) as (Ht & Hx & Hsent & Htm & l & Hl & Hq).
  destruct (quiet_no_emit l Hq) as (Hq1 & Hq2 & Hq3).
  cbn [st1 with_context fresh_request trace ticketTracker intercomContext
       responseSent timer app] in Ht, Hx, Hsent, Htm, Hl.
  exists tickets, l, (clock st2). split; [assumption|].
  rewrite Hsent. cbv iota.
  rewrite Hl, existsb_app, Hq1. cbn [existsb is_emit orb]. cbv iota.
  unfold with_trace, with_timer, with_responseSent, with_tracker.
  cbn [snd trace ticketTracker intercomContext responseSent timer clock].
  rewrite Ht, Hx, <- !app_assoc. reflexivity.
Qed.

Lemma settle_cleared (w : World) (body : Body) (st : State) :
  timer st = Cleared -> settle w body st = st.
Proof. intros H. unfold settle. now rewrite H. Qed.

(** The callback of the timer reads the email that the handler has just
    stored in the context when the request names no one. *)
Lemma timer_identity (body : Body) :
  truthy_value
    (Js.or_else (contact_email body)
       (Js.or_else (customer_email body) (Some (request_email body))))
  = truthy_value (Some (request_email body)).
Proof.
  unfold request_email, Js.or_else, Js.or_str.
  destruct (contact_email body) as [a|]; simpl.
  - destruct (Js.truthy a) eqn:Ha; simpl; rewrite ?Ha; [reflexivity|].
    destruct (customer_email body) as [b|]; simpl; [|reflexivity].
    destruct (Js.truthy b) eqn:Hb; simpl; rewrite ?Hb; reflexivity.
  - destruct (customer_email body) as [b|]; simpl; [|reflexivity].
    destruct (Js.truthy b) eqn:Hb; simpl; rewrite ?Hb; reflexivity.
Qed.


Ltac read_handler_state :=
  cbn [with_trace with_tracker with_context with_responseSent with_timer
       with_clock fresh_request trace ticketTracker intercomContext responseSent
       timer clock customerEmail fst snd app existsb is_emit orb negb fmap
       option_fmap option_map].

(** The handler, unfolded along the branch of an accepted submission. *)
Ltac enter_accepted_branch Hc He Hs Te Ts Td Tp :=
  unfold handler, handler_body; cbv beta zeta;
  unfold try_catch at 1, bind at 1;
  rewrite !(component_is_eq _ _ _ Hc); eval_eqb; cbv iota;
  unfold submit_ticket; cbv beta zeta; rewrite He, Hs; cbv beta iota zeta;
  match goal with
  | body : Body |- _ =>
      fold (submitted_email body) (submitted_subject body)
           (submitted_description body) (submitted_product_id body)
           (submitted_status body) (submitted_priority body)
  end;
  rewrite Te, Ts, Td, Tp; cbn [orb negb]; cbv beta iota zeta;
  cbv beta iota zeta delta
      [await tick onTimeout sendResponse res_json headersSent bind try_catch
       call tracker_set record ret raise console_error];
  read_handler_state; cbv beta iota zeta.

(** The handler on a submission that passes its checks while the recent
    tickets take longer than the deadline, when the email of the form is
    the one of the contact. *)
Lemma accepted_handler_late (w : World) (body : Body)
    (tracker : gmap string TicketInfo) (ctx : option IntercomContext) :
  component_id body = Some "submit_ticket_button" ->
  accepted body = true ->
  request_email body = submitted_email body ->
  (deadline <= elapsed (recent_tickets_api w (submitted_email body)))%N ->
  exists middle after tickets,
    forallb quiet_event middle = true /\
    forallb quiet_event after = true /\
    handler w body (fresh_request tracker ctx)
    = (Done (Some (submitted_task body)),
       mkState (<[submitted_email body := in_progress]> tracker)
               (Some (mkContext (request_email body) (request_title body)
                                (request_description body)))
               true Fired
               (elapsed (recent_tickets_api w (submitted_email body)))
               ([Call (FetchRecentTickets (submitted_email body));
                 TrackerSet (submitted_email body) in_progress]
                  ++ middle
                  ++ [Emit 200 (home_view w "Create a Freshdesk Ticket" tickets)]
                  ++ after
                  ++ [TrackerSet (submitted_email body) in_progress;
                      BackgroundScheduled])).
Proof.
  intros Hc Hacc Hsame Hlate.
  destruct (accepted_checks body Hacc) as (He & Hs & Te & Ts & Td & Tp).
  pose proof (timer_identity body) as Hid.
  assert (Hid' : truthy_value (Some (request_email body))
                 = Some (submitted_email body)).
  { rewrite Hsame. cbn [truthy_value]. now rewrite Te. }
  rewrite Hid' in Hid. clear Hid'.
  apply N.leb_le in Hlate.
  enter_accepted_branch Hc He Hs Te Ts Td Tp.
  rewrite N.add_0_l, Hlate. cbv beta iota zeta. read_handler_state.
  rewrite Hid. cbv beta iota zeta.
  rewrite (component_is_eq _ _ _ Hc). eval_eqb. cbv beta iota zeta.
  read_handler_state.
  destruct (recent_tickets_on_timeout w (submitted_email body)) as [e1|t1];
    cbv beta iota zeta; read_handler_state;
    destruct (reply (recent_tickets_api w (submitted_email body))) as [e2|t2];
    cbv beta iota zeta; read_handler_state.
  all: rewrite insert_insert_eq.
  - exists [Call (FetchRecentTickets (submitted_email body));
            LogError "Error fetching recent tickets on timeout:" e1],
           [LogError "Error fetching recent tickets:" e2], [].
    repeat split.
  - exists [Call (FetchRecentTickets (submitted_email body));
            LogError "Error fetching recent tickets on timeout:" e1],
           [], [].
    repeat split.
  - exists [Call (FetchRecentTickets (submitted_email body))],
           [LogError "Error fetching recent tickets:" e2], t1.
    repeat split.
  - exists [Call (FetchRecentTickets (submitted_email body))],
           [], t1.
    repeat split.
Qed.

(** The only wait of an accepted submission is the one for the recent
    tickets. *)
Lemma accepted_handler_clock (w : World) (body : Body)
    (tracker : gmap string TicketInfo) (ctx : option IntercomContext) :
  component_id body = Some "submit_ticket_button" ->
  accepted body = true ->
  clock (after_handler w body (fresh_request tracker ctx))
  = elapsed (recent_tickets_api w (submitted_email body)).
Proof.
  intros Hc Hacc.
  destruct (accepted_checks body Hacc) as (He & Hs & Te & Ts & Td & Tp).
  unfold after_handler.
  enter_accepted_branch Hc He Hs Te Ts Td Tp.
  rewrite N.add_0_l.
  destruct (deadline <=? _)%N; cbv beta iota zeta; read_handler_state.
  - destruct (truthy_value _) as [e|]; cbv beta iota zeta; read_handler_state;
      [destruct (component_is body "submit_ticket_button");
       cbv beta iota zeta; read_handler_state|];
      try destruct (recent_tickets_on_timeout w e) as [e1|t1];
      cbv beta iota zeta; read_handler_state;
      destruct (reply (recent_tickets_api w (submitted_email body))) as [e2|t2];
      cbv beta iota zeta; read_handler_state; reflexivity.
  - destruct (reply (recent_tickets_api w (submitted_email body))) as [e2|t2];
      cbv beta iota zeta; read_handler_state; reflexivity.
Qed.

(** Whatever the time that the recent tickets take, an accepted
    submission detaches its task and is answered once, with the home
    page. *)
Lemma accepted_handler_answer (w : World) (body : Body)
    (tracker : gmap string TicketInfo) (ctx : option IntercomContext) :
  component_id body = Some "submit_ticket_button" ->
  accepted body = true ->
  exists tickets,
    fst (handler w body (fresh_request tracker ctx))
    = Done (Some (submitted_task body)) /\
    emitted (after_handler w body (fresh_request tracker ctx))
    = [(200%N, home_view w "Create a Freshdesk Ticket" tickets)].
Proof.
  intros Hc Hacc.
  destruct (accepted_checks body Hacc) as (He & Hs & Te & Ts & Td & Tp).
  unfold after_handler, emitted.
  enter_accepted_branch Hc He Hs Te Ts Td Tp.
  rewrite N.add_0_l.
  destruct (deadline <=? _)%N; cbv beta iota zeta; read_handler_state.
  - destruct (truthy_value _) as [e|]; cbv beta iota zeta; read_handler_state;
      [destruct (component_is body "submit_ticket_button");
       cbv beta iota zeta; read_handler_state|];
      try destruct (recent_tickets_on_timeout w e) as [e1|t1];
      cbv beta iota zeta; read_handler_state;
      destruct (reply (recent_tickets_api w (submitted_email body))) as [e2|t2];
      cbv beta iota zeta; read_handler_state;
      first [ exists []; split; reflexivity
            | exists t1; split; reflexivity ].
  - destruct (reply (recent_tickets_api w (submitted_email body))) as [e2|t2];
      cbv beta iota zeta; read_handler_state;
      first [ exists []; split; reflexivity
            | exists t2; split; reflexivity ].
Qed.

Lemma quiet_writes (l : list Event) :
  forallb quiet_event l = true -> tracker_writes l = [].
Proof.
  induction l as [|ev l IH]; intros Hq; [reflexivity|].
  simpl in Hq. apply andb_true_iff in Hq as [He Hl].
  destruct ev; try discriminate; simpl; now apply IH.
Qed.

(** C3, as amended. A submission that passes every check of the
    handler (email, subject, description and mailbox are there), and that
    is either answered before the deadline of 9 s or comes with the email
    of the contact in its form, sets the tracker of the trimmed email of
    the form to in-progress before the one response, the home page, is
    sent. When its task is done, the tracker differs from the one the
    request found only at that email, where it holds a terminal value:
    completed with the id of the ticket that [createFreshdeskTicket] has
    returned to the task, or failed with the text of the error that
    [createFreshdeskTicket] or [addConversationTranscriptToTicket] has
    thrown. Every write of the tracker was for that email, and one
    response was sent. *)
Theorem accepted_submission_tracked (w : World) (body : Body)
    (tracker : gmap string TicketInfo) (ctx : option IntercomContext) :
  component_id body = Some "submit_ticket_button" ->
  accepted body = true ->
  (clock (after_handler w body (fresh_request tracker ctx)) < deadline)%N \/
  request_email body = submitted_email body ->
  ticketTracker (after_handler w body (fresh_request tracker ctx))
  = <[submitted_email body := in_progress]> tracker /\
  (exists before middle after tickets,
      trace (after_handler w body (fresh_request tracker ctx))
      = before ++ [TrackerSet (submitted_email body) in_progress]
          ++ middle
          ++ [Emit 200 (home_view w "Create a Freshdesk Ticket" tickets)]
          ++ after /\
      forallb quiet_event before = true /\
      forallb quiet_event middle = true /\
      List.filter is_emit after = []) /\
  exists info events,
    trace (submit w body (fresh_request tracker ctx))
    = trace (after_handler w body (fresh_request tracker ctx)) ++ events /\
    ((exists ticketData ticketResponse,
         creations_of events = [ticketData] /\
         createFreshdeskTicket w ticketData = inr ticketResponse /\
         info = completed (response_id ticketResponse))
     \/
     (exists error,
         In (LogError "Background processing: Error creating ticket:" error) events /\
         ((exists ticketData,
              creations_of events = [ticketData] /\
              createFreshdeskTicket w ticketData = inl error)
          \/
          (exists ticketData cid,
              creations_of events = [] /\
              In (Call (AddConversationTranscriptToTicket ticketData cid)) events /\
              addConversationTranscriptToTicket w ticketData cid = inl error)) /\
         info = failed (error_text error))) /\
    ticketTracker (submit w body (fresh_request tracker ctx))
    = <[submitted_email body := info]> tracker /\
    Forall (fun write => fst write = submitted_email body)
           (tracker_writes (trace (submit w body (fresh_request tracker ctx)))) /\
    last (tracker_writes (trace (submit w body (fresh_request tracker ctx))))
    = Some (submitted_email body, info) /\
    emissions (submit w body (fresh_request tracker ctx)) = 1.
Proof.
  intros Hc Hacc Hcase.
  destruct (accepted_checks body Hacc) as (_ & _ & Te & _).
  pose proof (accepted_handler_clock w body tracker ctx Hc Hacc) as Hclock.
  destruct (N.lt_ge_cases
              (elapsed (recent_tickets_api w (submitted_email body))) deadline)
    as [Hearly | Hlate].
  - rewrite <- Hclock in Hearly.
    destruct (accepted_handler w body tracker ctx Hc Hacc Hearly)
      as (tickets & l & now & Hq & Hh).
    destruct (quiet_no_emit l Hq) as (Hq1 & Hq2 & Hq3).
    pose proof (quiet_writes l Hq) as Hw.
    unfold after_handler, submit. rewrite Hh. cbn [snd ticketTracker trace].
    split; [reflexivity|].
    split; [exists l, [], [BackgroundScheduled], tickets; repeat split; assumption|].
    destruct (BackgroundFacts.background_result w (submitted_task body)
                (mkState (<[submitted_email body := in_progress]> tracker)
                   (Some (mkContext (request_email body) (request_title body)
                                    (request_description body)))
                   true Cleared now
                   (l ++ [ TrackerSet (submitted_email body) in_progress;
                           Emit 200 (home_view w "Create a Freshdesk Ticket" tickets);
                           BackgroundScheduled ])) Te)
      as (events & info & Hb & Hemit & Hwrites & Hinfo).
    cbn [bg_email submitted_task ticketTracker intercomContext responseSent timer
         clock trace] in Hb, Hwrites.
    exists info, events. rewrite Hb. cbn [snd].
    rewrite settle_cleared by reflexivity.
    cbn [ticketTracker trace]. split; [reflexivity|].
    split; [exact Hinfo|].
    split; [apply insert_insert_eq|].
    assert (Hall : tracker_writes
                     ((l ++ [ TrackerSet (submitted_email body) in_progress;
                              Emit 200 (home_view w "Create a Freshdesk Ticket" tickets);
                              BackgroundScheduled ]) ++ events)
                   = [ (submitted_email body, in_progress);
                       (submitted_email body, info) ]).
    { unfold tracker_writes in *. rewrite !omap_app, Hw, Hwrites. reflexivity. }
    rewrite Hall. split; [repeat constructor|]. split; [reflexivity|].
    unfold emissions. cbn [trace].
    rewrite !List.filter_app, Hq2, Hemit. reflexivity.
  - destruct Hcase as [Hbefore | Hsame]; [rewrite Hclock in Hbefore; lia|].
    destruct (accepted_handler_late w body tracker ctx Hc Hacc Hsame Hlate)
      as (middle & after & tickets & Hqm & Hqa & Hh).
    destruct (quiet_no_emit middle Hqm) as (_ & Hm2 & _).
    destruct (quiet_no_emit after Hqa) as (_ & Ha2 & _).
    pose proof (quiet_writes middle Hqm) as Hwm.
    pose proof (quiet_writes after Hqa) as Hwa.
    unfold after_handler, submit. rewrite Hh. cbn [snd ticketTracker trace].
    split; [reflexivity|].
    split.
    { exists [Call (FetchRecentTickets (submitted_email body))], middle,
        (after ++ [TrackerSet (submitted_email body) in_progress; BackgroundScheduled]),
        tickets.
      split; [reflexivity|]. repeat split; [assumption|].
      rewrite List.filter_app, Ha2. reflexivity. }
    match type of Hh with
    | _ = (_, ?st) =>
        destruct (BackgroundFacts.background_result w (submitted_task body) st Te)
          as (events & info & Hb & Hemit & Hwrites & Hinfo)
    end.
    cbn [bg_email submitted_task ticketTracker intercomContext responseSent timer
         clock trace] in Hb, Hwrites.
    exists info, events. rewrite Hb. cbn [snd].
    unfold settle. cbn [timer ticketTracker trace].
    split; [reflexivity|].
    split; [exact Hinfo|].
    split; [apply insert_insert_eq|].
    match goal with
    | |- Forall _ (tracker_writes ?t) /\ _ =>
        assert (Hall : tracker_writes t
                       = [ (submitted_email body, in_progress);
                           (submitted_email body, in_progress);
                           (submitted_email body, info) ])
    end.
    { unfold tracker_writes in *.
      rewrite !omap_app, Hwm, Hwa, Hwrites. reflexivity. }
    rewrite Hall. split; [repeat constructor|]. split; [reflexivity|].
    unfold emissions. cbn [trace].
    rewrite !List.filter_app, Hm2, Ha2, Hemit. reflexivity.
Qed.

(** A submission whose description and mailbox do not both arrive is
    answered at once, without any request to the outside. *)
Lemma missing_field_handler (w : World) (body : Body)
    (tracker : gmap string TicketInfo) (ctx : option IntercomContext) :
  component_id body = Some "submit_ticket_button" ->
  is_empty (iv_email (form_values body)) = false ->
  is_empty (iv_subject (form_values body)) = false ->
  Js.truthy (submitted_description body) && Js.truthy (submitted_product_id body)
  = false ->
  handler w body (fresh_request tracker ctx)
  = (Done None,
     mkState tracker
             (Some (mkContext (request_email body) (request_title body)
                              (request_description body)))
             true Cleared 0 [Emit 200 required_fields_view]).
Proof.
  intros Hc He Hs Hm.
  destruct (is_empty_false _ He) as (e & Ee & Te).
  destruct (is_empty_false _ Hs) as (s & Es & Ts).
  assert (Te' : Js.truthy (submitted_email body) = true)
    by (unfold submitted_email; rewrite Ee; exact Te).
  assert (Ts' : Js.truthy (submitted_subject body) = true)
    by (unfold submitted_subject; rewrite Es; exact Ts).
  unfold handler, handler_body, try_catch at 1, bind at 1. cbv beta zeta.
  rewrite !(component_is_eq _ _ _ Hc). eval_eqb. cbv iota.
  unfold submit_ticket. cbv beta zeta. rewrite He, Hs. cbv beta iota zeta.
  fold (submitted_email body) (submitted_subject body)
       (submitted_description body) (submitted_product_id body).
  rewrite Te', Ts'. cbn [orb negb]. cbv iota.
  destruct (Js.truthy (submitted_description body)),
           (Js.truthy (submitted_product_id body)); try discriminate;
    reflexivity.
Qed.

(** C9, as amended. When the description of a submission with email and
    subject is absent or empty, the body of the source of the
    conversation takes its place. If that is empty too, the submission is
    turned down with the view "Please fill in all required fields",
    the tracker is left as it was and no ticket is created. If it is not
    empty and a mailbox was chosen, the submission is accepted, whatever
    the time its requests take: it is answered with the home page and its
    task carries the body of the source as the description. *)
Theorem description_falls_back (w : World) (body : Body)
    (tracker : gmap string TicketInfo) (ctx : option IntercomContext) :
  component_id body = Some "submit_ticket_button" ->
  is_empty (iv_email (form_values body)) = false ->
  is_empty (iv_subject (form_values body)) = false ->
  truthy_value (iv_description (form_values body)) = None ->
  submitted_description body = request_description body /\
  (Js.truthy (request_description body) = false ->
   emitted (submit w body (fresh_request tracker ctx))
   = [(200%N, required_fields_view)] /\
   ticketTracker (submit w body (fresh_request tracker ctx)) = tracker /\
   creations_of (trace (submit w body (fresh_request tracker ctx))) = []) /\
  (Js.truthy (request_description body) = true ->
   Js.truthy (submitted_product_id body) = true ->
   fst (handler w body (fresh_request tracker ctx))
   = Done (Some (submitted_task body)) /\
   bg_description (submitted_task body) = request_description body /\
   exists tickets,
     emitted (after_handler w body (fresh_request tracker ctx))
     = [(200%N, home_view w "Create a Freshdesk Ticket" tickets)]).
Proof.
  intros Hc He Hs Hd.
  assert (Hdesc : submitted_description body = request_description body).
  { unfold submitted_description, Js.or_str.
    destruct (iv_description (form_values body)) as [d|]; [|reflexivity].
    simpl in Hd. now destruct (Js.truthy d). }
  split; [exact Hdesc|]. split.
  - intros Hfalsy.
    assert (Hm : Js.truthy (submitted_description body)
                 && Js.truthy (submitted_product_id body) = false)
      by now rewrite Hdesc, Hfalsy.
    unfold submit.
    rewrite (missing_field_handler w body tracker ctx Hc He Hs Hm).
    rewrite settle_cleared by reflexivity. repeat split.
  - intros Htruthy Hp.
    assert (Hacc : accepted body = true).
    { unfold accepted. now rewrite He, Hs, Hdesc, Htruthy, Hp. }
    destruct (accepted_handler_answer w body tracker ctx Hc Hacc)
      as (tickets & Hh & Hemitted).
    split; [exact Hh|]. split; [exact Hdesc|].
    exists tickets. exact Hemitted.
Qed.

(** C1. A request whose [component_id] is none of [create_ticket],
    [submit_ticket_button] and [cancel] is answered by a call of
    [res.json] that bypasses [sendResponse]: when the handler is done, one
    response has been sent, [responseSent] is still false, and the timer,
    which is still pending, calls [res.json] a second time. *)
Theorem fallback_emits_twice (w : World) (body : Body)
    (tracker : gmap string TicketInfo) (ctx : option IntercomContext) :
  component_is body "create_ticket" = false ->
  component_is body "submit_ticket_button" = false ->
  component_is body "cancel" = false ->
  let st := submit w body (fresh_request tracker ctx) in
  emissions (after_handler w body (fresh_request tracker ctx)) = 1 /\
  responseSent (after_handler w body (fresh_request tracker ctx)) = false /\
  emissions st = 2.
Proof.
  intros H1 H2 H3. 
  assert (Hh : handler w body (fresh_request tracker ctx)
     = (Done None, mkState tracker (Some (mkContext (Js.or_str (Js.or_else (contact_email body) (customer_email body)) "")
            ("Conversation from " +:+ Js.or_str (Js.or_else (contact_name body) (customer_name body)) "Contact")
            (Js.or_str (conversation body ≫= source_body) ""))) false Armed 0 [Emit 200 plain_home_view])).
  { unfold handler, handler_body, try_catch, bind. simpl. rewrite H1, H2, H3.
    destruct (component_is body "refresh_status" || component_is body "retry_button"); reflexivity. }
  unfold submit, after_handler. rewrite Hh. simpl. repeat split.
  unfold settle. simpl. rewrite onTimeout_emits by reflexivity. reflexivity.
Qed.
End ServerFacts.

(* ===================================================================== *)
(** * Facts about the context and the other routes *)
(* ===================================================================== *)

Module ContextFacts.
Import Server.

Lemma keeps_ret {A : Type} (a : A) : keeps_context (ret a).
Proof. intros st. reflexivity. Qed.

Lemma keeps_raise {A : Type} (e : JsError) : keeps_context (@raise A e).
Proof. intros st. reflexivity. Qed.

Lemma keeps_bind {A B : Type} (m : M A) (k : A -> M B) :
  keeps_context m -> (forall a, keeps_context (k a)) -> keeps_context (bind m k).
Proof.
  intros Hm Hk st. unfold bind. specialize (Hm st).
  destruct (m st) as [[a|e] st1]; simpl in *; [|exact Hm].
  now rewrite Hk.
Qed.

Lemma keeps_try_catch {A : Type} (m : M A) (h : JsError -> M A) :
  keeps_context m -> (forall e, keeps_context (h e)) ->
  keeps_context (try_catch m h).
Proof.
  intros Hm Hh st. unfold try_catch. specialize (Hm st).
  destruct (m st) as [[a|e] st1]; simpl in *; [exact Hm|].
  now rewrite Hh.
Qed.

Lemma keeps_record (ev : Event) : keeps_context (record ev).
Proof. intros st. reflexivity. Qed.

Lemma keeps_console_error (label : string) (e : JsError) :
  keeps_context (console_error label e).
Proof. intros st. reflexivity. Qed.

Lemma keeps_tracker_set (email : string) (info : TicketInfo) :
  keeps_context (tracker_set email info).
Proof. intros st. reflexivity. Qed.

Lemma keeps_res_json (status : N) (b : ResBody) : keeps_context (res_json status b).
Proof. intros st. unfold res_json. now destruct (headersSent st). Qed.

Lemma keeps_call {A : Type} (c : ExternalCall) (r : JsError + A) :
  keeps_context (call c r).
Proof.
  unfold call. apply keeps_bind; [apply keeps_record|]. intros _.
  destruct r; [apply keeps_raise | apply keeps_ret].
Qed.

Lemma keeps_sendResponse (b : ResBody) : keeps_context (sendResponse b).
Proof.
  intros st. unfold sendResponse. destruct (responseSent st); [reflexivity|].
  now rewrite keeps_res_json.
Qed.

(** Steps that the lemmas above settle. *)
Ltac keeps_step :=
  first
    [ apply keeps_ret | apply keeps_raise | apply keeps_record
    | apply keeps_console_error | apply keeps_tracker_set | apply keeps_res_json
    | apply keeps_call | apply keeps_sendResponse
    | apply keeps_try_catch | apply keeps_bind
    | match goal with
      | |- keeps_context (if ?b then _ else _) => destruct b
      | |- keeps_context (match ?x with _ => _ end) => destruct x
      | |- forall _, _ => intros ?
      end ].

Lemma keeps_onTimeout (w : World) (body : Body) : keeps_context (onTimeout w body).
Proof.
  intros st. unfold onTimeout. destruct (responseSent st); [reflexivity|].
  match goal with
  | |- intercomContext (snd (?m ?s)) = _ =>
      assert (H : keeps_context m) by (repeat keeps_step);
      rewrite (H s); reflexivity
  end.
Qed.

Lemma keeps_tick (w : World) (body : Body) (ms : N) : keeps_context (tick w body ms).
Proof.
  intros st. unfold tick. cbn [timer with_clock].
  destruct (timer st); try reflexivity.
  destruct (_ <=? _)%N; [|reflexivity].
  cbn [snd]. now rewrite keeps_onTimeout.
Qed.

Lemma keeps_await {A : Type} (w : World) (body : Body) (c : ExternalCall)
    (t : Timed A) :
  keeps_context (await w body c t).
Proof.
  unfold await. apply keeps_bind; [apply keeps_record|]. intros _.
  apply keeps_bind; [apply keeps_tick|]. intros _.
  destruct (reply t); [apply keeps_raise | apply keeps_ret].
Qed.

Lemma keeps_fetch_choices (w : World) (body : Body) (name : string)
    (fields : list Field) :
  keeps_context (fetch_choices w body name fields).
Proof.
  unfold fetch_choices. destruct (find _ fields); [apply keeps_await | apply keeps_ret].
Qed.

Ltac keeps :=
  repeat first
    [ apply keeps_await | apply keeps_fetch_choices | keeps_step ].

Lemma keeps_show_form (w : World) (body : Body) (email title : string) :
  keeps_context (show_form w body email title).
Proof. unfold show_form. keeps. Qed.

Lemma keeps_refetch_form_data (w : World) (body : Body) :
  keeps_context (refetch_form_data w body).
Proof. unfold refetch_form_data. cbv beta zeta. keeps. Qed.

Lemma keeps_submit_ticket (w : World) (body : Body) (title description : string) :
  keeps_context (submit_ticket w body title description).
Proof.
  unfold submit_ticket. cbv beta zeta.
  repeat first [ apply keeps_refetch_form_data | apply keeps_await | keeps_step ].
Qed.

Lemma keeps_cancel (w : World) (body : Body) : keeps_context (cancel w body).
Proof.
  unfold cancel. apply keeps_try_catch; [|intros e; keeps].
  intros st.
  match goal with
  | |- intercomContext (snd (?m ?s)) = _ =>
      assert (H : keeps_context m) by keeps;
      rewrite (H s); reflexivity
  end.
Qed.

Lemma keeps_postIntercomNote (w : World) (cid note : string) :
  keeps_context (postIntercomNote w cid note).
Proof. unfold postIntercomNote. keeps. Qed.

Lemma keeps_background (w : World) (task : Background) :
  keeps_context (background w task).
Proof.
  unfold background. cbv beta zeta.
  repeat first [ apply keeps_postIntercomNote | keeps_step ].
Qed.

Lemma keeps_settle (w : World) (body : Body) (st : State) :
  intercomContext (settle w body st) = intercomContext st.
Proof.
  unfold settle. destruct (timer st) eqn:Ht; try reflexivity.
  now rewrite keeps_onTimeout.
Qed.

(** Every request to [/api/submit] leaves its own context behind. *)
Lemma submit_context (w : World) (body : Body) (st : State) :
  intercomContext (submit w body st)
  = Some (mkContext (request_email body) (request_title body)
                    (request_description body)).
Proof.
  set (written := with_context st
                    (Some (mkContext (request_email body) (request_title body)
                                     (request_description body)))).
  assert (Hh : intercomContext (snd (handler w body st)) = intercomContext written).
  { unfold handler, handler_body. cbv beta zeta.
    unfold try_catch at 1, bind at 1. fold written.
    match goal with
    | |- intercomContext (snd (let (o, st') := ?m written in _)) = _ =>
        assert (Hm : keeps_context m)
          by (repeat first [ apply keeps_show_form | apply keeps_submit_ticket
                           | apply keeps_cancel | keeps_step ]);
        specialize (Hm written); destruct (m written) as [[o|e] st1]
    end; simpl in *; exact Hm. }
  unfold submit. destruct (handler w body st) as [[[task|]|e] st1];
    simpl in Hh; rewrite keeps_settle, ?keeps_background; exact Hh.
Qed.

Lemma initialize_context (body : Body) (st : State) :
  customerEmail <$> intercomContext (snd (initialize body st))
  = Some (initialize_email body).
Proof.
  unfold initialize, bind. cbv beta zeta.
  destruct (ticketTracker st !! initialize_email body) as [info|];
    [destruct (Js.truthy (initialize_email body) && inProgress info)|];
    reflexivity.
Qed.

End ContextFacts.

Module EndpointFacts.
Import Server ContextFacts.

(** At [/api/freshdesk/create-ticket] a failure of the transcript helper
    is logged and the ticket is created from what the request gave. *)
Lemma create_ticket_without_transcript (w : World) (req : CreateTicketBody)
    (email subject description product_id cid : string) (error : JsError)
    (tracker : gmap string TicketInfo) (ctx : option IntercomContext) :
  truthy_value (ct_email req) = Some email ->
  truthy_value (ct_subject req) = Some subject ->
  truthy_value (ct_description req) = Some description ->
  truthy_value (ct_product_id req) = Some product_id ->
  truthy_value (Js.or_else (ct_conversation_id req)
                           (ct_conversation req ≫= conversation_ref_id))
  = Some cid ->
  addConversationTranscriptToTicket w
    (with_conversation_id
       (mkTicketData email subject description 2 (parseInt10 product_id)
                     (parseInt10 <$> truthy_value (ct_status req))
                     (parseInt10 <$> truthy_value (ct_priority req)) None) cid)
    cid = inl error ->
  exists after,
    trace (snd (create_ticket w req (fresh_request tracker ctx)))
    = [ Call (AddConversationTranscriptToTicket
                     (with_conversation_id
                        (mkTicketData email subject description 2
                                      (parseInt10 product_id)
                                      (parseInt10 <$> truthy_value (ct_status req))
                                      (parseInt10 <$> truthy_value (ct_priority req))
                                      None) cid) cid);
             LogError "Error adding conversation transcript:" error;
             Call (CreateFreshdeskTicket
                     (mkTicketData email subject
                        (Banner.merge (Banner.intercomUrl (INTERCOM_INBOX_URL w) cid)
                                      description)
                        2 (parseInt10 product_id)
                        (parseInt10 <$> truthy_value (ct_status req))
                        (parseInt10 <$> truthy_value (ct_priority req))
                        (Some cid))) ]
        ++ after.
Proof.
  intros He Hs Hd Hp Hc Hfail.
  unfold create_ticket.
  cbv beta iota zeta delta [bind try_catch call record ret raise console_error].
  rewrite He, Hs, Hd, Hp, Hc. cbv beta iota zeta. rewrite Hfail.
  cbv beta iota zeta.
  cbn [with_trace trace with_description with_conversation_id td_email td_subject
       td_description td_source td_product_id td_status td_priority
       td_intercom_conversation_id].
  destruct (createFreshdeskTicket w _) as [e|ticket]; eexists; reflexivity.
Qed.

(** At [/api/freshdesk/create-ticket] a request without a description is
    turned down. *)
Lemma create_ticket_needs_description (w : World) (req : CreateTicketBody)
    (tracker : gmap string TicketInfo) (ctx : option IntercomContext) :
  truthy_value (ct_description req) = None ->
  trace (snd (create_ticket w req (fresh_request tracker ctx)))
  = [Emit 400 (ErrorBody "Missing required fields" None)].
Proof.
  intros Hd. unfold create_ticket, try_catch. rewrite Hd.
  destruct (truthy_value (ct_email req)), (truthy_value (ct_subject req));
    reflexivity.
Qed.

(** C10. The answer of [GET /api/freshdesk/recent-tickets] is decided
    by the email of the query or, without one, by the email of the stored
    context: without either the answer is the error 400, otherwise the
    tickets of that email are asked for and sent (or the error 500).
    Every request to [/api/initialize] and to [/api/submit] stores the
    email of its own customer in that context. So the same request,
    without an email, is answered with the tickets of Alice after Alice
    has opened the canvas, and with the tickets of Bob once Bob has
    opened the canvas or submitted a form in between. *)
Theorem recent_tickets_shared_context :
  (forall w query tracker ctx,
      match truthy_value (Js.or_else query (customerEmail <$> ctx)) with
      | None =>
          trace (snd (recent_tickets w query (fresh_request tracker ctx)))
          = [Emit 400 (ErrorBody "Customer email is required" None)]
      | Some email =>
          match reply (recent_tickets_retry_api w email) with
          | inr tickets =>
              trace (snd (recent_tickets w query (fresh_request tracker ctx)))
              = [Call (FetchRecentTickets email); Emit 200 (TicketsBody tickets)]
          | inl e =>
              trace (snd (recent_tickets w query (fresh_request tracker ctx)))
              = [Call (FetchRecentTickets email);
                 LogError "Error fetching recent tickets:" e;
                 Emit 500 (ErrorBody "Failed to fetch recent tickets from Freshdesk"
                                     (Some (message e)))]
          end
      end) /\
  (forall query ctx,
      truthy_value (Js.or_else query (customerEmail <$> ctx)) = None <->
      truthy_value query = None /\ truthy_value (customerEmail <$> ctx) = None) /\
  (forall query ctx,
      truthy_value query = None ->
      truthy_value (Js.or_else query (customerEmail <$> ctx))
      = truthy_value (customerEmail <$> ctx)) /\
  (forall body st,
      customerEmail <$> intercomContext (snd (initialize body st))
      = Some (initialize_email body)) /\
  (forall w body st,
      customerEmail <$> intercomContext (submit w body st)
      = Some (request_email body)) /\
  (let alone := snd (initialize (Scenario.opened_by Scenario.alice) Scenario.started) in
   let bob_opened :=
     snd (initialize (Scenario.opened_by Scenario.bob) (next_request alone)) in
   let bob_submitted :=
     submit Scenario.world (Scenario.complete_by Scenario.bob) (next_request alone) in
   emitted (snd (recent_tickets Scenario.world None (next_request alone)))
   = [(200%N, TicketsBody [Scenario.alice_ticket])] /\
   emitted (snd (recent_tickets Scenario.world None (next_request bob_opened)))
   = [(200%N, TicketsBody [Scenario.bob_ticket])] /\
   emitted (snd (recent_tickets Scenario.world None (next_request bob_submitted)))
   = [(200%N, TicketsBody [Scenario.bob_ticket])]).
Proof.
  split; [|split; [|split; [|split; [|split]]]].
  - intros w query tracker ctx.
    unfold recent_tickets, try_catch. cbn [fresh_request intercomContext].
    destruct (truthy_value _) as [email|]; [|reflexivity].
    unfold bind, call, record, ret, raise.
    destruct (reply (recent_tickets_retry_api w email)); reflexivity.
  - intros query ctx. unfold Js.or_else.
    destruct query as [q|]; simpl.
    + destruct (Js.truthy q) eqn:Hq; simpl; rewrite ?Hq; [split; [discriminate|intros [? _]; discriminate]|tauto].
    + tauto.
  - intros query ctx Hq. unfold Js.or_else.
    destruct query as [q|]; simpl in *; [|reflexivity].
    destruct (Js.truthy q); [discriminate|reflexivity].
  - apply initialize_context.
  - intros w body st. now rewrite submit_context.
  - vm_compute. repeat split.
Qed.

End EndpointFacts.

(* ===================================================================== *)
(** * The sleeps of the retrying client *)
(* ===================================================================== *)

Module RetryBounds.
Import Retry RetryFacts.

Section RoundedSleeps.
Context {R E : Type}.
Variable axios : nat -> Attempt R E.
Variable random : nat -> Q.
Variable fl : Q -> Q.

(** X1. Whatever the integer [retries], the delay [initialDelay] and the
    rounding of the operations on doubles are, a call of [fetchWithRetry]
    comes to an end. With a negative [retries] it calls axios not once and
    falls out of its loop, that is, it returns [undefined]. Otherwise it
    makes at least one and at most [retries + 1] calls of axios and does
    not fall out of its loop. It sleeps once between two consecutive calls
    and never after the last one: the delays slept are, in order,
    [initialDelay] and then each time
    [Math.min(currentDelay * 2, 10000) * (0.8 + Math.random() * 0.4)] of the
    delay before, as the operations on doubles compute it. *)
Theorem fetchWithRetry_sleeps_between_calls (retries : Z) (initialDelay : Q) :
  exists run,
    Rounded.fetchWithRetry axios random fl retries initialDelay = Some run /\
    ((retries < 0)%Z -> run = mkRun ReturnedUndefined 0 []) /\
    ((0 <= retries)%Z ->
     1 <= calls run <= Z.to_nat retries + 1 /\
     result run <> ReturnedUndefined) /\
    length (waits run) = calls run - 1 /\
    (forall d, waits run !! 0 = Some d -> d = initialDelay) /\
    (forall n d d',
        waits run !! n = Some d -> waits run !! S n = Some d' ->
        d' = fl (Qmin (fl (d * 2)) 10000
                 * fl (fl (8 # 10) + fl (random n * fl (4 # 10))))%Q).
Proof.
  destruct (Z.lt_ge_cases retries 0) as [Hneg | Hpos].
  { exists (mkRun ReturnedUndefined 0 []).
    split; [now apply rounded_negative|]. simpl.
    repeat split; intros; first [lia | discriminate]. }
  destruct (rounded_total axios random fl retries initialDelay) as [run Hrun].
  exists run. split; [exact Hrun|].
  pose proof (rounded_loop_outcome axios random fl _ _ 0 _ _ _ Hpos
                (fun k (Hk : k < 0) => match Nat.nlt_0_r k Hk with end) Hrun)
    as [Hcalls Hres].
  destruct (rounded_loop_waits axios random fl _ retries initialDelay 0 [] run
              Hpos eq_refl Hrun) as [Hone Hw].
  split; [intros; lia|].
  split.
  { intros _. split; [lia|]. intros Hu. rewrite Hu in Hres. exact Hres. }
  rewrite Hw.
  split; [now rewrite length_map, length_seq|].
  split.
  { intros d Hd. now apply lookup_map_seq in Hd as [_ ->]. }
  intros n d d' Hn HSn.
  apply lookup_map_seq in Hn as [_ ->]. apply lookup_map_seq in HSn as [_ ->].
  reflexivity.
Qed.

End RoundedSleeps.

Section Sleeps.
Context {R E : Type}.
Variable axios : nat -> Attempt R E.
Variable random : nat -> Q.

(** The loop sleeps the delays of the backoff sequence, one after each
    failed attempt that is followed by another attempt. *)
Lemma loop_waits fuel retries initialDelay attempts slept run :
  attempts <= retries ->
  slept = map (delay_after random initialDelay) (seq 0 attempts) ->
  loop axios random fuel retries attempts
       (delay_after random initialDelay attempts) slept = Some run ->
  1 <= calls run /\
  waits run = map (delay_after random initialDelay) (seq 0 (calls run - 1)).
Proof.
  revert attempts slept.
  induction fuel as [|fuel IH]; intros attempts slept Hle Hslept Hrun;
    [discriminate|].
  simpl in Hrun.
  destruct (attempts <=? retries) eqn:Hcond;
    [|apply Nat.leb_gt in Hcond; lia].
  destruct (axios attempts) as [response|error].
  - injection Hrun as <-. simpl. rewrite Nat.sub_0_r. split; [lia | exact Hslept].
  - destruct (retries <? S attempts) eqn:Hlast.
    + injection Hrun as <-. simpl. rewrite Nat.sub_0_r. split; [lia | exact Hslept].
    + apply Nat.ltb_ge in Hlast.
      refine (IH (S attempts) _ Hlast _ Hrun).
      rewrite seq_snoc, map_app, Hslept. reflexivity.
Qed.

Hypothesis random_range : forall k, (0 <= random k)%Q /\ (random k < 1)%Q.

(** One step of the backoff stays between 0 and 1.2 times the cap. *)
Lemma next_delay_range d r :
  (0 <= d)%Q -> (0 <= r)%Q -> (r < 1)%Q ->
  (0 <= next_delay d r)%Q /\ (next_delay d r <= 12000)%Q.
Proof.
  intros Hd Hr0 Hr1. unfold next_delay.
  assert (Hm : (0 <= Qmin (d * 2) cap)%Q).
  { apply Q.min_glb; [lra | unfold cap; lra]. }
  assert (Hc : (Qmin (d * 2) cap <= 10000)%Q).
  { apply Q.le_min_r. }
  set (m := Qmin (d * 2) cap) in *. clearbody m.
  split; nra.
Qed.

Lemma delay_after_range initialDelay k :
  (0 <= initialDelay)%Q -> (initialDelay <= 12000)%Q ->
  (0 <= delay_after random initialDelay k)%Q /\
  (delay_after random initialDelay k <= 12000)%Q.
Proof.
  intros H0 H1. induction k as [|k [IH0 IH1]]; simpl; [split; assumption|].
  destruct (random_range k) as [Hr0 Hr1].
  now apply next_delay_range.
Qed.

(** X3. As long as [Math.random] stays in [0, 1) and the first delay
    lies between 0 and 12000 ms, no delay that a call sleeps is negative
    or longer than 12000 ms, that is 1.2 times the cap of 10000 ms: the
    jitter is applied after the cap. *)
Theorem fetchWithRetry_delays_bounded retries initialDelay :
  (0 <= initialDelay)%Q -> (initialDelay <= 12000)%Q ->
  exists run,
    fetchWithRetry axios random retries initialDelay = Some run /\
    Forall (fun d => (0 <= d)%Q /\ (d <= 12000)%Q) (waits run).
Proof.
  intros H0 H1.
  destruct (fetchWithRetry_total axios random retries initialDelay) as [run Hrun].
  exists run. split; [exact Hrun|].
  destruct (loop_waits _ retries initialDelay 0 [] run (Nat.le_0_l _) eq_refl Hrun)
    as [_ ->].
  apply List.Forall_forall. intros d Hd.
  apply in_map_iff in Hd as (k & <- & _).
  now apply delay_after_range.
Qed.

(** The time slept, in milliseconds. *)
Lemma default_delays :
  (delay_after random 500 0 == 500)%Q /\
  (800 <= delay_after random 500 1)%Q /\ (delay_after random 500 1 <= 1200)%Q /\
  (1280 <= delay_after random 500 2)%Q /\ (delay_after random 500 2 <= 2880)%Q.
Proof.
  destruct (random_range 0) as [Ha0 Ha1]. destruct (random_range 1) as [Hb0 Hb1].
  assert (H1 : (800 <= delay_after random 500 1)%Q /\
               (delay_after random 500 1 <= 1200)%Q).
  { simpl. unfold next_delay.
    assert (Hm : (Qmin (500 * 2) cap == 1000)%Q).
    { rewrite Q.min_l; [reflexivity | unfold cap; lra]. }
    rewrite Hm. split; nra. }
  destruct H1 as [H1l H1u].
  split; [reflexivity|]. split; [exact H1l|]. split; [exact H1u|].
  change (delay_after random 500 2)
    with (next_delay (delay_after random 500 1) (random 1)).
  set (d := delay_after random 500 1) in *. clearbody d.
  unfold next_delay.
  assert (Hm : (Qmin (d * 2) cap == d * 2)%Q).
  { rewrite Q.min_l; [reflexivity | unfold cap; lra]. }
  rewrite Hm. split; nra.
Qed.

(** X2. With its default arguments, and as long as [Math.random] stays
    in [0, 1), a call of [fetchWithRetry] sleeps at most 4580 ms in all
    (500 + 1200 + 2880); a call that ends by throwing has slept three
    times and at least 2580 ms (500 + 800 + 1280). *)
Theorem fetchWithRetry_default_sleep :
  exists run,
    fetchWithRetry_default axios random = Some run /\
    (fold_right Qplus 0 (waits run) <= 4580)%Q /\
    (forall error, result run = Threw error ->
                   length (waits run) = 3 /\
                   (2580 <= fold_right Qplus 0 (waits run))%Q).
Proof.
  destruct (fetchWithRetry_total axios random 3 500) as [run Hrun].
  exists run. split; [exact Hrun|].
  pose proof (loop_outcome axios random _ _ 0 _ _ _ (Nat.le_0_l 3)
                (fun k (Hk : k < 0) => match Nat.nlt_0_r k Hk with end) Hrun)
    as [Hcalls Hres].
  destruct (loop_waits _ 3 500 0 [] run (Nat.le_0_l _) eq_refl Hrun)
    as [Hone Hw].
  destruct default_delays as (E0 & L1 & U1 & L2 & U2).
  assert (Hcases : calls run = 1 \/ calls run = 2 \/ calls run = 3 \/ calls run = 4)
    by lia.
  split.
  - rewrite Hw.
    destruct Hcases as [-> | [-> | [-> | ->]]]; simpl fold_right;
      simpl in E0, L1, U1, L2, U2; lra.
  - intros error Herr. rewrite Herr in Hres. destruct Hres as (Hfour & _).
    rewrite Hw. replace (calls run) with 4 by lia.
    split; [reflexivity|].
    simpl fold_right. simpl in E0, L1, U1, L2, U2. lra.
Qed.

End Sleeps.
End RetryBounds.

(* ===================================================================== *)
(** * The form and the values of a submission *)
(* ===================================================================== *)

Module FormFacts.
Import Js Server JsFacts ServerFacts.

(** ** Numbers in template literals and [parseInt] *)

Lemma digits_acc (d : Decimal.uint) (p : positive) :
  digits (NilEmpty.string_of_uint d) (Some (N.pos p))
  = Some (N.pos (Pos.of_uint_acc d p)).
Proof.
  revert p. induction d; intros p; simpl; try reflexivity;
    match goal with
    | |- digits _ (Some ?n) = Some (N.pos (Pos.of_uint_acc _ ?q)) =>
        replace n with (N.pos q) by lia; apply IHd
    end.
Qed.

Lemma digits_zero (d : Decimal.uint) :
  digits (NilEmpty.string_of_uint d) (Some 0%N) = Some (Pos.of_uint d).
Proof.
  induction d; simpl; try reflexivity; try exact IHd;
    match goal with
    | |- digits _ (Some ?n) = Some (N.pos (Pos.of_uint_acc _ ?q)) =>
        replace n with (N.pos q) by lia; apply digits_acc
    end.
Qed.

Lemma digits_none (d : Decimal.uint) :
  d <> Decimal.Nil ->
  digits (NilEmpty.string_of_uint d) None = Some (Pos.of_uint d).
Proof.
  destruct d; intros Hd; try congruence; simpl;
    first [ apply digits_zero
          | match goal with
            | |- digits _ (Some ?n) = Some (N.pos (Pos.of_uint_acc _ ?q)) =>
                replace n with (N.pos q) by lia; apply digits_acc
            end ].
Qed.

Lemma to_uint_not_nil (n : N) : N.to_uint n <> Decimal.Nil.
Proof.
  intros H. pose proof (DecimalN.Unsigned.of_to n) as Hn. rewrite H in Hn.
  simpl in Hn. subst n. discriminate.
Qed.

(** [parseInt] reads back the number that a template literal has written. *)
Lemma parseInt10_showN (n : N) : parseInt10 (showN n) = Some (Z.of_N n).
Proof.
  unfold showN.
  pose proof (to_uint_not_nil n) as Hnil.
  pose proof (digits_none _ Hnil) as Hd.
  rewrite (DecimalN.Unsigned.of_to n : Pos.of_uint (N.to_uint n) = n) in Hd.
  destruct (N.to_uint n) as [|d|d|d|d|d|d|d|d|d|d]; [congruence|..];
    unfold parseInt10; cbn [NilEmpty.string_of_uint trimStart];
    (replace (isWhiteSpace _) with false by reflexivity);
    cbn [Ascii.eqb Bool.eqb]; cbn [NilEmpty.string_of_uint] in Hd;
    rewrite Hd; reflexivity.
Qed.

Lemma truthy_append (a b : string) : truthy a = true -> truthy (a +:+ b) = true.
Proof. now destruct a. Qed.

(** [(prefix + rest).replace(prefix, '')]. *)
Lemma replace_prefix (prefix rest : string) :
  replace (prefix +:+ rest) prefix "" = rest.
Proof.
  unfold replace. rewrite split_first_prefix. reflexivity.
Qed.

Lemma strip_prefix_option (prefix rest : string) :
  truthy prefix = true ->
  strip_prefix prefix (Some (prefix +:+ rest)) = rest.
Proof.
  intros Hp. unfold strip_prefix, truthy_value.
  rewrite (truthy_append _ _ Hp). apply replace_prefix.
Qed.

Lemma truthy_showN (n : N) : truthy (showN n) = true.
Proof.
  unfold showN. pose proof (to_uint_not_nil n).
  destruct (N.to_uint n); [congruence|..]; reflexivity.
Qed.

(** X4. What the form offers comes back as what the ticket carries, for
    numbers up to [Number.MAX_SAFE_INTEGER]: when a submission holds, for
    the mailbox, the status and the priority, the ids of the options that
    the form builds ([product_<product_id>], [status_<id>],
    [priority_<value>]) from such numbers, the ticket data of the
    detached task has the [product_id] of that mailbox, the [id] of that
    status and the [value] of that priority as numbers. *)
Theorem selection_reaches_ticket (body : Body) (m : Mailbox) (s p : Choice)
    (description : string) :
  (mailbox_product_id m <= Js.MAX_SAFE_INTEGER)%N ->
  (choice_id s <= Js.MAX_SAFE_INTEGER)%N ->
  (choice_value p <= Js.MAX_SAFE_INTEGER)%N ->
  iv_product_id (form_values body) = Some (option_id (mailbox_option m)) ->
  iv_status (form_values body) = Some (option_id (status_option s)) ->
  iv_priority (form_values body) = Some (option_id (priority_option p)) ->
  td_product_id (task_ticket_data (submitted_task body) description)
  = Some (Z.of_N (mailbox_product_id m)) /\
  td_status (task_ticket_data (submitted_task body) description)
  = Some (Some (Z.of_N (choice_id s))) /\
  td_priority (task_ticket_data (submitted_task body) description)
  = Some (Some (Z.of_N (choice_value p))).
Proof.
  intros _ _ _ Hm Hs Hp.
  unfold task_ticket_data, submitted_task.
  cbn [bg_product_id bg_status bg_priority td_product_id td_status td_priority].
  unfold submitted_product_id, submitted_status, submitted_priority.
  rewrite Hm, Hs, Hp. unfold mailbox_option, status_option, priority_option.
  cbn [option_id].
  rewrite !strip_prefix_option by reflexivity.
  rewrite !truthy_showN, !parseInt10_showN. repeat split.
Qed.

(** ** The subject of a ticket in the home page *)

Lemma substring_length (n : nat) (s : string) :
  String.length (String.substring 0 n s) = Nat.min n (String.length s).
Proof.
  revert s. induction n as [|n IH]; intros [|c s]; simpl; try reflexivity.
  now rewrite IH.
Qed.

Lemma substring_drop (n : nat) (s : string) :
  s = String.substring 0 n s +:+ drop n s.
Proof.
  revert s. induction n as [|n IH]; intros [|c s]; simpl; try reflexivity.
  rewrite append_cons. f_equal. apply IH.
Qed.

(** X5. The subject shown for a ticket is never longer than 43 code
    units: a subject of at most 40 is shown as it is, and of a longer one
    the first 40 code units are shown, followed by three dots. *)
Theorem displaySubject_bounded (subject : string) :
  String.length (displaySubject subject) <= 43 /\
  (String.length subject <= 40 -> displaySubject subject = subject) /\
  (40 < String.length subject ->
   String.length (displaySubject subject) = 43 /\
   exists shown rest,
     String.length shown = 40 /\
     subject = shown +:+ rest /\
     displaySubject subject = shown +:+ "...").
Proof.
  unfold displaySubject.
  destruct (40 <? String.length subject) eqn:Hlen.
  - apply Nat.ltb_lt in Hlen.
    assert (Hshown : String.length (String.substring 0 40 subject) = 40).
    { rewrite substring_length. lia. }
    split; [|split].
    + rewrite length_append, Hshown. simpl. lia.
    + lia.
    + intros _. split; [rewrite length_append, Hshown; reflexivity|].
      exists (String.substring 0 40 subject), (drop 40 subject).
      split; [exact Hshown|]. split; [apply substring_drop | reflexivity].
  - apply Nat.ltb_ge in Hlen. split; [lia|]. split; [reflexivity | lia].
Qed.

(** ** The drop-downs of the form *)




(** ** White space around the values of the form *)

Lemma trimStart_split (s : string) :
  exists a, blank a = true /\ s = a +:+ trimStart s /\
            (trimStart s = "" \/
             exists c r, trimStart s = String c r /\ isWhiteSpace c = false).
Proof.
  induction s as [|c s (a & Ha & Hs & Hhead)].
  - exists "". repeat split. now left.
  - cbn [trimStart]. destruct (isWhiteSpace c) eqn:Hc.
    + exists (String c a). cbn [blank]. rewrite Hc, Ha, append_cons, <- Hs.
      now repeat split.
    + exists "". repeat split. right. now exists c, s.
Qed.

Lemma trimEnd_split (s : string) :
  exists b, blank b = true /\ s = trimEnd s +:+ b.
Proof.
  induction s as [|c s (b & Hb & Hs)].
  - now exists "".
  - cbn [trimEnd]. destruct (trimEnd s) as [|c' t] eqn:Ht.
    + destruct (isWhiteSpace c) eqn:Hc.
      * exists (String c b). cbn [blank]. rewrite Hc, Hb.
        split; [reflexivity|]. rewrite Hs. reflexivity.
      * exists b. split; [exact Hb|]. rewrite Hs. reflexivity.
    + exists b. split; [exact Hb|]. rewrite Hs at 1. reflexivity.
Qed.

Lemma trimEnd_blank (s : string) : blank s = true -> trimEnd s = "".
Proof.
  induction s as [|c s IH]; [reflexivity|]. cbn [blank trimEnd].
  intros H. apply andb_prop in H as [Hc Hs]. now rewrite (IH Hs), Hc.
Qed.

Lemma trimStart_blank (s : string) : blank s = true -> trimStart s = "".
Proof.
  induction s as [|c s IH]; [reflexivity|]. cbn [blank trimStart].
  intros H. apply andb_prop in H as [Hc Hs]. now rewrite Hc, (IH Hs).
Qed.

Lemma trimEnd_idempotent (s : string) : trimEnd (trimEnd s) = trimEnd s.
Proof.
  induction s as [|c s IH]; [reflexivity|]. cbn [trimEnd].
  destruct (trimEnd s) as [|c' t] eqn:Ht.
  - destruct (isWhiteSpace c) eqn:Hc; [reflexivity|].
    cbn [trimEnd]. now rewrite Hc.
  - cbn [trimEnd] in *. now rewrite IH.
Qed.

Lemma trimEnd_head (c : ascii) (r : string) :
  isWhiteSpace c = false -> exists r', trimEnd (String c r) = String c r'.
Proof.
  intros Hc. cbn [trimEnd]. destruct (trimEnd r); [rewrite Hc|]; eauto.
Qed.

Lemma trim_idempotent (s : string) : trim (trim s) = trim s.
Proof.
  unfold trim. destruct (trimStart_split s) as (a & _ & _ & [He|(c & r & He & Hc)]);
    rewrite He; [reflexivity|].
  destruct (trimEnd_head c r Hc) as [r' Hr]. rewrite Hr.
  cbn [trimStart]. rewrite Hc, <- Hr. apply trimEnd_idempotent.
Qed.

Lemma trim_split (s : string) :
  exists a b, blank a = true /\ blank b = true /\ s = a +:+ trim s +:+ b.
Proof.
  destruct (trimStart_split s) as (a & Ha & Hs & _).
  destruct (trimEnd_split (trimStart s)) as (b & Hb & Ht).
  exists a, b. split; [exact Ha|]. split; [exact Hb|].
  unfold trim. now rewrite <- Ht.
Qed.

Lemma trim_blank (s : string) : truthy (trim s) = false <-> blank s = true.
Proof.
  split.
  - intros H. destruct (trim_split s) as (a & b & Ha & Hb & Hs).
    destruct (trim s); [|discriminate]. rewrite Hs. simpl.
    clear Hs. induction a as [|c a IH]; [exact Hb|].
    cbn [blank] in *. apply andb_prop in Ha as [Hc Ha].
    rewrite append_cons. cbn [blank]. now rewrite Hc, IH.
  - intros H. unfold trim. now rewrite (trimStart_blank _ H).
Qed.

(** X20. The first check of a submission turns a field down exactly
    when it is missing or holds white space only. The email and the
    subject of a submission that has passed the checks, as they are filed
    in the tracker and handed to Freshdesk, are the values of the form
    without the white space around them: they are not empty, trimming them
    again changes nothing, and the value of the form is the trimmed value
    between two texts of white space. *)
Theorem submitted_values_trimmed (body : Body) :
  (forall v, is_empty v = true <->
             v = None \/ exists s, v = Some s /\ blank s = true) /\
  (accepted body = true ->
   truthy (submitted_email body) = true /\
   truthy (submitted_subject body) = true /\
   trim (submitted_email body) = submitted_email body /\
   trim (submitted_subject body) = submitted_subject body /\
   (exists a b, blank a = true /\ blank b = true /\
                iv_email (form_values body)
                = Some (a +:+ submitted_email body +:+ b)) /\
   (exists a b, blank a = true /\ blank b = true /\
                iv_subject (form_values body)
                = Some (a +:+ submitted_subject body +:+ b))).
Proof.
  split.
  - intros [s|]; simpl; [|split; [now left | reflexivity]].
    split.
    + intros H. right. exists s. split; [reflexivity|].
      apply trim_blank. destruct (truthy s) eqn:Hs; simpl in H;
        [now apply negb_true_iff in H|].
      destruct s; [reflexivity | discriminate].
    + intros [H|(s' & [= <-] & Hb)]; [discriminate|].
      apply trim_blank in Hb. rewrite Hb. apply orb_true_r.
  - intros Ha. destruct (accepted_checks body Ha) as (He & Hs & Hte & Hts & _).
    destruct (is_empty_false _ He) as (email & Hemail & _).
    destruct (is_empty_false _ Hs) as (subject & Hsubject & _).
    unfold submitted_email, submitted_subject in *.
    rewrite Hemail, Hsubject in *.
    change (default "" (Some email)) with email in *.
    change (default "" (Some subject)) with subject in *.
    repeat split; try assumption; try apply trim_idempotent.
    + destruct (trim_split email) as (a & b & H1 & H2 & H3).
      exists a, b. now rewrite <- H3.
    + destruct (trim_split subject) as (a & b & H1 & H2 & H3).
      exists a, b. now rewrite <- H3.
Qed.

End FormFacts.

(* ===================================================================== *)
(** * Invariants of computations *)
(* ===================================================================== *)

Module Invariants.
Import Server ServerFacts.

(** ** Composition *)

Section Structure.
Context {A B : Type}.
Variable I : State -> Prop.

Lemma preserves_ret (a : A) : preserves I (ret a).
Proof. intros st H. exact H. Qed.

Lemma preserves_raise (e : JsError) : preserves I (@raise A e).
Proof. intros st H. exact H. Qed.

Lemma preserves_bind (m : M A) (k : A -> M B) :
  preserves I m -> (forall a, preserves I (k a)) -> preserves I (bind m k).
Proof.
  intros Hm Hk st H. unfold bind. specialize (Hm st H).
  destruct (m st) as [[a|e] st1]; simpl in *; [now apply Hk | exact Hm].
Qed.

Lemma preserves_try_catch (m : M A) (h : JsError -> M A) :
  preserves I m -> (forall e, preserves I (h e)) -> preserves I (try_catch m h).
Proof.
  intros Hm Hh st H. unfold try_catch. specialize (Hm st H).
  destruct (m st) as [[a|e] st1]; simpl in *; [exact Hm | now apply Hh].
Qed.

(** A computation that reads the state before it goes on. *)
Lemma preserves_read (f : State -> M A) :
  (forall st0, preserves I (f st0)) -> preserves I (fun st => f st st).
Proof. intros Hf st H. now apply Hf. Qed.

Lemma total_ret (a : A) : total I (ret a).
Proof. intros st _. now exists a. Qed.

Lemma total_bind (m : M A) (k : A -> M B) :
  preserves I m -> total I m -> (forall a, total I (k a)) -> total I (bind m k).
Proof.
  intros Hp Hm Hk st H. unfold bind.
  specialize (Hp st H). destruct (Hm st H) as [a Ha].
  destruct (m st) as [[a'|e] st1]; simpl in *; [now apply Hk | discriminate].
Qed.

Lemma total_try_catch (m : M A) (h : JsError -> M A) :
  preserves I m -> (forall e, total I (h e)) -> total I (try_catch m h).
Proof.
  intros Hp Hh st H. unfold try_catch. specialize (Hp st H).
  destruct (m st) as [[a|e] st1]; simpl in *; [now exists a | now apply Hh].
Qed.

Lemma total_read (f : State -> M A) :
  (forall st0, total I (f st0)) -> total I (fun st => f st st).
Proof. intros Hf st H. now apply Hf. Qed.

End Structure.

Section Values.
Context {A B : Type}.

Lemma returns_ret (Q : A -> Prop) (a : A) : Q a -> returns Q (ret a).
Proof. intros H st a' [= <-]. exact H. Qed.

Lemma returns_raise (Q : A -> Prop) (e : JsError) : returns Q (@raise A e).
Proof. intros st a. discriminate. Qed.

Lemma returns_bind (Q : B -> Prop) (m : M A) (k : A -> M B) :
  (forall a, returns Q (k a)) -> returns Q (bind m k).
Proof.
  intros Hk st b. unfold bind.
  destruct (m st) as [[a|e] st1]; [apply Hk | discriminate].
Qed.

Lemma returns_try_catch (Q : A -> Prop) (m : M A) (h : JsError -> M A) :
  returns Q m -> (forall e, returns Q (h e)) -> returns Q (try_catch m h).
Proof.
  intros Hm Hh st a. unfold try_catch. specialize (Hm st).
  destruct (m st) as [[a'|e] st1]; simpl in *; [exact (Hm a) | apply Hh].
Qed.

End Values.

(** ** Events *)

Section Events.
Variable prefix : list Event.
Variable good : Event -> Prop.

Lemma events_append (st st' : State) (ev : Event) :
  trace st' = trace st ++ [ev] ->
  good ev -> events_since prefix good st -> events_since prefix good st'.
Proof.
  intros Htr Hev (l & Hl & Hgood). exists (l ++ [ev]). split.
  - now rewrite Htr, Hl, app_assoc.
  - apply Forall_app. split; [exact Hgood | now constructor].
Qed.

Lemma events_record (ev : Event) : good ev -> preserves (events_since prefix good) (record ev).
Proof.
  intros Hev st H. now eapply events_append; [reflexivity|..].
Qed.

Lemma events_console_error (label : string) (e : JsError) :
  good (LogError label e) -> preserves (events_since prefix good) (console_error label e).
Proof. apply events_record. Qed.

Lemma events_tracker_set (email : string) (info : TicketInfo) :
  good (TrackerSet email info) ->
  preserves (events_since prefix good) (tracker_set email info).
Proof.
  intros Hev st H. now eapply events_append; [reflexivity|..].
Qed.

Lemma events_tracker_delete (email : string) :
  good (TrackerDelete email) -> preserves (events_since prefix good) (tracker_delete email).
Proof.
  intros Hev st H. now eapply events_append; [reflexivity|..].
Qed.

Lemma events_res_json (status : N) (b : ResBody) :
  good (Emit status b) -> preserves (events_since prefix good) (res_json status b).
Proof.
  intros Hev st H. unfold res_json.
  destruct (headersSent st); (now eapply events_append; [reflexivity|..]).
Qed.

Lemma events_call {A : Type} (c : ExternalCall) (r : JsError + A) :
  good (Call c) -> preserves (events_since prefix good) (call c r).
Proof.
  intros Hev. unfold call. apply preserves_bind; [now apply events_record|].
  intros _. destruct r; [apply preserves_raise | apply preserves_ret].
Qed.

Lemma events_sendResponse (b : ResBody) :
  good (Emit 200 b) -> preserves (events_since prefix good) (sendResponse b).
Proof.
  intros Hev st H. unfold sendResponse. destruct (responseSent st); [exact H|].
  now apply events_res_json.
Qed.

Lemma events_write_context (c : option IntercomContext) :
  preserves (events_since prefix good)
            (fun st : State => (Done tt, with_context st c)).
Proof. intros st H. exact H. Qed.

(** Time passes: the events are those of the callback of the timer. *)
Lemma events_tick (w : World) (body : Body) (ms : N) :
  preserves (events_since prefix good) (onTimeout w body) ->
  preserves (events_since prefix good) (tick w body ms).
Proof.
  intros Hcb st H. unfold tick. cbn [timer with_clock].
  destruct (timer st); try exact H.
  destruct (_ <=? _)%N; [|exact H].
  cbn [snd]. apply Hcb. exact H.
Qed.

Lemma events_await {A : Type} (w : World) (body : Body) (c : ExternalCall)
    (t : Timed A) :
  good (Call c) ->
  preserves (events_since prefix good) (onTimeout w body) ->
  preserves (events_since prefix good) (await w body c t).
Proof.
  intros Hc Hcb. unfold await.
  apply preserves_bind; [now apply events_record|]. intros _.
  apply preserves_bind; [now apply events_tick|]. intros _.
  destruct (reply t); [apply preserves_raise | apply preserves_ret].
Qed.

Lemma events_settle (w : World) (body : Body) (st : State) :
  preserves (events_since prefix good) (onTimeout w body) ->
  events_since prefix good st -> events_since prefix good (settle w body st).
Proof.
  intros Hcb H. unfold settle. destruct (timer st); try exact H.
  apply Hcb. exact H.
Qed.

End Events.

End Invariants.

(* ===================================================================== *)
(** * The events of a request *)
(* ===================================================================== *)

Module HandlerEvents.
Import Server ServerFacts Invariants.

Lemma truthy_value_some (v : option string) (s : string) :
  truthy_value v = Some s -> Js.truthy s = true.
Proof.
  destruct v as [x|]; simpl; [|discriminate].
  destruct (Js.truthy x) eqn:Hx; [|discriminate]. now intros [= <-].
Qed.

(** A field that has passed the first check is not empty once trimmed. *)
Lemma passed_first_check (v : option string) :
  is_empty v = false -> Js.truthy (Js.trim (default "" v)) = true.
Proof.
  intros H. destruct (is_empty_false v H) as (s & -> & Hs). exact Hs.
Qed.

Lemma second_check_passed (inputValues : InputValues) :
  is_empty (iv_email inputValues) || is_empty (iv_subject inputValues) = false ->
  negb (Js.truthy (Js.trim (default "" (iv_email inputValues))))
  || negb (Js.truthy (Js.trim (default "" (iv_subject inputValues)))) = false.
Proof.
  intros H. apply orb_false_elim in H as [He Hs].
  now rewrite (passed_first_check _ He), (passed_first_check _ Hs).
Qed.

Lemma other_home (label : string) (part : list Component) :
  other_view (CanvasBody (mkCanvas (home_header label ++ part) None None)).
Proof. intros iv s d t dd. unfold second_check_view. discriminate. Qed.

Lemma other_home_view (w : World) (label : string) (tickets : list Ticket) :
  other_view (home_view w label tickets).
Proof. apply other_home. Qed.

Lemma other_plain_home : other_view plain_home_view.
Proof. apply other_home. Qed.

Lemma other_load_error : other_view load_error_view.
Proof. intros iv s d t dd. unfold second_check_view. discriminate. Qed.

Lemma other_required_fields : other_view required_fields_view.
Proof. intros iv s d t dd. unfold second_check_view. discriminate. Qed.

Lemma other_form_view e t ms ss ps : other_view (form_view e t ms ss ps).
Proof. intros iv s d t' dd. unfold second_check_view, form_view. discriminate. Qed.

Lemma other_error_form iv t be bs ms ss ps :
  other_view (error_form_view iv t be bs ms ss ps).
Proof.
  intros iv' s d t' dd. unfold second_check_view, error_form_view.
  cbn [app]. congruence.
Qed.

(** ** What a request to [/api/submit] may leave in its trace *)

Section Alphabet.
Variable w : World.
Variable body : Body.
Variable prefix : list Event.
Variable good : Event -> Prop.

Hypothesis good_log : forall label e, good (LogError label e).
Hypothesis good_call : forall c, is_creation (Call c) = false -> good (Call c).
Hypothesis good_scheduled : good BackgroundScheduled.
Hypothesis good_mark :
  component_is body "submit_ticket_button" = true ->
  forall email, Js.truthy email = true -> good (TrackerSet email in_progress).
Hypothesis good_emit : forall b, other_view b -> good (Emit 200 b).
Hypothesis good_load_error :
  component_is body "create_ticket" = true -> good (Emit 500 load_error_view).

Ltac good_event :=
  first
    [ apply good_log
    | apply good_scheduled
    | apply good_call; reflexivity
    | apply good_emit;
      first [ apply other_home | apply other_home_view | apply other_plain_home
            | apply other_load_error | apply other_required_fields
            | apply other_form_view | apply other_error_form ]
    | apply good_load_error; assumption
    | apply good_mark;
      [ assumption
      | first [assumption | eapply truthy_value_some; eassumption] ] ].

Ltac events_step :=
  first
    [ apply preserves_ret | apply preserves_raise
    | apply events_write_context
    | apply events_record; good_event
    | apply events_console_error; good_event
    | apply events_tracker_set; good_event
    | apply events_res_json; good_event
    | apply events_sendResponse; good_event
    | apply events_call; good_event
    | apply events_await; [good_event | assumption]
    | apply preserves_try_catch | apply preserves_bind
    | match goal with
      | |- preserves _ (if ?b then _ else _) => case_eq b; intros ?
      | |- preserves _ (match ?x with _ => _ end) => case_eq x; intros
      | |- forall _, _ => intros ?
      end ].

Lemma events_onTimeout : preserves (events_since prefix good) (onTimeout w body).
Proof.
  intros st H. unfold onTimeout. destruct (responseSent st); [exact H|].
  match goal with
  | |- events_since prefix good (snd (?m ?s)) =>
      assert (Hm : preserves (events_since prefix good) m) by (repeat events_step);
      apply (Hm s); exact H
  end.
Qed.

Lemma events_fetch_choices (name : string) (fields : list Field) :
  preserves (events_since prefix good) (fetch_choices w body name fields).
Proof.
  pose proof events_onTimeout. unfold fetch_choices. repeat events_step.
Qed.

Lemma events_show_form (email title : string) :
  component_is body "create_ticket" = true ->
  preserves (events_since prefix good) (show_form w body email title).
Proof.
  intros Hc. pose proof events_onTimeout. unfold show_form.
  repeat first [ apply events_fetch_choices | events_step ].
Qed.

Lemma events_load_form_data :
  preserves (events_since prefix good) (load_form_data w body).
Proof.
  pose proof events_onTimeout. unfold load_form_data.
  repeat first [ apply events_fetch_choices | events_step ].
Qed.

Lemma events_refetch_form_data :
  preserves (events_since prefix good) (refetch_form_data w body).
Proof.
  pose proof events_onTimeout. unfold refetch_form_data. cbv beta zeta.
  repeat first [ apply events_fetch_choices | events_step ].
Qed.

Lemma events_submit_ticket (title description : string) :
  component_is body "submit_ticket_button" = true ->
  preserves (events_since prefix good) (submit_ticket w body title description).
Proof.
  intros Hc. pose proof events_onTimeout. unfold submit_ticket. cbv beta zeta.
  destruct (is_empty (iv_email (form_values body))
            || is_empty (iv_subject (form_values body))) eqn:Hfirst.
  - repeat first [ apply events_refetch_form_data | events_step ].
  - rewrite (second_check_passed _ Hfirst).
    repeat events_step.
Qed.

Lemma events_cancel : preserves (events_since prefix good) (cancel w body).
Proof.
  pose proof events_onTimeout. unfold cancel.
  apply preserves_try_catch; [|repeat events_step].
  intros st H0.
  match goal with
  | |- events_since prefix good (snd (?m ?s)) =>
      assert (Hm : preserves (events_since prefix good) m) by (repeat events_step);
      apply (Hm s); exact H0
  end.
Qed.

Lemma events_handler : preserves (events_since prefix good) (handler w body).
Proof.
  unfold handler, handler_body. cbv beta zeta.
  repeat first [ apply events_show_form; assumption | apply events_cancel
               | apply events_submit_ticket; assumption | events_step ].
Qed.

End Alphabet.

(** ** What the detached task may leave in the trace *)

Section TaskAlphabet.
Variable w : World.
Variable task : Background.
Variable prefix : list Event.
Variable good : Event -> Prop.

Hypothesis good_log : forall label e, good (LogError label e).
Hypothesis good_call : forall c, good (Call c).
Hypothesis good_done :
  Js.truthy (bg_email task) = true ->
  forall info, terminal info -> good (TrackerSet (bg_email task) info).

Ltac good_event :=
  first
    [ apply good_log | apply good_call
    | apply good_done;
      [ assumption
      | first [ left; eexists; reflexivity | right; eexists; reflexivity ] ] ].

Ltac events_step :=
  first
    [ apply preserves_ret | apply preserves_raise
    | apply events_record; good_event
    | apply events_console_error; good_event
    | apply events_tracker_set; good_event
    | apply events_call; good_event
    | apply preserves_try_catch | apply preserves_bind
    | match goal with
      | |- preserves _ (if ?b then _ else _) => case_eq b; intros ?
      | |- preserves _ (match ?x with _ => _ end) => case_eq x; intros
      | |- forall _, _ => intros ?
      end ].

Lemma events_background : preserves (events_since prefix good) (background w task).
Proof.
  unfold background, postIntercomNote. cbv beta zeta. repeat events_step.
Qed.

End TaskAlphabet.

(** ** The value of the handler *)

Ltac returns_step :=
  first
    [ apply returns_raise
    | apply returns_ret; first [ now left | idtac ]
    | apply returns_try_catch | apply returns_bind
    | match goal with
      | |- returns _ (if ?b then _ else _) => case_eq b; intros ?
      | |- returns _ (match ?x with _ => _ end) => case_eq x; intros
      | |- returns _ (let '(_, _) := ?x in _) => destruct x as [[? ?] ?]
      | |- forall _, _ => intros ?
      end ].

(** The handler detaches a task for an accepted submission only, and
    then it is the task of that submission. *)
Lemma handler_task (w : World) (body : Body) :
  returns (fun r => r = None \/
                    component_is body "submit_ticket_button" = true /\
                    accepted body = true /\
                    r = Some (submitted_task body))
          (handler w body).
Proof.
  unfold handler, handler_body. cbv beta zeta.
  apply returns_try_catch; [|intros e; repeat returns_step].
  apply returns_bind. intros _.
  case_eq (component_is body "create_ticket"); intros Hcreate;
    [repeat returns_step|].
  case_eq (component_is body "submit_ticket_button"); intros Hsubmit;
    [|repeat returns_step].
  unfold submit_ticket. cbv beta zeta.
  case_eq (is_empty (iv_email (form_values body))
           || is_empty (iv_subject (form_values body))); intros Hfirst;
    [repeat returns_step|].
  rewrite (second_check_passed _ Hfirst).
  match goal with
  | |- returns _ (if ?b then _ else _) => case_eq b; intros Hguard
  end; [repeat returns_step|].
  do 4 (apply returns_bind; intros ?).
  apply returns_ret. right. split; [reflexivity|]. split; [|reflexivity].
  apply orb_false_elim in Hfirst as [He Hs].
  apply orb_false_elim in Hguard as [Hguard Hp].
  apply orb_false_elim in Hguard as [_ Hd].
  unfold accepted, submitted_description, submitted_product_id.
  rewrite He, Hs. apply negb_false_iff in Hd, Hp. now rewrite Hd, Hp.
Qed.

Lemma handler_value (w : World) (body : Body) (st : State) (task : Background) :
  fst (handler w body st) = Done (Some task) ->
  component_is body "submit_ticket_button" = true /\
  accepted body = true /\ task = submitted_task body.
Proof.
  intros H. destruct (handler_task w body st _ H) as [|(Hc & Ha & Ht)];
    [discriminate|].
  repeat split; [assumption..|congruence].
Qed.

End HandlerEvents.

(* ===================================================================== *)
(** * The state of a request *)
(* ===================================================================== *)

Module StateInvariants.
Import Server ServerFacts Invariants.

(** The steps of a proof that a computation preserves an invariant;
    [prim] settles the primitive operations. *)
Ltac invariant_step prim :=
  first
    [ apply preserves_ret | apply preserves_raise
    | prim
    | apply preserves_try_catch | apply preserves_bind
    | match goal with
      | |- preserves _ (if ?b then _ else _) => case_eq b; intros ?
      | |- preserves _ (match ?x with _ => _ end) => case_eq x; intros
      | |- forall _, _ => intros ?
      end ].

(** A computation that reads the state first: [fun st => m st], where
    [m] mentions [st]. *)
Ltac invariant_read tac :=
  let st := fresh "st" in
  let H := fresh "H" in
  intros st H; cbv beta;
  match goal with
  | |- ?I (snd (?m ?s)) =>
      let Hm := fresh "Hm" in
      assert (Hm : preserves I m) by tac;
      exact (Hm s H)
  end.

(** ** The tracker and the trace *)

Section Tracked.
Variable tracker : gmap string TicketInfo.

Lemma tracked_append (st : State) (ev : Event) :
  tracked tracker st ->
  fold_left apply_event (trace st ++ [ev]) tracker
  = apply_event (ticketTracker st) ev.
Proof. intros H. rewrite fold_left_app. simpl. now rewrite <- H. Qed.

Lemma tracked_record (ev : Event) :
  is_write ev = false -> preserves (tracked tracker) (record ev).
Proof.
  intros Hev st H. unfold tracked. simpl. rewrite (tracked_append _ _ H).
  now destruct ev.
Qed.

Lemma tracked_console_error (label : string) (e : JsError) :
  preserves (tracked tracker) (console_error label e).
Proof. now apply tracked_record. Qed.

Lemma tracked_tracker_set (email : string) (info : TicketInfo) :
  preserves (tracked tracker) (tracker_set email info).
Proof. intros st H. unfold tracked. simpl. now rewrite (tracked_append _ _ H). Qed.

Lemma tracked_tracker_delete (email : string) :
  preserves (tracked tracker) (tracker_delete email).
Proof. intros st H. unfold tracked. simpl. now rewrite (tracked_append _ _ H). Qed.

Lemma tracked_res_json (status : N) (b : ResBody) :
  preserves (tracked tracker) (res_json status b).
Proof.
  intros st H. unfold tracked, res_json.
  destruct (headersSent st); simpl; now rewrite (tracked_append _ _ H).
Qed.

Lemma tracked_sendResponse (b : ResBody) :
  preserves (tracked tracker) (sendResponse b).
Proof.
  intros st H. unfold sendResponse. destruct (responseSent st); [exact H|].
  now apply tracked_res_json.
Qed.

Lemma tracked_call {A : Type} (c : ExternalCall) (r : JsError + A) :
  preserves (tracked tracker) (call c r).
Proof.
  unfold call. apply preserves_bind; [now apply tracked_record|].
  intros _. destruct r; [apply preserves_raise | apply preserves_ret].
Qed.

Lemma tracked_write_context (c : option IntercomContext) :
  preserves (tracked tracker) (fun st : State => (Done tt, with_context st c)).
Proof. intros st H. exact H. Qed.

Ltac tracked_prim :=
  first
    [ apply tracked_write_context | apply tracked_console_error
    | apply tracked_record; reflexivity
    | apply tracked_tracker_set | apply tracked_tracker_delete
    | apply tracked_res_json | apply tracked_sendResponse | apply tracked_call ].

Lemma tracked_onTimeout (w : World) (body : Body) :
  preserves (tracked tracker) (onTimeout w body).
Proof.
  intros st H. unfold onTimeout. destruct (responseSent st); [exact H|].
  match goal with
  | |- tracked tracker (snd (?m ?s)) =>
      assert (Hm : preserves (tracked tracker) m)
        by (repeat invariant_step tracked_prim);
      apply (Hm s); exact H
  end.
Qed.

Lemma tracked_tick (w : World) (body : Body) (ms : N) :
  preserves (tracked tracker) (tick w body ms).
Proof.
  intros st H. unfold tick. cbn [timer with_clock].
  destruct (timer st); try exact H.
  destruct (_ <=? _)%N; [|exact H].
  cbn [snd]. apply tracked_onTimeout. exact H.
Qed.

Lemma tracked_await {A : Type} (w : World) (body : Body) (c : ExternalCall)
    (t : Timed A) :
  preserves (tracked tracker) (await w body c t).
Proof.
  unfold await.
  apply preserves_bind; [now apply tracked_record|]. intros _.
  apply preserves_bind; [apply tracked_tick|]. intros _.
  destruct (reply t); [apply preserves_raise | apply preserves_ret].
Qed.

Ltac tracked_all := repeat invariant_step ltac:(first [apply tracked_await | tracked_prim]).

Lemma tracked_handler (w : World) (body : Body) :
  preserves (tracked tracker) (handler w body).
Proof.
  unfold handler, handler_body, show_form, submit_ticket, cancel,
    refetch_form_data, fetch_choices.
  cbv beta zeta.
  repeat first
    [ invariant_step ltac:(first [apply tracked_await | tracked_prim])
    | match goal with
      | |- preserves _ (let '(_, _) := ?x in _) => destruct x as [[? ?] ?]
      | |- preserves _ (fun st => _) => invariant_read tracked_all
      end ].
Qed.

Lemma tracked_background (w : World) (task : Background) :
  preserves (tracked tracker) (background w task).
Proof.
  unfold background, postIntercomNote. cbv beta zeta. tracked_all.
Qed.

Lemma tracked_settle (w : World) (body : Body) (st : State) :
  tracked tracker st -> tracked tracker (settle w body st).
Proof.
  intros H. unfold settle. destruct (timer st); try exact H.
  apply tracked_onTimeout. exact H.
Qed.

(** The tracker that a request to [/api/submit] leaves behind is the one
    it found, changed by the writes in its trace. *)
Lemma tracked_submit (w : World) (body : Body) (ctx : option IntercomContext) :
  tracked tracker (submit w body (fresh_request tracker ctx)).
Proof.
  assert (H0 : tracked tracker (fresh_request tracker ctx)) by reflexivity.
  pose proof (tracked_handler w body _ H0) as Hh.
  unfold submit. destruct (handler w body _) as [[[task|]|e] st1]; simpl in Hh.
  - apply tracked_settle. now apply tracked_background.
  - now apply tracked_settle.
  - now apply tracked_settle.
Qed.

End Tracked.

(** ** The flag [responseSent] and the timer *)

Lemma emissions_record (st : State) (ev : Event) :
  emissions (with_trace st (trace st ++ [ev]))
  = emissions st + (if is_emit ev then 1 else 0).
Proof. rewrite emissions_app. simpl. now destruct (is_emit ev). Qed.

Lemma not_sent_yet (st : State) : emissions st = 0 -> headersSent st = false.
Proof.
  unfold emissions, headersSent. induction (trace st) as [|ev l IH]; simpl;
    [reflexivity|].
  destruct (is_emit ev); simpl; [discriminate | exact IH].
Qed.

(** What the operations other than [sendResponse] and the passing of time
    leave alone. *)
Section Flags.
Variable sent : bool.
Variable pending : Timer.

Lemma flags_record (ev : Event) : preserves (flags sent pending) (record ev).
Proof. intros st H. exact H. Qed.

Lemma flags_tracker_set (email : string) (info : TicketInfo) :
  preserves (flags sent pending) (tracker_set email info).
Proof. intros st H. exact H. Qed.

Lemma flags_res_json (status : N) (b : ResBody) :
  preserves (flags sent pending) (res_json status b).
Proof. intros st H. unfold res_json. now destruct (headersSent st). Qed.

Lemma flags_call {A : Type} (c : ExternalCall) (r : JsError + A) :
  preserves (flags sent pending) (call c r).
Proof.
  unfold call. apply preserves_bind; [apply flags_record|].
  intros _. destruct r; [apply preserves_raise | apply preserves_ret].
Qed.

End Flags.

Ltac flags_prim :=
  first
    [ apply flags_record | apply flags_tracker_set | apply flags_res_json
    | apply flags_call ].

(** The callback of the timer sets [responseSent] and leaves the timer as
    it is. *)
Lemma onTimeout_flags (w : World) (body : Body) (st : State) :
  responseSent (snd (onTimeout w body st)) = true /\
  timer (snd (onTimeout w body st)) = timer st.
Proof.
  unfold onTimeout. destruct (responseSent st) eqn:Hs; [now split|].
  match goal with
  | |- responseSent (snd (?m ?s)) = _ /\ _ =>
      assert (Hm : preserves (flags true (timer st)) m)
        by (unfold console_error; repeat invariant_step flags_prim);
      apply (Hm s); now split
  end.
Qed.

(** ** One response *)

Lemma once_record (ev : Event) :
  is_emit ev = false -> preserves answered_once (record ev).
Proof.
  intros Hev st H. unfold answered_once in *. cbn [record snd].
  rewrite emissions_record, Hev, Nat.add_0_r. exact H.
Qed.

Lemma once_console_error (label : string) (e : JsError) :
  preserves answered_once (console_error label e).
Proof. now apply once_record. Qed.

Lemma once_tracker_set (email : string) (info : TicketInfo) :
  preserves answered_once (tracker_set email info).
Proof.
  intros st H. unfold answered_once in *. cbn [tracker_set snd].
  change (emissions _) with
    (emissions (with_trace st (trace st ++ [TrackerSet email info]))).
  rewrite emissions_record, Nat.add_0_r. exact H.
Qed.

Lemma once_call {A : Type} (c : ExternalCall) (r : JsError + A) :
  preserves answered_once (call c r).
Proof.
  unfold call. apply preserves_bind; [now apply once_record|].
  intros _. destruct r; [apply preserves_raise | apply preserves_ret].
Qed.

Lemma once_write_context (c : option IntercomContext) :
  preserves answered_once (fun st : State => (Done tt, with_context st c)).
Proof. intros st H. exact H. Qed.

Lemma once_sendResponse (b : ResBody) : preserves answered_once (sendResponse b).
Proof.
  intros st H. unfold sendResponse.
  destruct (responseSent st) eqn:Hs; [exact H|].
  destruct H as [(_ & Ht & He)|(Hs' & _)]; [|congruence].
  right. unfold res_json.
  replace (headersSent _) with false by (symmetry; now apply not_sent_yet).
  cbn [snd]. repeat split; [discriminate|].
  rewrite emissions_record. cbn [is_emit].
  change (emissions (with_timer (with_responseSent st true) Cleared))
    with (emissions st). lia.
Qed.

(** [sendResponse] does not throw as long as nothing has been written to
    [res] behind its back. *)
Lemma once_sendResponse_total (b : ResBody) : total answered_once (sendResponse b).
Proof.
  intros st H. unfold sendResponse.
  destruct (responseSent st) eqn:Hs; [now exists tt|].
  destruct H as [(_ & Ht & He)|(Hs' & _)]; [|congruence].
  unfold res_json.
  replace (headersSent _) with false by (symmetry; now apply not_sent_yet).
  now exists tt.
Qed.

(** The timer goes off on a request that has not been answered. *)
Lemma once_fired (w : World) (body : Body) (st : State) :
  responseSent st = false -> timer st = Fired -> emissions st = 0 ->
  answered_once (snd (onTimeout w body st)).
Proof.
  intros Hs Ht He. right.
  destruct (onTimeout_flags w body st) as [Hs' Ht'].
  rewrite Hs', Ht', Ht, (onTimeout_emits w body st Hs), He.
  repeat split; discriminate.
Qed.

Lemma once_tick (w : World) (body : Body) (ms : N) :
  preserves answered_once (tick w body ms).
Proof.
  intros st H. unfold tick. cbn [timer with_clock].
  destruct (timer st) eqn:Ht; try exact H.
  destruct (_ <=? _)%N; [|exact H].
  cbn [snd]. destruct H as [(Hs & _ & He)|(_ & Hn & _)]; [|congruence].
  now apply once_fired.
Qed.

Lemma once_await {A : Type} (w : World) (body : Body) (c : ExternalCall)
    (t : Timed A) :
  preserves answered_once (await w body c t).
Proof.
  unfold await.
  apply preserves_bind; [now apply once_record|]. intros _.
  apply preserves_bind; [apply once_tick|]. intros _.
  destruct (reply t); [apply preserves_raise | apply preserves_ret].
Qed.

Ltac once_prim :=
  first
    [ apply once_write_context | apply once_console_error
    | apply once_record; reflexivity
    | apply once_tracker_set | apply once_sendResponse | apply once_call
    | apply once_await ].

Ltac once_all := repeat invariant_step once_prim.

Lemma once_load_form_data (w : World) (body : Body) :
  preserves answered_once (load_form_data w body).
Proof. unfold load_form_data, fetch_choices. once_all. Qed.

Lemma once_refetch_form_data (w : World) (body : Body) :
  preserves answered_once (refetch_form_data w body).
Proof. unfold refetch_form_data, fetch_choices. cbv beta zeta. once_all. Qed.

Lemma once_submit_ticket (w : World) (body : Body) (title description : string) :
  preserves answered_once (submit_ticket w body title description).
Proof.
  unfold submit_ticket. cbv beta zeta.
  repeat first
    [ apply once_refetch_form_data
    | invariant_step once_prim
    | match goal with
      | |- preserves _ (let '(_, _) := ?x in _) => destruct x as [[? ?] ?]
      end ].
Qed.

Lemma once_cancel (w : World) (body : Body) : preserves answered_once (cancel w body).
Proof.
  unfold cancel. apply preserves_try_catch; [|once_all].
  invariant_read once_all.
Qed.

Lemma once_background (w : World) (task : Background) :
  preserves answered_once (background w task).
Proof. unfold background, postIntercomNote. cbv beta zeta. once_all. Qed.

(** When the timer has had its turn, one response has gone out. *)
Lemma once_settle (w : World) (body : Body) (st : State) :
  answered_once st -> emissions (settle w body st) = 1.
Proof.
  intros H. unfold settle.
  destruct (timer st) eqn:Ht.
  - destruct H as [(Hs & _ & He)|(_ & Hn & _)]; [|congruence].
    destruct (once_fired w body (with_timer st Fired) Hs eq_refl He)
      as [(Hs' & _)|(_ & _ & Hone)]; [|exact Hone].
    destruct (onTimeout_flags w body (with_timer st Fired)) as [Hsent _].
    congruence.
  - destruct H as [(_ & Ha & _)|(_ & _ & He)]; [congruence | exact He].
  - destruct H as [(_ & Ha & _)|(_ & _ & He)]; [congruence | exact He].
Qed.

(** ** No rejection *)

Lemma total_simple {A : Type} (I : State -> Prop) (m : M A) :
  never_throws m -> total I m.
Proof. intros H st _. apply H. Qed.

Lemma total_try_catch_body {A : Type} (I : State -> Prop) (m : M A)
    (h : JsError -> M A) :
  total I m -> total I (try_catch m h).
Proof.
  intros Hm st H. unfold try_catch. destruct (Hm st H) as [a Ha].
  destruct (m st) as [[a'|e] st1]; simpl in *; [now exists a' | discriminate].
Qed.

Lemma never_throws_record (ev : Event) : never_throws (record ev).
Proof. intros st. now exists tt. Qed.

Lemma never_throws_console_error (label : string) (e : JsError) :
  never_throws (console_error label e).
Proof. intros st. now exists tt. Qed.

Lemma never_throws_tracker_set (email : string) (info : TicketInfo) :
  never_throws (tracker_set email info).
Proof. intros st. now exists tt. Qed.

Lemma never_throws_write_context (c : option IntercomContext) :
  never_throws (fun st : State => (Done tt, with_context st c)).
Proof. intros st. now exists tt. Qed.

Ltac total_prim :=
  first
    [ apply total_ret
    | apply once_sendResponse_total
    | apply total_simple;
      first [ apply never_throws_record | apply never_throws_console_error
            | apply never_throws_tracker_set | apply never_throws_write_context
            | apply refetch_form_data_never_throws ] ].

Ltac total_step :=
  first
    [ total_prim
    | apply total_try_catch; [once_all|]
    | apply total_bind;
      [ first [ apply once_refetch_form_data | once_all ] | | ]
    | match goal with
      | |- total _ (if ?b then _ else _) => case_eq b; intros ?
      | |- total _ (match ?x with _ => _ end) => case_eq x; intros
      | |- total _ (let '(_, _) := ?x in _) => destruct x as [[? ?] ?]
      | |- forall _, _ => intros ?
      end ].

Lemma submit_ticket_total (w : World) (body : Body) (title description : string) :
  total answered_once (submit_ticket w body title description).
Proof. unfold submit_ticket. cbv beta zeta. repeat total_step. Qed.

Lemma cancel_total (w : World) (body : Body) : total answered_once (cancel w body).
Proof.
  unfold cancel. apply total_try_catch; [|repeat total_step].
  invariant_read once_all.
Qed.

(** ** At least one response *)

Lemma settled_record (ev : Event) : preserves answered_when_settled (record ev).
Proof.
  intros st H. unfold answered_when_settled in *. cbn [record snd].
  rewrite emissions_record. intros Hf. specialize (H Hf). lia.
Qed.

Lemma settled_console_error (label : string) (e : JsError) :
  preserves answered_when_settled (console_error label e).
Proof. apply settled_record. Qed.

Lemma settled_tracker_set (email : string) (info : TicketInfo) :
  preserves answered_when_settled (tracker_set email info).
Proof.
  intros st H. unfold answered_when_settled in *. cbn [tracker_set snd].
  change (emissions _) with
    (emissions (with_trace st (trace st ++ [TrackerSet email info]))).
  rewrite emissions_record. intros Hf. specialize (H Hf). simpl. lia.
Qed.

Lemma settled_res_json (status : N) (b : ResBody) :
  preserves answered_when_settled (res_json status b).
Proof.
  intros st H. unfold answered_when_settled, res_json in *.
  destruct (headersSent st); cbn [snd]; rewrite emissions_record;
    intros _; simpl; lia.
Qed.

Lemma settled_sendResponse (b : ResBody) :
  preserves answered_when_settled (sendResponse b).
Proof.
  intros st H. unfold sendResponse. destruct (responseSent st); [exact H|].
  intros _. unfold res_json.
  destruct (headersSent _); cbn [snd]; rewrite emissions_record; simpl; lia.
Qed.

Lemma settled_call {A : Type} (c : ExternalCall) (r : JsError + A) :
  preserves answered_when_settled (call c r).
Proof.
  unfold call. apply preserves_bind; [apply settled_record|].
  intros _. destruct r; [apply preserves_raise | apply preserves_ret].
Qed.

Lemma settled_write_context (c : option IntercomContext) :
  preserves answered_when_settled (fun st : State => (Done tt, with_context st c)).
Proof. intros st H. exact H. Qed.

(** Whatever the state, the callback of the timer leaves a response
    behind when the flag was set for a reason. *)
Lemma settled_fired (w : World) (body : Body) (st : State) :
  (responseSent st = true -> 1 <= emissions st) ->
  1 <= emissions (snd (onTimeout w body st)).
Proof.
  intros H. destruct (responseSent st) eqn:Hs.
  - unfold onTimeout. rewrite Hs. now apply H.
  - rewrite (onTimeout_emits w body st Hs). lia.
Qed.

Lemma settled_tick (w : World) (body : Body) (ms : N) :
  preserves answered_when_settled (tick w body ms).
Proof.
  intros st H. unfold tick. cbn [timer with_clock].
  destruct (timer st) eqn:Ht; try exact H.
  destruct (_ <=? _)%N; [|exact H].
  cbn [snd]. intros _. apply settled_fired.
  intros Hs. apply H. now left.
Qed.

Lemma settled_await {A : Type} (w : World) (body : Body) (c : ExternalCall)
    (t : Timed A) :
  preserves answered_when_settled (await w body c t).
Proof.
  unfold await.
  apply preserves_bind; [apply settled_record|]. intros _.
  apply preserves_bind; [apply settled_tick|]. intros _.
  destruct (reply t); [apply preserves_raise | apply preserves_ret].
Qed.

Ltac settled_prim :=
  first
    [ apply settled_write_context | apply settled_console_error
    | apply settled_record | apply settled_tracker_set | apply settled_res_json
    | apply settled_sendResponse | apply settled_call | apply settled_await ].

Ltac settled_all := repeat invariant_step settled_prim.

Lemma settled_handler (w : World) (body : Body) :
  preserves answered_when_settled (handler w body).
Proof.
  unfold handler, handler_body, show_form, submit_ticket, cancel,
    refetch_form_data, fetch_choices.
  cbv beta zeta.
  repeat first
    [ invariant_step settled_prim
    | match goal with
      | |- preserves _ (let '(_, _) := ?x in _) => destruct x as [[? ?] ?]
      | |- preserves _ (fun st => _) => invariant_read settled_all
      end ].
Qed.

Lemma settled_background (w : World) (task : Background) :
  preserves answered_when_settled (background w task).
Proof. unfold background, postIntercomNote. cbv beta zeta. settled_all. Qed.

(** Once the timer has had its turn, a response has gone out. *)
Lemma settled_settle (w : World) (body : Body) (st : State) :
  answered_when_settled st -> 1 <= emissions (settle w body st).
Proof.
  intros H. unfold settle. destruct (timer st) eqn:Ht.
  - apply settled_fired. intros Hs. apply H. now left.
  - apply H. right. congruence.
  - apply H. right. congruence.
Qed.

End StateInvariants.

(* ===================================================================== *)
(** * Whole requests to the submit route *)
(* ===================================================================== *)

Module RequestFacts.
Import Server ServerFacts Invariants HandlerEvents StateInvariants.

(** ** Lists of events *)

Lemma no_write_replay (l : list Event) (tracker : gmap string TicketInfo) :
  Forall (fun ev => is_write ev = false) l ->
  fold_left apply_event l tracker = tracker /\ tracker_writes l = [].
Proof.
  induction 1 as [|ev l Hev _ [IH1 IH2]]; [now split|].
  destruct ev; try discriminate; simpl; now split.
Qed.

Lemma no_creation (l : list Event) :
  Forall (fun ev => is_creation ev = false) l -> creations_of l = [].
Proof.
  induction 1 as [|ev l Hev _ IH]; [reflexivity|].
  destruct ev as [c| | | | |]; try exact IH.
  destruct c; try exact IH. discriminate.
Qed.

Lemma creations_app (l l' : list Event) :
  creations_of (l ++ l') = creations_of l ++ creations_of l'.
Proof. unfold creations_of. apply omap_app. Qed.

Lemma events_since_here (good : Event -> Prop) (st : State) :
  events_since (trace st) good st.
Proof. exists []. split; [now rewrite app_nil_r | constructor]. Qed.

(** ** Whole requests *)

Section Request.
Variable w : World.
Variable body : Body.
Variable tracker : gmap string TicketInfo.
Variable ctx : option IntercomContext.

Lemma arrival_events (good : Event -> Prop) : events_since [] good (fresh_request tracker ctx).
Proof. exists []. split; [reflexivity | constructor]. Qed.

(** The events of a whole request, when those of the handler, of the
    timer and of the detached task are [good]. *)
Lemma submit_events (good : Event -> Prop) :
  preserves (events_since [] good) (handler w body) ->
  preserves (events_since [] good) (onTimeout w body) ->
  (accepted body = true ->
   component_is body "submit_ticket_button" = true ->
   preserves (events_since [] good) (background w (submitted_task body))) ->
  Forall good (trace (submit w body (fresh_request tracker ctx))).
Proof.
  intros Hh Ht Hb. pose proof (Hh (fresh_request tracker ctx) (arrival_events good)) as H1.
  assert (H : events_since [] good (submit w body (fresh_request tracker ctx))).
  { unfold submit.
    destruct (handler w body (fresh_request tracker ctx)) as [[[task|]|e] st1] eqn:Hrun;
      cbn [snd] in H1.
    - destruct (handler_value w body (fresh_request tracker ctx) task) as (Hc & Ha & ->);
        [now rewrite Hrun|].
      apply events_settle; [exact Ht|]. now apply Hb.
    - now apply events_settle.
    - now apply events_settle. }
  destruct H as (l & -> & Hl). exact Hl.
Qed.

(** X7. A request to [/api/submit] that is not a click on the button
    [submit_ticket_button] writes nothing to the tracker, whatever the
    outside world does and however long it takes: not in the handler and
    not in the callback of the timer. *)
Theorem only_submissions_write_tracker :
  component_is body "submit_ticket_button" = false ->
  ticketTracker (submit w body (fresh_request tracker ctx)) = tracker /\
  tracker_writes (trace (submit w body (fresh_request tracker ctx))) = [].
Proof.
  intros Hc.
  assert (H : Forall (fun ev => is_write ev = false) (trace (submit w body (fresh_request tracker ctx)))).
  { apply submit_events.
    - apply events_handler; try reflexivity. congruence.
    - apply events_onTimeout; try reflexivity. congruence.
    - congruence. }
  destruct (no_write_replay _ tracker H) as [Hfold Hwrites].
  split; [|exact Hwrites].
  rewrite (tracked_submit tracker w body ctx). exact Hfold.
Qed.

Lemma background_creation (task : Background) (st : State) :
  exists events,
    trace (snd (background w task st)) = trace st ++ events /\
    length (creations_of events) <= 1.
Proof.
  unfold background, postIntercomNote.
  cbv beta iota zeta delta [bind try_catch call tracker_set record ret raise
                            console_error].
  destruct (truthy_value (bg_conversationId task)) as [cid|];
    destruct (Js.truthy (bg_email task));
    cbv beta iota zeta.
  all: BackgroundFacts.split_replies.
  all: eexists.
  all: (split; [rewrite <- ?app_assoc; reflexivity|]).
  all: simpl; lia.
Qed.

(** X8. A request to [/api/submit] calls [createFreshdeskTicket] at most
    once, and it does so only when it is a submission that has passed
    every check of the handler; no other request creates a ticket,
    whatever the timing. *)
Theorem ticket_only_when_accepted :
  creations_of (trace (submit w body (fresh_request tracker ctx))) = [] \/
  component_is body "submit_ticket_button" = true /\
  accepted body = true /\
  exists ticketData,
    creations_of (trace (submit w body (fresh_request tracker ctx))) = [ticketData].
Proof.
  set (quiet := fun ev => is_creation ev = false).
  assert (Hh : forall prefix, preserves (events_since prefix quiet) (handler w body))
    by (intros; apply events_handler; intros; first [assumption | reflexivity]).
  assert (Ht : forall prefix, preserves (events_since prefix quiet) (onTimeout w body))
    by (intros; apply events_onTimeout; intros; first [assumption | reflexivity]).
  pose proof (Hh [] (fresh_request tracker ctx) (arrival_events quiet)) as H1.
  unfold submit.
  destruct (handler w body (fresh_request tracker ctx)) as [[[task|]|e] st1] eqn:Hrun;
    cbn [snd] in H1.
  2,3: left; apply (events_settle _ _ w body _ (Ht [])) in H1 as (l & -> & Hl);
       now apply no_creation.
  destruct (handler_value w body (fresh_request tracker ctx) task) as (Hc & Ha & ->);
    [now rewrite Hrun|].
  destruct H1 as (l1 & Hl1 & Hq1). simpl in Hl1.
  destruct (background_creation (submitted_task body) st1) as (events & Htr & Hlen).
  set (st2 := snd (background w (submitted_task body) st1)) in *.
  destruct (events_settle _ _ w body _ (Ht (trace st2)) (events_since_here quiet st2))
    as (l3 & Hl3 & Hq3).
  rewrite Hl3, Htr, Hl1, !creations_app, (no_creation _ Hq1), (no_creation _ Hq3),
    app_nil_r.
  simpl.
  destruct (creations_of events) as [|ticketData [|]] eqn:Hev;
    [now left | | simpl in Hlen; lia].
  right. repeat split; try assumption. now exists ticketData.
Qed.

(** The writes of a request are filed under an email. *)
Lemma submit_writes :
  Forall (fun ev => match ev with
                    | TrackerSet email _ => Js.truthy email = true
                    | TrackerDelete _ => False
                    | _ => True
                    end)
         (trace (submit w body (fresh_request tracker ctx))).
Proof.
  apply submit_events.
  - apply events_handler; try exact I; auto.
  - apply events_onTimeout; try exact I; auto.
  - intros Ha Hc. apply events_background; auto.
Qed.

Lemma replay_keeps (l : list Event) :
  Forall (fun ev => match ev with
                    | TrackerSet email _ => Js.truthy email = true
                    | TrackerDelete _ => False
                    | _ => True
                    end) l ->
  forall t : gmap string TicketInfo,
    (forall email, is_Some (t !! email) ->
                   is_Some (fold_left apply_event l t !! email)) /\
    fold_left apply_event l t !! "" = t !! "".
Proof.
  induction 1 as [|ev l Hev _ IH]; intros t; [now split|].
  destruct ev as [c|label e|status b|email info|email|]; simpl;
    try apply IH; [|destruct Hev].
  destruct (IH (<[email := info]> t)) as [IH1 IH2]. split.
  - intros e He. apply IH1.
    destruct (decide (email = e)) as [->|Hne];
      [rewrite lookup_insert_eq; eauto | now rewrite lookup_insert_ne].
  - rewrite IH2. apply lookup_insert_ne. intros ->. discriminate.
Qed.

(** X9. Whatever a request to [/api/submit] is and however it goes, every
    entry that it writes to the tracker is filed under an email that is
    not empty, and it removes none: an email that had an entry has one
    afterwards, and there is never an entry under the empty email that was
    not there before. *)
Theorem tracker_entries_have_email :
  Forall (fun write => Js.truthy (fst write) = true)
         (tracker_writes (trace (submit w body (fresh_request tracker ctx)))) /\
  (forall email,
      is_Some (tracker !! email) ->
      is_Some (ticketTracker (submit w body (fresh_request tracker ctx)) !! email)) /\
  ticketTracker (submit w body (fresh_request tracker ctx)) !! "" = tracker !! "".
Proof.
  pose proof submit_writes as H.
  split.
  - induction H as [|ev l Hev _ IH]; [constructor|].
    destruct ev; simpl; try exact IH. constructor; [exact Hev | exact IH].
  - pose proof (tracked_submit tracker w body ctx) as Ht. unfold tracked in Ht.
    rewrite Ht. now apply replay_keeps.
Qed.

(** X10. The form of the second check of email and subject (the one
    with the empty email input flagged as required, sent when the trimmed
    email or subject is empty) is never sent: no view that a request
    to [/api/submit] hands to [res.json] is that form, whatever its
    arguments. A submission that gets as far as that check has passed the
    first one, which has turned down every email and every subject that is
    empty once trimmed. *)
Theorem second_check_never_shown :
  Forall (fun ev => match ev with
                    | Emit _ view => other_view view
                    | _ => True
                    end)
         (trace (submit w body (fresh_request tracker ctx))).
Proof.
  apply submit_events.
  - apply events_handler; try exact I; auto. intros _. apply other_load_error.
  - apply events_onTimeout; try exact I; auto.
  - intros _ _. apply events_background; try exact I; auto.
Qed.

(** ** The number of responses *)

Lemma component_is_other (id other : string) :
  component_is body id = true -> String.eqb id other = false ->
  component_is body other = false.
Proof.
  unfold component_is. destruct (component_id body) as [c|]; [|discriminate].
  intros Hc Hne. apply String.eqb_eq in Hc as ->. exact Hne.
Qed.

Lemma arrival_once : answered_once (fresh_request tracker ctx).
Proof. left. now repeat split. Qed.

(** The handler of a click on [submit_ticket_button] or [cancel]: its
    promise is fulfilled and the state is one of [answered_once]. *)
Lemma answering_handler :
  component_is body "submit_ticket_button" || component_is body "cancel" = true ->
  (exists r, fst (handler w body (fresh_request tracker ctx)) = Done r) /\
  answered_once (snd (handler w body (fresh_request tracker ctx))).
Proof.
  intros Hc.
  assert (Hcreate : component_is body "create_ticket" = false).
  { apply orb_true_iff in Hc as [Hc|Hc];
      now apply (component_is_other _ _ Hc). }
  assert (Hbody : preserves answered_once (handler_body w body) /\
                  total answered_once (handler_body w body)).
  { unfold handler_body. cbv beta zeta. rewrite Hcreate.
    destruct (component_is body "submit_ticket_button") eqn:Hs.
    - split.
      + apply preserves_bind; [apply once_write_context|]. intros _.
        apply once_submit_ticket.
      + apply total_bind;
          [apply once_write_context
          |apply total_simple, never_throws_write_context|].
        intros _. apply submit_ticket_total.
    - simpl in Hc. rewrite Hc. split.
      + apply preserves_bind; [apply once_write_context|]. intros _.
        apply preserves_bind; [apply once_cancel|]. intros _. apply preserves_ret.
      + apply total_bind;
          [apply once_write_context
          |apply total_simple, never_throws_write_context|].
        intros _. apply total_bind; [apply once_cancel | apply cancel_total|].
        intros _. apply total_ret. }
  destruct Hbody as [Hp Ht].
  pose proof (Hp _ arrival_once) as H1.
  destruct (Ht _ arrival_once) as [r Hr].
  unfold handler, try_catch.
  destruct (handler_body w body (fresh_request tracker ctx)) as [[r'|e] st1];
    simpl in *; [|discriminate].
  split; [now exists r' | exact H1].
Qed.

Lemma single_emission (l : list Event) :
  length (List.filter is_emit l) = 1 ->
  Forall (fun ev => match ev with Emit status _ => status = 200%N | _ => True end) l ->
  exists view,
    omap (fun ev => match ev with Emit s b => Some (s, b) | _ => None end) l
    = [(200%N, view)].
Proof.
  induction l as [|ev l IH]; simpl; [discriminate|].
  intros Hlen Hall. inversion Hall as [|? ? Hev Hrest]; subst.
  destruct ev as [c|label e|status b|email info|email|]; simpl in *; auto.
  subst status. exists b. f_equal.
  injection Hlen as Hlen. apply length_zero_iff_nil in Hlen.
  clear -Hlen. induction l as [|ev l IH]; [reflexivity|].
  simpl in *. destruct ev; simpl in *; try discriminate; now apply IH.
Qed.

(** X11. A click on [submit_ticket_button] or on [cancel] is answered
    exactly once, with the status 200, whatever the calls to the outside
    give and however long they take to settle: by [sendResponse] when the
    handler gets there within 9 s, by the callback of the timer otherwise,
    and never by both.
    The promise of the handler is fulfilled, so that nothing is left to the
    error handling of Express. *)
Theorem answered_exactly_once :
  component_is body "submit_ticket_button" || component_is body "cancel" = true ->
  (exists r, fst (handler w body (fresh_request tracker ctx)) = Done r) /\
  emissions (submit w body (fresh_request tracker ctx)) = 1 /\
  exists view, emitted (submit w body (fresh_request tracker ctx)) = [(200%N, view)].
Proof.
  intros Hc.
  assert (Hcreate : component_is body "create_ticket" = false).
  { apply orb_true_iff in Hc as [H|H]; now apply (component_is_other _ _ H). }
  destruct (answering_handler Hc) as [Hdone Honce].
  assert (Hone : emissions (submit w body (fresh_request tracker ctx)) = 1).
  { unfold submit.
    destruct (handler w body (fresh_request tracker ctx)) as [[[task|]|e] st1];
      cbn [snd] in *; apply once_settle; try exact Honce.
    now apply once_background. }
  split; [exact Hdone|]. split; [exact Hone|].
  apply single_emission; [exact Hone|].
  apply submit_events.
  - apply events_handler; try exact I; auto. congruence.
  - apply events_onTimeout; try exact I; auto.
  - intros _ _. apply events_background; try exact I; auto.
Qed.

(** X12. Every request to [/api/submit] is answered: when everything
    that it has started has come to an end (the calls to the outside are
    taken to settle), [res.json] has been called at least once, whatever
    the button, the outside world and the timing. *)
Theorem always_answered :
  1 <= emissions (submit w body (fresh_request tracker ctx)).
Proof.
  assert (H0 : answered_when_settled (fresh_request tracker ctx)).
  { intros [H|H]; [discriminate | now elim H]. }
  pose proof (settled_handler w body _ H0) as H1.
  unfold submit.
  destruct (handler w body (fresh_request tracker ctx)) as [[[task|]|e] st1];
    cbn [snd] in *; apply settled_settle; try exact H1.
  now apply settled_background.
Qed.

(** ** The [create_ticket] button *)

Lemma show_form_unfold (email title : string) :
  show_form w body email title
  = bind (try_catch (load_form_data w body)
            (fun error =>
               bind (console_error "Error fetching Freshdesk data:" error)
                    (fun _ => bind (res_json 500 load_error_view)
                                   (fun _ => ret None))))
         (fun loaded =>
            match loaded with
            | Some (mailboxes, statusChoices, priorityChoices) =>
                sendResponse
                  (form_view email title mailboxes statusChoices priorityChoices)
            | None => ret tt
            end).
Proof. reflexivity. Qed.

Lemma emitted_in (status : N) (b : ResBody) (st : State) :
  In (status, b) (emitted st) <-> In (Emit status b) (trace st).
Proof.
  unfold emitted. induction (trace st) as [|ev l IH]; [reflexivity|].
  destruct ev as [c|label e|status' b'|email info|email|]; simpl;
    rewrite IH; try (split; [now right | intros [H|H]; [discriminate | exact H]]).
  split; (intros [H|H]; [left; congruence | now right]).
Qed.

Lemma sent_already (st : State) : 1 <= emissions st -> headersSent st = true.
Proof.
  destruct (headersSent st) eqn:H; [reflexivity|].
  unfold emissions, headersSent in *. intros Hlen. exfalso.
  induction (trace st) as [|ev l IH]; simpl in *; [lia|].
  destruct (is_emit ev); simpl in *; [discriminate | now apply IH].
Qed.

Lemma status_200 (l : list Event) :
  Forall (fun ev => match ev with Emit status _ => status = 200%N | _ => True end) l ->
  ~ In (Emit 500 load_error_view) l.
Proof.
  intros H Hin. rewrite List.Forall_forall in H. specialize (H _ Hin).
  discriminate.
Qed.

(** The state in which the handler starts its requests. *)
Lemma form_request_runs :
  component_is body "create_ticket" = true ->
  let final := submit w body (fresh_request tracker ctx) in
  match
    fst (load_form_data w body
           (with_context (fresh_request tracker ctx)
              (Some (mkContext (request_email body) (request_title body)
                               (request_description body)))))
  with
  | Done _ =>
      emissions final = 1 /\ ~ In (Emit 500 load_error_view) (trace final)
  | Raise e =>
      emissions final = 2 /\ In (Emit 500 load_error_view) (trace final)
  end.
Proof.
  intros Hc.
  set (good := fun ev => match ev with
                         | Emit status _ => status = 200%N
                         | _ => True
                         end).
  assert (Htimer : forall prefix, preserves (events_since prefix good) (onTimeout w body))
    by (intros; apply events_onTimeout; intros; exact I || reflexivity).
  set (stc := with_context (fresh_request tracker ctx) _).
  assert (Hc0 : answered_once stc) by (left; now repeat split).
  pose proof (once_load_form_data w body stc Hc0) as Honce.
  assert (He0 : events_since [] good stc) by (exists []; split; [reflexivity | constructor]).
  assert (Hev : events_since [] good (snd (load_form_data w body stc)))
    by (apply events_load_form_data; intros; exact I || reflexivity || assumption).
  unfold submit, handler, handler_body. cbv beta zeta.
  rewrite Hc, show_form_unfold.
  cbv beta iota zeta delta [try_catch bind ret]. fold stc.
  destruct (load_form_data w body stc) as [[loaded|e] st1]; cbn [fst snd] in *.
  - assert (Hdone : forall st2 : State,
               answered_once st2 -> events_since [] good st2 ->
               emissions (settle w body st2) = 1 /\
               ~ In (Emit 500 load_error_view) (trace (settle w body st2))).
    { intros st2 H1 H2. split; [now apply once_settle|].
      apply status_200.
      destruct (events_settle _ _ w body _ (Htimer []) H2) as (l & -> & Hl).
      exact Hl. }
    destruct loaded as [[[ms ss] ps]|]; [|now apply Hdone].
    pose proof (once_sendResponse
                  (form_view (request_email body) (request_title body) ms ss ps)
                  st1 Honce) as Hk1.
    pose proof (events_sendResponse [] good
                  (form_view (request_email body) (request_title body) ms ss ps)
                  eq_refl st1 Hev) as Hk2.
    destruct (once_sendResponse_total
                (form_view (request_email body) (request_title body) ms ss ps)
                st1 Honce) as [[] Hr].
    destruct (sendResponse _ st1) as [[[]|e] st2]; cbn [fst snd] in *;
      [|discriminate].
    now apply Hdone.
  - cbv beta iota zeta delta [console_error record raise]. cbn [snd].
    unfold res_json.
    set (st1' := with_trace st1 (trace st1 ++ [LogError "Error fetching Freshdesk data:" e])).
    assert (Hhs : headersSent st1' = headersSent st1).
    { unfold headersSent. subst st1'. cbn [trace with_trace].
      rewrite existsb_app. simpl. now rewrite orb_false_r. }
    assert (Hem : emissions (with_trace st1' (trace st1' ++ [Emit 500 load_error_view]))
                  = S (emissions st1)).
    { rewrite emissions_record. subst st1'. rewrite emissions_record. simpl. lia. }
    rewrite Hhs.
    destruct Honce as [(Hs & Ht & He)|(Hs & Ht & He)].
    + rewrite (not_sent_yet _ He). cbv beta iota zeta.
      set (st2 := with_trace st1' _) in *.
      unfold settle. replace (timer st2) with Armed by (symmetry; exact Ht).
      split.
      * rewrite (onTimeout_emits w body (with_timer st2 Fired) Hs).
        change (emissions (with_timer st2 Fired)) with (emissions st2).
        rewrite Hem, He. reflexivity.
      * destruct (Htimer (trace st2) (with_timer st2 Fired)
                    (events_since_here good (with_timer st2 Fired)))
          as (l & -> & _).
        apply in_or_app. left. subst st2. cbn [trace with_trace].
        apply in_or_app. right. now left.
    + rewrite (sent_already st1) by lia. cbv beta iota zeta.
      set (st2 := with_trace st1' _) in *.
      unfold settle. cbn [timer with_trace].
      replace (timer st2) with (timer st1) by reflexivity.
      destruct (timer st1) eqn:Htimer1; [now elim Ht| |].
      all: split;
        [ rewrite emissions_record, Hem, He; reflexivity
        | cbn [trace with_trace]; apply in_or_app; left;
          subst st2; cbn [trace with_trace]; apply in_or_app; right; now left ].
Qed.



Lemma await_outcome {A : Type} (c : ExternalCall) (t : Timed A) (st : State) :
  fst (await w body c t st)
  = match reply t with inl e => Raise e | inr a => Done a end.
Proof.
  unfold await, bind, record, tick. cbn [timer with_clock with_trace].
  destruct (timer st); try (destruct (_ <=? _)%N); now destruct (reply t).
Qed.

Lemma load_form_data_fails (st : State) :
  (exists e, reply (mailboxes_api w) = inl e) \/
  (exists e, reply (ticket_fields_api w) = inl e) ->
  exists e, fst (load_form_data w body st) = Raise e.
Proof.
  intros Hfail. unfold load_form_data. unfold bind at 1.
  pose proof (await_outcome FetchMailboxes (mailboxes_api w) st) as H1.
  destruct (await w body FetchMailboxes (mailboxes_api w) st) as [[ms|e1] st1];
    [|now exists e1].
  unfold bind at 1.
  pose proof (await_outcome FetchTicketFields (ticket_fields_api w) st1) as H2.
  destruct (await w body FetchTicketFields (ticket_fields_api w) st1) as [[fs|e2] st2];
    [|now exists e2].
  simpl in H1, H2. exfalso.
  destruct Hfail as [[e He]|[e He]]; [rewrite He in H1 | rewrite He in H2];
    discriminate.
Qed.

(** X13. A click on [create_ticket] is answered once when the data of
    the form can be loaded, and twice when it cannot: the view of the
    failure goes out with the status 500 through [res.status(500).json],
    which neither sets [responseSent] nor clears the timer, so that the
    callback of the timer calls [res.json] as well, before that view or
    9 s after the request came in. The view of the failure never goes out
    alone. This is so in particular when the request for the mailboxes or
    the one for the ticket fields fails. *)
Theorem load_failure_answered_twice :
  component_is body "create_ticket" = true ->
  (emissions (submit w body (fresh_request tracker ctx)) = 1 /\
   ~ In (500%N, load_error_view) (emitted (submit w body (fresh_request tracker ctx)))
   \/
   emissions (submit w body (fresh_request tracker ctx)) = 2 /\
   In (500%N, load_error_view) (emitted (submit w body (fresh_request tracker ctx))))
  /\
  ((exists e, reply (mailboxes_api w) = inl e) \/
   (exists e, reply (ticket_fields_api w) = inl e) ->
   emissions (submit w body (fresh_request tracker ctx)) = 2).
Proof.
  intros Hc. pose proof (form_request_runs Hc) as Hrun. cbv zeta in Hrun.
  split.
  - rewrite emitted_in.
    destruct (fst (load_form_data w body _)); [now left | now right].
  - intros Hfail.
    destruct (load_form_data_fails
                (with_context (fresh_request tracker ctx)
                   (Some (mkContext (request_email body) (request_title body)
                                    (request_description body)))) Hfail)
      as [e He].
    rewrite He in Hrun. apply Hrun.
Qed.

(** ** The lookup routes and the form *)

Lemma fetch_choices_outcome (name : string) (fields : list Field) (st : State) :
  fst (fetch_choices w body name fields st)
  = match List.find (fun f => String.eqb (field_name f) name) fields with
    | Some f =>
        match reply (field_choices_api w (field_id f)) with
        | inl e => Raise e
        | inr choices => Done choices
        end
    | None => Done []
    end.
Proof.
  unfold fetch_choices. destruct (List.find _ fields); [|reflexivity].
  apply await_outcome.
Qed.

(** What the requests of the form give, leaving time aside. *)
Lemma load_form_data_outcome (st : State) (mailboxes : list Mailbox)
    (statusChoices priorityChoices : list Choice) :
  fst (load_form_data w body st)
  = Done (Some (mailboxes, statusChoices, priorityChoices)) ->
  exists fields,
    reply (mailboxes_api w) = inr mailboxes /\
    reply (ticket_fields_api w) = inr fields /\
    match List.find (fun f => String.eqb (field_name f) "status") fields with
    | Some f => reply (field_choices_api w (field_id f)) = inr statusChoices
    | None => statusChoices = []
    end /\
    match List.find (fun f => String.eqb (field_name f) "priority") fields with
    | Some f => reply (field_choices_api w (field_id f)) = inr priorityChoices
    | None => priorityChoices = []
    end.
Proof.
  unfold load_form_data. unfold bind at 1.
  pose proof (await_outcome FetchMailboxes (mailboxes_api w) st) as H1.
  destruct (await w body FetchMailboxes (mailboxes_api w) st) as [[ms|e1] st1];
    [|discriminate].
  unfold bind at 1.
  pose proof (await_outcome FetchTicketFields (ticket_fields_api w) st1) as H2.
  destruct (await w body FetchTicketFields (ticket_fields_api w) st1)
    as [[fields|e2] st2]; [|discriminate].
  unfold bind at 1.
  pose proof (fetch_choices_outcome "status" fields st2) as H3.
  destruct (fetch_choices w body "status" fields st2) as [[ss|e3] st3];
    [|discriminate].
  unfold bind at 1.
  pose proof (fetch_choices_outcome "priority" fields st3) as H4.
  destruct (fetch_choices w body "priority" fields st3) as [[ps|e4] st4];
    [|discriminate].
  cbn [fst snd ret] in *. intros [= <- <- <-].
  exists fields.
  destruct (reply (mailboxes_api w)); [discriminate|].
  destruct (reply (ticket_fields_api w)); [discriminate|].
  injection H1 as <-. injection H2 as <-.
  split; [reflexivity|]. split; [reflexivity|]. split.
  - destruct (List.find _ fields) as [f|]; [|congruence].
    destruct (reply (field_choices_api w (field_id f))); congruence.
  - destruct (List.find (fun f => String.eqb (field_name f) "priority") fields)
      as [f|]; [|congruence].
    destruct (reply (field_choices_api w (field_id f))); congruence.
Qed.

(** X22. The lookup routes of the React client and the form of the
    canvas read Freshdesk alike. When the data of the form has loaded with
    the statuses [statusChoices] and the priorities [priorityChoices], and
    Freshdesk has fields called [status] and [priority], then
    [GET /api/freshdesk/statuses] answers 200 with the [id] and [label] of
    these statuses in the same order, [GET /api/freshdesk/priorities]
    answers 200 with these priorities, and the options of the two
    drop-downs of the form carry the same numbers and labels. Without
    such a field the form has no choice to offer (and so no drop-down),
    where the route answers with the error 500. *)
Theorem lookup_routes_agree_with_form (st : State) (mailboxes : list Mailbox)
    (statusChoices priorityChoices : list Choice) :
  fst (load_form_data w body st)
  = Done (Some (mailboxes, statusChoices, priorityChoices)) ->
  (Lookup.statuses w
   = (200%N, Lookup.StatusList
               (map (fun c => (choice_id c, choice_label c)) statusChoices)) /\
   map (fun o => (option_value o, option_text o)) (map status_option statusChoices)
   = map (fun c => (Js.showN (choice_id c), choice_label c)) statusChoices
   \/
   statusChoices = [] /\
   Lookup.statuses w = (500%N, Lookup.Failure "Failed to fetch statuses from Freshdesk"))
  /\
  (Lookup.priorities w = (200%N, Lookup.PriorityList priorityChoices) /\
   map (fun o => (option_value o, option_text o)) (map priority_option priorityChoices)
   = map (fun c => (Js.showN (choice_value c), choice_label c)) priorityChoices
   \/
   priorityChoices = [] /\
   Lookup.priorities w
   = (500%N, Lookup.Failure "Failed to fetch priorities from Freshdesk")).
Proof.
  intros Hload.
  destruct (load_form_data_outcome st _ _ _ Hload) as (fields & _ & Hf & Hs & Hp).
  unfold Lookup.statuses, Lookup.priorities, Lookup.choices_of. rewrite Hf.
  split.
  - destruct (List.find _ fields) as [f|].
    + left. rewrite Hs. split; [reflexivity|]. now rewrite map_map.
    + right. now split.
  - destruct (List.find (fun f => String.eqb (field_name f) "priority") fields)
      as [f|].
    + left. rewrite Hp. split; [reflexivity|]. now rewrite map_map.
    + right. now split.
Qed.

End Request.

End RequestFacts.

(* ===================================================================== *)
(** * The lookups of a request *)
(* ===================================================================== *)

Module LookupFacts.
Import Server ServerFacts ContextFacts Invariants HandlerEvents StateInvariants.

Section Lookups.
Variable w : World.
Variable body : Body.
Variable prefix : list Event.

(** The context is the one of the request and every lookup so far is
    one of its own. *)
Lemma own_both {A : Type} (m : M A) :
  keeps_context m ->
  preserves (events_since prefix (own_lookup body)) m ->
  preserves (fun st => own_context body st /\
                       events_since prefix (own_lookup body) st) m.
Proof.
  intros Hk He st [Hc Hev]. split; [|now apply He].
  unfold own_context in *. now rewrite Hk.
Qed.

Ltac own_prim :=
  apply own_both;
  [ first [ apply keeps_record | apply keeps_console_error | apply keeps_tracker_set
          | apply keeps_res_json | apply keeps_sendResponse | apply keeps_call ]
  | first [ apply events_record; exact I
          | apply events_console_error; exact I
          | apply events_tracker_set; exact I
          | apply events_res_json; exact I
          | apply events_sendResponse; exact I
          | apply events_call; first [exact I | now left | now right] ] ].

(** The email that the callback of the timer and the [cancel] branch
    read is the one of the request. *)
Lemma own_reader (st : State) (email : string) :
  own_context body st ->
  truthy_value
    (Js.or_else (contact_email body)
       (Js.or_else (customer_email body) (customerEmail <$> intercomContext st)))
  = Some email ->
  email = request_email body.
Proof.
  unfold own_context. intros -> H.
  change (customerEmail <$> Some _) with (Some (request_email body)) in H.
  rewrite timer_identity in H. simpl in H.
  destruct (Js.truthy (request_email body)); congruence.
Qed.

Lemma own_onTimeout :
  preserves (fun st => own_context body st /\
                       events_since prefix (own_lookup body) st)
            (onTimeout w body).
Proof.
  intros st [Hc Hev]. unfold onTimeout. destruct (responseSent st); [now split|].
  pose proof (own_reader st) as Hread. specialize (fun e => Hread e Hc).
  destruct (truthy_value _) as [email|];
    [specialize (Hread email eq_refl); subst email|clear Hread].
  all: match goal with
       | |- _ (snd (?m ?s)) /\ _ =>
           assert (Hm : preserves (fun st => own_context body st /\
                                             events_since prefix (own_lookup body) st) m)
             by (repeat invariant_step own_prim);
           apply (Hm s); now split
       end.
Qed.

Lemma own_tick (ms : N) :
  preserves (fun st => own_context body st /\
                       events_since prefix (own_lookup body) st)
            (tick w body ms).
Proof.
  intros st H. unfold tick. cbn [timer with_clock].
  destruct (timer st); try exact H.
  destruct (_ <=? _)%N; [|exact H].
  cbn [snd]. apply own_onTimeout. exact H.
Qed.

Lemma own_await {A : Type} (c : ExternalCall) (t : Timed A) :
  own_lookup body (Call c) ->
  preserves (fun st => own_context body st /\
                       events_since prefix (own_lookup body) st)
            (await w body c t).
Proof.
  intros Hc. unfold await.
  apply preserves_bind;
    [apply own_both; [apply keeps_record | now apply events_record]|].
  intros _. apply preserves_bind; [apply own_tick|]. intros _.
  destruct (reply t); [apply preserves_raise | apply preserves_ret].
Qed.

Ltac own_step :=
  invariant_step
    ltac:(first [ apply own_await; first [exact I | now left | now right]
                | own_prim ]).

Lemma own_cancel :
  preserves (fun st => own_context body st /\
                       events_since prefix (own_lookup body) st)
            (cancel w body).
Proof.
  unfold cancel. apply preserves_try_catch; [|repeat own_step].
  intros st [Hc Hev]. cbv beta.
  pose proof (own_reader st) as Hread. specialize (fun e => Hread e Hc).
  destruct (truthy_value _) as [email|];
    [specialize (Hread email eq_refl); subst email|clear Hread].
  all: match goal with
       | |- _ (snd (?m ?s)) /\ _ =>
           assert (Hm : preserves (fun st => own_context body st /\
                                             events_since prefix (own_lookup body) st) m)
             by (repeat own_step);
           apply (Hm s); now split
       end.
Qed.

Lemma own_branches :
  preserves (fun st => own_context body st /\
                       events_since prefix (own_lookup body) st)
            (if component_is body "create_ticket"
             then bind (show_form w body (request_email body) (request_title body))
                       (fun _ => ret None)
             else if component_is body "submit_ticket_button"
             then submit_ticket w body (request_title body) (request_description body)
             else if component_is body "cancel"
             then bind (cancel w body) (fun _ => ret None)
             else if component_is body "refresh_status"
                     || component_is body "retry_button"
             then bind (res_json 200 plain_home_view) (fun _ => ret None)
             else bind (res_json 200 plain_home_view) (fun _ => ret None)).
Proof.
  unfold show_form, submit_ticket, refetch_form_data, fetch_choices.
  cbv beta zeta.
  repeat first
    [ apply own_cancel
    | own_step
    | match goal with
      | |- preserves _ (let '(_, _) := ?x in _) => destruct x as [[? ?] ?]
      end ].
Qed.

Lemma own_background (task : Background) :
  preserves (fun st => own_context body st /\
                       events_since prefix (own_lookup body) st)
            (background w task).
Proof. unfold background, postIntercomNote. cbv beta zeta. repeat own_step. Qed.

End Lookups.

(** X21. As long as no other request is served in between, a request to
    [/api/submit] never asks Freshdesk for the tickets of an email other
    than its own: every lookup of recent tickets that it makes, in the
    handler or in the callback of the timer, is for the email of its
    contact or customer or for the email typed into its form. The email
    that an earlier request has left in the context of the process is
    never used, because the handler overwrites the context before it is
    read. *)
Theorem lookups_are_own (w : World) (body : Body)
    (tracker : gmap string TicketInfo) (ctx : option IntercomContext) :
  Forall (own_lookup body) (trace (submit w body (fresh_request tracker ctx))).
Proof.
  set (inv := fun st => own_context body st /\
                      events_since [] (own_lookup body) st).
  set (stc := with_context (fresh_request tracker ctx)
                (Some (mkContext (request_email body) (request_title body)
                                 (request_description body)))).
  assert (H0 : inv stc).
  { split; [reflexivity|]. exists []. split; [reflexivity | constructor]. }
  assert (Hh : inv (snd (handler w body (fresh_request tracker ctx)))).
  { pose proof (own_branches w body [] stc H0) as Hb.
    unfold handler, handler_body. cbv beta zeta.
    unfold try_catch at 1, bind at 1. fold stc.
    match goal with
    | |- inv (snd (let (o, st') := ?m stc in _)) =>
        change (inv (snd (m stc))) in Hb; destruct (m stc) as [[r|e] st1]
    end; cbn [snd] in *; [exact Hb|].
    destruct Hb as [Hc Hev]. split; [exact Hc|].
    unfold bind, console_error, record, raise. cbn [snd].
    eapply events_append; [reflexivity | exact I | exact Hev]. }
  assert (Hfinal : inv (submit w body (fresh_request tracker ctx))).
  { unfold submit.
    destruct (handler w body (fresh_request tracker ctx)) as [[[task|]|e] st1];
      cbn [snd] in Hh.
    - pose proof (own_background w body [] task st1 Hh) as Hb.
      unfold settle. destruct (timer _); try exact Hb. now apply own_onTimeout.
    - unfold settle. destruct (timer _); try exact Hh. now apply own_onTimeout.
    - unfold settle. destruct (timer _); try exact Hh. now apply own_onTimeout. }
  destruct Hfinal as [_ (l & -> & Hl)]. exact Hl.
Qed.

End LookupFacts.

(* ===================================================================== *)
(** * More about the detached task *)
(* ===================================================================== *)

Module TaskFacts.
Import Server BackgroundFacts.

(** X14. The detached task is contained: whatever the outside world
    does, it throws nothing, never writes to [res], and leaves the context
    of the process, the flag [responseSent], the timer and the clock of
    the request as they are. It calls [createFreshdeskTicket] at most once
    and posts at most one note. When the email of the task is not empty it
    writes the tracker exactly once, under that email and with a terminal
    value; when the email is empty it does not write the tracker at all. *)
Theorem background_contained (w : World) (task : Background) (st : State) :
  exists events,
    background w task st
    = (Done tt,
       mkState (ticketTracker (snd (background w task st)))
               (intercomContext st) (responseSent st) (timer st) (clock st)
               (trace st ++ events)) /\
    List.filter is_emit events = [] /\
    length (creations_of events) <= 1 /\
    length (notes_of events) <= 1 /\
    (Js.truthy (bg_email task) = false ->
     ticketTracker (snd (background w task st)) = ticketTracker st /\
     tracker_writes events = []) /\
    (Js.truthy (bg_email task) = true ->
     exists info,
       terminal info /\
       ticketTracker (snd (background w task st))
       = <[bg_email task := info]> (ticketTracker st) /\
       tracker_writes events = [(bg_email task, info)]).
Proof.
  unfold_effects.
  destruct (Js.truthy (bg_email task)) eqn:Hemail;
    destruct (truthy_value (bg_conversationId task)) as [cid|];
    cbv beta iota zeta.
  all: split_replies.
  all: eexists.
  all: (split; [rewrite <- ?app_assoc; reflexivity|]).
  all: (split; [reflexivity|]).
  all: (split; [simpl; lia|]).
  all: (split; [simpl; lia|]).
  all: split; [intros Hf; first [discriminate | split; reflexivity]|].
  all: intros Ht; first [discriminate | idtac].
  all: refine (ex_intro _ _ (conj _ (conj eq_refl eq_refl))).
  all: first [left; eexists; reflexivity | right; eexists; reflexivity].
Qed.

(** X15. Without a conversation identifier the detached task contacts
    Freshdesk only, and once: it hands to [createFreshdeskTicket] the
    ticket data built from the values of the form, with the description as
    submitted and the source 2, then writes the tracker; neither the
    transcript helpers nor the notes of Intercom are called. *)
Theorem background_without_conversation (w : World) (task : Background)
    (st : State) :
  truthy_value (bg_conversationId task) = None ->
  Js.truthy (bg_email task) = true ->
  trace (snd (background w task st))
  = trace st
      ++ Call (CreateFreshdeskTicket (task_ticket_data task (bg_description task)))
      :: match createFreshdeskTicket w (task_ticket_data task (bg_description task)) with
         | inr ticketResponse =>
             [TrackerSet (bg_email task) (completed (response_id ticketResponse))]
         | inl error =>
             [LogError "Background processing: Error creating ticket:" error;
              TrackerSet (bg_email task) (failed (error_text error))]
         end /\
  td_description (task_ticket_data task (bg_description task)) = bg_description task /\
  td_source (task_ticket_data task (bg_description task)) = 2%N /\
  td_intercom_conversation_id (task_ticket_data task (bg_description task)) = None.
Proof.
  intros Hcid Hemail. split; [|now repeat split].
  unfold_effects. rewrite Hcid, Hemail. cbv beta iota zeta.
  destruct (createFreshdeskTicket w _); read_state;
    rewrite <- ?app_assoc; reflexivity.
Qed.

End TaskFacts.

(* ===================================================================== *)
(** * More about the other routes *)
(* ===================================================================== *)

Module RouteFacts.
Import Js Server JsFacts BannerFacts BackgroundFacts HandlerEvents.

(** ** [POST /api/initialize] *)

(** After the canvas has been opened there is no entry in progress under
    the email of the request. *)
Lemma initialize_leaves_finished (body : Body) (st : State) (info : TicketInfo) :
  ticketTracker (snd (initialize body st)) !! initialize_email body = Some info ->
  truthy (initialize_email body) = true ->
  inProgress info = false.
Proof.
  unfold initialize, bind. cbv beta zeta.
  destruct (ticketTracker st !! initialize_email body) as [info0|] eqn:Hlook;
    [destruct (truthy (initialize_email body) && inProgress info0) eqn:Hguard|];
    cbn [tracker_delete fst snd ticketTracker with_context with_trace with_tracker].
  - now rewrite lookup_delete_eq.
  - rewrite Hlook. intros [= <-] Ht. now rewrite Ht in Hguard.
  - now rewrite Hlook.
Qed.

(** X16. Opening the canvas forgets the submission in progress of its
    customer and nothing else: the entry of the tracker under the email of
    the request is removed when that email is not empty and the entry is
    in progress; a finished entry (a created ticket or a failure) stays,
    and so does every entry under another email. Afterwards there is no
    entry in progress under the email of the request, unless the email is
    empty. This part of the handler does not throw. *)
Theorem initialize_clears_in_progress (body : Body) (st : State) :
  fst (initialize body st) = Done tt /\
  (forall other,
      other <> initialize_email body ->
      ticketTracker (snd (initialize body st)) !! other = ticketTracker st !! other) /\
  ticketTracker (snd (initialize body st)) !! initialize_email body
  = match ticketTracker st !! initialize_email body with
    | Some info =>
        if truthy (initialize_email body) && inProgress info then None else Some info
    | None => None
    end /\
  (forall info,
      ticketTracker (snd (initialize body st)) !! initialize_email body = Some info ->
      truthy (initialize_email body) = true ->
      inProgress info = false).
Proof.
  split; [|split; [|split; [|apply initialize_leaves_finished]]].
  all: unfold initialize, bind; cbv beta zeta.
  all: destruct (ticketTracker st !! initialize_email body) as [info|] eqn:Hlook;
    [destruct (truthy (initialize_email body) && inProgress info) eqn:Hguard|];
    cbn [tracker_delete fst snd ticketTracker with_context with_trace with_tracker];
    try reflexivity; try exact Hlook.
  - intros other Hne. now apply lookup_delete_ne.
  - apply lookup_delete_eq.
Qed.

Lemma initialize_written (body : Body) :
  exists c, forall st,
    intercomContext (snd (initialize body st)) = Some c /\
    ((forall info,
         ticketTracker st !! initialize_email body = Some info ->
         truthy (initialize_email body) = true ->
         inProgress info = false) ->
     snd (initialize body st) = with_context st (Some c)).
Proof.
  eexists. intros st. unfold initialize, bind. cbv beta zeta.
  destruct (ticketTracker st !! initialize_email body) as [info|] eqn:Hlook;
    [destruct (truthy (initialize_email body)) eqn:Ht;
     [destruct (inProgress info) eqn:Hp|]|];
    cbn [andb tracker_delete snd intercomContext with_context with_trace
         with_tracker];
    (split; [reflexivity|]); intros Hquiet; try reflexivity.
  specialize (Hquiet info eq_refl eq_refl). congruence.
Qed.

(** X17. Opening the canvas a second time with the same request changes
    nothing: the second run removes no entry, and the tracker and the
    context of the process are those that the first run has left. *)
Theorem initialize_idempotent (body : Body) (st : State) :
  trace (snd (initialize body (next_request (snd (initialize body st))))) = [] /\
  ticketTracker (snd (initialize body (next_request (snd (initialize body st)))))
  = ticketTracker (snd (initialize body st)) /\
  intercomContext (snd (initialize body (next_request (snd (initialize body st)))))
  = intercomContext (snd (initialize body st)).
Proof.
  pose proof (initialize_leaves_finished body st) as Hdone.
  destruct (initialize_written body) as [c Hc].
  destruct (Hc st) as [Hctx _].
  destruct (Hc (next_request (snd (initialize body st)))) as [_ Hsecond].
  rewrite Hsecond by exact Hdone.
  rewrite Hctx. now repeat split.
Qed.

(** ** [POST /api/freshdesk/create-ticket] *)

Lemma trimEnd_white (s t : string) :
  trimEnd t = "" -> trimEnd (s +:+ t) = trimEnd s.
Proof.
  intros Ht. induction s as [|c s IH]; [exact Ht|].
  rewrite append_cons. cbn [trimEnd]. now rewrite IH.
Qed.

(** The banner carries the URL of the conversation, whichever branch of
    the merge is taken. *)
Lemma merge_includes_url (url d : string) :
  no_dollar url = true -> trimEnd url = url -> truthy url = true ->
  includes (Banner.merge url d) (Banner.urlLine url) = true.
Proof.
  intros Hu Ht Hne. destruct (includes d Banner.anchor) eqn:Hi.
  - destruct (includes_split _ _ Hi) as (before & after & Hs).
    rewrite (merge_replace _ _ _ _ Hu Hs), trim_urlSection.
    assert (Hend : trimEnd (Banner.nl +:+ Banner.nl +:+ Banner.urlLine url
                               +:+ Banner.nl +:+ Banner.nl)
                   = (Banner.nl +:+ Banner.nl) +:+ Banner.urlLine url).
    { unfold Banner.urlLine.
      change (Banner.nl +:+ Banner.nl +:+ ("Intercom Conversation URL: " +:+ url)
                +:+ Banner.nl +:+ Banner.nl)
        with ((Banner.nl +:+ Banner.nl +:+ "Intercom Conversation URL: ")
                +:+ (url +:+ Banner.nl +:+ Banner.nl)).
      assert (Hw : trimEnd (url +:+ Banner.nl +:+ Banner.nl) = url)
        by (rewrite trimEnd_white; [exact Ht | reflexivity]).
      rewrite trimEnd_append; rewrite Hw; [reflexivity|].
      now destruct url. }
    rewrite Hend.
    replace (before +:+ (Banner.anchor +:+ (Banner.nl +:+ Banner.nl)
                           +:+ Banner.urlLine url) +:+ after)
      with ((before +:+ Banner.anchor +:+ Banner.nl +:+ Banner.nl)
              +:+ Banner.urlLine url +:+ after)
      by (now rewrite !append_assoc).
    apply includes_append.
  - rewrite (merge_prepend _ _ Hi). unfold Banner.urlSection.
    replace ((Banner.anchor +:+ Banner.nl +:+ Banner.nl +:+ Banner.urlLine url
                +:+ Banner.nl +:+ Banner.nl) +:+ d)
      with ((Banner.anchor +:+ Banner.nl +:+ Banner.nl)
              +:+ Banner.urlLine url +:+ (Banner.nl +:+ Banner.nl +:+ d))
      by (now rewrite !append_assoc).
    apply includes_append.
Qed.

Ltac unfold_route :=
  cbv beta iota zeta delta
      [create_ticket bind try_catch call record ret raise console_error].

(** X18. A request to [/api/freshdesk/create-ticket] is answered exactly
    once and its handler does not throw; the tracker and the context of
    the process are not touched. When [email], [subject], [description] or
    [product_id] is missing or empty, the answer is the error 400 and
    nothing outside is called. Otherwise [createFreshdeskTicket] is called
    exactly once, also after a failure of the transcript helper, and the
    answer is the ticket it gives, or the error 500 with
    [error.response?.data || error.message] as details. *)
Theorem create_ticket_outcome (w : World) (req : CreateTicketBody)
    (tracker : gmap string TicketInfo) (ctx : option IntercomContext) :
  fst (create_ticket w req (fresh_request tracker ctx)) = Done tt /\
  ticketTracker (snd (create_ticket w req (fresh_request tracker ctx))) = tracker /\
  intercomContext (snd (create_ticket w req (fresh_request tracker ctx))) = ctx /\
  (((truthy_value (ct_email req) = None \/ truthy_value (ct_subject req) = None \/
     truthy_value (ct_description req) = None \/
     truthy_value (ct_product_id req) = None) /\
    trace (snd (create_ticket w req (fresh_request tracker ctx)))
    = [Emit 400 (ErrorBody "Missing required fields" None)])
   \/
   (truthyO (ct_email req) && truthyO (ct_subject req)
    && truthyO (ct_description req) && truthyO (ct_product_id req) = true /\
    exists ticketData,
      creations_of (trace (snd (create_ticket w req (fresh_request tracker ctx))))
      = [ticketData] /\
      emitted (snd (create_ticket w req (fresh_request tracker ctx)))
      = [match createFreshdeskTicket w ticketData with
         | inr ticket => (200%N, CreatedBody ticket)
         | inl error =>
             (500%N, ErrorBody "Failed to create ticket"
                               (Some (or_str (response_data error) (message error))))
         end])).
Proof.
  unfold_route.
  destruct (ct_email req) as [[|c1 email]|]; cbn [truthy_value truthy truthyO andb];
    try (repeat split; left; split; [tauto | reflexivity]).
  destruct (ct_subject req) as [[|c2 subject]|]; cbn [truthy_value truthy truthyO andb];
    try (repeat split; left; split; [tauto | reflexivity]).
  destruct (ct_description req) as [[|c3 description]|];
    cbn [truthy_value truthy truthyO andb];
    try (repeat split; left; split; [tauto | reflexivity]).
  destruct (ct_product_id req) as [[|c4 product_id]|];
    cbn [truthy_value truthy truthyO andb];
    try (repeat split; left; split; [tauto | reflexivity]).
  destruct (truthy_value (or_else (ct_conversation_id req)
                                  (ct_conversation req ≫= conversation_ref_id)))
    as [cid|]; cbv beta iota zeta.
  all: repeat match goal with
              | |- context [match ?x with inl _ => _ | inr _ => _ end] =>
                  lazymatch x with
                  | createFreshdeskTicket _ _ => fail
                  | _ => destruct x eqn:?
                  end
              end; cbv beta iota zeta.
  all: unfold res_json, headersSent; read_state.
  all: match goal with
       | |- context [createFreshdeskTicket ?w0 ?t] =>
           destruct (createFreshdeskTicket w0 t) eqn:Hcreate
       end; cbv beta iota zeta; read_state.
  all: split; [reflexivity|]; split; [reflexivity|]; split; [reflexivity|].
  all: right; split; [reflexivity|]; eexists; split; [reflexivity|].
  all: rewrite Hcreate; reflexivity.
Qed.

Lemma truthyO_value (v : option string) :
  truthyO v = true -> exists s, truthy_value v = Some s.
Proof.
  destruct v as [s|]; simpl; [|discriminate]. intros ->. now exists s.
Qed.

(** X19. A ticket that [/api/freshdesk/create-ticket] creates for a
    conversation carries the URL of that conversation: as long as neither
    the URL of the inbox nor the identifier holds a [$] and the identifier
    does not end in white space, the description handed to
    [createFreshdeskTicket] includes the line
    [Intercom Conversation URL: <inbox>/conversation/<id>] and the phrase
    [Chat Transcript Added], whether the transcript helper has worked or
    failed. *)
Theorem created_ticket_links_conversation (w : World) (req : CreateTicketBody)
    (tracker : gmap string TicketInfo) (ctx : option IntercomContext)
    (cid : string) :
  truthyO (ct_email req) && truthyO (ct_subject req)
  && truthyO (ct_description req) && truthyO (ct_product_id req) = true ->
  truthy_value (or_else (ct_conversation_id req)
                        (ct_conversation req ≫= conversation_ref_id)) = Some cid ->
  no_dollar (INTERCOM_INBOX_URL w) = true ->
  no_dollar cid = true ->
  trimEnd cid = cid ->
  exists ticketData,
    creations_of (trace (snd (create_ticket w req (fresh_request tracker ctx))))
    = [ticketData] /\
    includes (td_description ticketData)
             (Banner.urlLine (Banner.intercomUrl (INTERCOM_INBOX_URL w) cid)) = true /\
    includes (td_description ticketData) Banner.anchor = true.
Proof.
  intros Hfields Hcid Hinbox Hdollar Htrim.
  apply andb_prop in Hfields as [Hfields Hp].
  apply andb_prop in Hfields as [Hfields Hd].
  apply andb_prop in Hfields as [He Hs].
  destruct (truthyO_value _ He) as [email Hemail].
  destruct (truthyO_value _ Hs) as [subject Hsubject].
  destruct (truthyO_value _ Hd) as [description Hdescription].
  destruct (truthyO_value _ Hp) as [product_id Hproduct].
  set (url := Banner.intercomUrl (INTERCOM_INBOX_URL w) cid).
  assert (Hcid_ne : cid <> "").
  { pose proof (truthy_value_some _ _ Hcid). now destruct cid. }
  assert (Hu : no_dollar url = true).
  { unfold url, Banner.intercomUrl, no_dollar in *.
    now rewrite !lacks_append, Hinbox, Hdollar. }
  assert (Ht : trimEnd url = url).
  { unfold url, Banner.intercomUrl.
    rewrite <- append_assoc.
    rewrite trimEnd_append; rewrite Htrim; [reflexivity | exact Hcid_ne]. }
  assert (Hne : truthy url = true).
  { unfold url, Banner.intercomUrl. destruct (INTERCOM_INBOX_URL w); reflexivity. }
  unfold_route. rewrite Hemail, Hsubject, Hdescription, Hproduct, Hcid.
  cbv beta iota zeta.
  destruct (addConversationTranscriptToTicket w _ cid) as [e|ticketData];
    cbv beta iota zeta; read_state;
    match goal with
    | |- context [createFreshdeskTicket ?w0 ?t] =>
        destruct (createFreshdeskTicket w0 t)
    end; cbv beta iota zeta; unfold res_json, headersSent; read_state;
    (eexists; split; [reflexivity|]);
    cbn [with_description with_conversation_id td_description];
    fold url; (split; [now apply merge_includes_url | now apply merge_includes]).
Qed.

End RouteFacts.

(* ===================================================================== *)
(** * Instances *)
(* ===================================================================== *)

Module Examples.
Import Server Scenario.
Import RetryFacts BannerFacts BackgroundFacts ServerFacts EndpointFacts.

Lemma fallback_emits_twice_witness :
  emissions (after_handler world unknown_button (fresh_request ∅ None)) = 1 /\
  responseSent (after_handler world unknown_button (fresh_request ∅ None)) = false /\
  emissions (submit world unknown_button (fresh_request ∅ None)) = 2.
Proof.
  apply (fallback_emits_twice world unknown_button ∅ None); reflexivity.
Defined.

Lemma validation_counterexample :
  (Js.includes "not-an-email" "@" = false /\
   emitted (submit world malformed_email started)
   = [(200%N, home_view world "Create a Freshdesk Ticket" [])] /\
   ticketTracker (submit world malformed_email started) !! "not-an-email"
   = Some (completed 42)) /\
  (is_empty (iv_email (form_values empty_email)) = true /\
   emitted (submit slow_world empty_email started)
   = [(200%N, home_view slow_world "Create a Freshdesk Ticket" [alice_ticket])] /\
   ticketTracker (submit slow_world empty_email started) !! alice
   = Some in_progress).
Proof. vm_compute. repeat split. Qed.

Lemma empty_field_rejected_witness :
  ticketTracker (submit world empty_email (fresh_request ∅ None)) = ∅ /\
  exists view,
    emitted (submit world empty_email (fresh_request ∅ None)) = [(200%N, view)] /\
    (exists mailboxes statusChoices priorityChoices,
        view = error_form_view (form_values empty_email) (request_title empty_email)
                 (is_empty (iv_email (form_values empty_email)))
                 (is_empty (iv_subject (form_values empty_email)))
                 mailboxes statusChoices priorityChoices) /\
    field_error "email" view
    = (if is_empty (iv_email (form_values empty_email))
       then Some "Email is required" else None) /\
    field_error "subject" view
    = (if is_empty (iv_subject (form_values empty_email))
       then Some "Subject is required" else None) /\
    view_validation_errors view
    = Some (if is_empty (iv_email (form_values empty_email))
            then Some "Email is required" else None,
            if is_empty (iv_subject (form_values empty_email))
            then Some "Subject is required" else None).
Proof.
  apply (empty_field_rejected world empty_email ∅ None);
    [reflexivity | reflexivity | vm_compute; reflexivity].
Defined.

Lemma tracking_counterexample :
  (is_empty (iv_email (form_values no_mailbox)) = false /\
   is_empty (iv_subject (form_values no_mailbox)) = false /\
   emitted (submit world no_mailbox started) = [(200%N, required_fields_view)] /\
   ticketTracker (submit world no_mailbox started) !! alice = None) /\
  (accepted edited_email = true /\
   tracker_writes (trace (submit slow_world edited_email started))
   = [(alice, in_progress); (bob, in_progress); (bob, completed 42)] /\
   ticketTracker (submit slow_world edited_email started) !! alice
   = Some in_progress).
Proof. vm_compute. repeat split. Qed.

Lemma accepted_submission_tracked_witness :
  ticketTracker (after_handler world complete (fresh_request ∅ None))
  = <[submitted_email complete := in_progress]> ∅ /\
  (exists before middle after tickets,
      trace (after_handler world complete (fresh_request ∅ None))
      = before ++ [TrackerSet (submitted_email complete) in_progress]
          ++ middle
          ++ [Emit 200 (home_view world "Create a Freshdesk Ticket" tickets)]
          ++ after /\
      forallb quiet_event before = true /\
      forallb quiet_event middle = true /\
      List.filter is_emit after = []) /\
  exists info events,
    trace (submit world complete (fresh_request ∅ None))
    = trace (after_handler world complete (fresh_request ∅ None)) ++ events /\
    ((exists ticketData ticketResponse,
         creations_of events = [ticketData] /\
         createFreshdeskTicket world ticketData = inr ticketResponse /\
         info = completed (response_id ticketResponse))
     \/
     (exists error,
         In (LogError "Background processing: Error creating ticket:" error) events /\
         ((exists ticketData,
              creations_of events = [ticketData] /\
              createFreshdeskTicket world ticketData = inl error)
          \/
          (exists ticketData cid,
              creations_of events = [] /\
              In (Call (AddConversationTranscriptToTicket ticketData cid)) events /\
              addConversationTranscriptToTicket world ticketData cid = inl error)) /\
         info = failed (error_text error))) /\
    ticketTracker (submit world complete (fresh_request ∅ None))
    = <[submitted_email complete := info]> ∅ /\
    Forall (fun write => fst write = submitted_email complete)
           (tracker_writes (trace (submit world complete (fresh_request ∅ None)))) /\
    last (tracker_writes (trace (submit world complete (fresh_request ∅ None))))
    = Some (submitted_email complete, info) /\
    emissions (submit world complete (fresh_request ∅ None)) = 1.
Proof.
  apply (accepted_submission_tracked world complete ∅ None);
    [reflexivity | reflexivity | left; vm_compute; reflexivity].
Defined.

Lemma merge_counterexample :
  Banner.merge conversation_url (Banner.merge conversation_url "It is broken")
  = Banner.anchor +:+ Banner.nl +:+ Banner.nl
      +:+ Banner.urlLine conversation_url +:+ Banner.nl +:+ Banner.nl
      +:+ Banner.urlLine conversation_url +:+ Banner.nl +:+ Banner.nl
      +:+ "It is broken" /\
  Banner.merge conversation_url (Banner.merge conversation_url "It is broken")
  <> Banner.merge conversation_url "It is broken" /\
  Js.occurrences (Banner.urlLine conversation_url)
    (Banner.merge conversation_url (Banner.merge conversation_url "It is broken"))
  = 2.
Proof. vm_compute. repeat split. discriminate. Qed.

Lemma merge_rule_witness :
  (Js.includes "It is broken" Banner.anchor = false ->
   Banner.merge conversation_url "It is broken"
   = Banner.urlSection conversation_url +:+ "It is broken") /\
  (forall before after,
      Js.split_first Banner.anchor "It is broken" = Some (before, after) ->
      "It is broken" = before +:+ Banner.anchor +:+ after /\
      Banner.merge conversation_url "It is broken"
      = before +:+ Js.trim (Banner.urlSection conversation_url) +:+ after) /\
  Js.includes (Banner.merge conversation_url "It is broken") Banner.anchor = true /\
  (Js.lacks "C" conversation_url = true ->
   Js.occurrences Banner.anchor (Banner.merge conversation_url "It is broken")
   = Nat.max 1 (Js.occurrences Banner.anchor "It is broken")) /\
  String.length (Banner.merge conversation_url "It is broken")
  < String.length
      (Banner.merge conversation_url (Banner.merge conversation_url "It is broken")).
Proof. apply (merge_rule conversation_url "It is broken"). reflexivity. Defined.

Lemma round_up_rounding : Retry.Rounding round_up.
Proof.
  constructor.
  - intros x y Hxy _. unfold round_up, Retry.unit_roundoff. lra.
  - unfold round_up, Retry.unit_roundoff. lra.
  - intros x Hx _. unfold Retry.rounded, round_up, Retry.unit_roundoff.
    assert (0 <= x)%Q.
    { eapply Qle_trans; [|exact Hx]. vm_compute. discriminate. }
    split; lra.
Defined.

Lemma fetchWithRetry_backoff_witness :
  exists run,
    Retry.Rounded.fetchWithRetry (fun _ : nat => @Retry.Rejected unit unit tt)
                                 (fun _ : nat => 1 # 2) round_up 3 500 = Some run /\
    length (Retry.waits run) = Retry.calls run - 1 /\
    (forall k, (Z.of_nat k < 3)%Z ->
               (forall i, i <= k ->
                          exists e, (fun _ : nat => @Retry.Rejected unit unit tt) i
                                    = Retry.Rejected e) ->
               exists d, Retry.waits run !! k = Some d) /\
    (forall d : Q, Retry.waits run !! 0 = Some d -> d = 500%Q) /\
    (forall (n : nat) (d d' : Q),
        Retry.waits run !! n = Some d -> Retry.waits run !! S n = Some d' ->
        d' = round_up (Qmin (round_up (d * 2)) 10000
                       * round_up (round_up (8 # 10)
                                   + round_up ((fun _ : nat => 1 # 2) n
                                               * round_up (4 # 10))))%Q /\
        (Qmin (d * 2) 10000 * (8 # 10) * (1 - Retry.slack) <= d')%Q /\
        (d' <= Qmin (d * 2) 10000 * (12 # 10) * (1 + Retry.slack))%Q).
Proof.
  apply (fetchWithRetry_backoff (fun _ : nat => @Retry.Rejected unit unit tt)
                                (fun _ : nat => 1 # 2) round_up).
  - intros k. split; unfold Qle, Qlt; simpl; lia.
  - exact round_up_rounding.
  - vm_compute. discriminate.
  - vm_compute. discriminate.
Defined.

Lemma backoff_counterexample :
  exists d d' : Q,
    Retry.Double.value (Retry.Double.next_delay 500%float first_draw) = Some d /\
    Retry.Double.value
      (Retry.Double.next_delay (Retry.Double.next_delay 500%float first_draw) second_draw)
    = Some d' /\
    (Qmin (d * 2) Retry.cap * (12 # 10) < d')%Q /\
    ~ Retry.backoff_step d d' /\
    Retry.backoff_step_within Retry.slack d d'.
Proof.
  eexists _, _.
  split; [vm_compute; reflexivity|]. split; [vm_compute; reflexivity|].
  split; [vm_compute; reflexivity|].
  split.
  - intros [_ H]. revert H. vm_compute. intros H. now apply H.
  - split; vm_compute; discriminate.
Qed.

(** The operations of the two steps above, on the doubles of the kernel,
    round as [Retry.Rounding] has it. *)
#[warnings="-inexact-float"]
Lemma double_operations_rounded :
  let d := Retry.Double.next_delay 500%float first_draw in
  Retry.Double.rounds Qmult PrimFloat.mul first_draw 0.4%float /\
  Retry.Double.rounds Qplus PrimFloat.add 0.8%float
                      (PrimFloat.mul first_draw 0.4%float) /\
  Retry.Double.rounds Qmult PrimFloat.mul 1000%float
                      (PrimFloat.add 0.8%float (PrimFloat.mul first_draw 0.4%float)) /\
  Retry.Double.rounds Qmult PrimFloat.mul d 2%float /\
  Retry.Double.rounds Qmult PrimFloat.mul second_draw 0.4%float /\
  Retry.Double.rounds Qplus PrimFloat.add 0.8%float
                      (PrimFloat.mul second_draw 0.4%float) /\
  Retry.Double.rounds Qmult PrimFloat.mul (PrimFloat.mul d 2%float)
                      (PrimFloat.add 0.8%float (PrimFloat.mul second_draw 0.4%float)).
Proof. vm_compute. repeat split; discriminate. Qed.

Lemma transcript_failure_outcome_witness :
  (exists before after,
      trace (snd (background world_without_transcript task_in_conversation started))
      = trace started ++ before
          ++ [ LogError "Error fetching or formatting conversation:"
                        (mkError "Request failed with status code 404" None None);
               Call (AddConversationTranscriptToTicket
                       (mkTicketData alice "Help" "It is broken" 2 (Some 7%Z)
                                     None None None) "77") ]
          ++ after /\
      creations_of before = [] /\
      creations_of after
      = [mkTicketData alice "Help" "It is broken" 2 (Some 7%Z) None None None]) /\
  (exists before after,
      trace (snd (background world_without_intercom task_in_conversation started))
      = trace started ++ before
          ++ [ LogError "Error fetching or formatting conversation:" intercom_down;
               Call (AddConversationTranscriptToTicket
                       (mkTicketData alice "Help" "It is broken" 2 (Some 7%Z)
                                     None None None) "77") ]
          ++ after /\
      creations_of before = [] /\
      creations_of after = [] /\
      In (LogError "Background processing: Error creating ticket:" intercom_down)
         after /\
      notes_of after = [("77", failure_note intercom_down)] /\
      ticketTracker (snd (background world_without_intercom task_in_conversation
                                     started))
      = <[alice := failed (error_text intercom_down)]> ∅).
Proof.
  split.
  - destruct (transcript_failure_outcome world_without_transcript
                task_in_conversation "77" started
                (mkError "Request failed with status code 404" None None)
                eq_refl (or_introl eq_refl))
      as (ticketData & before & after & -> & Htrace & Hbefore & Hafter).
    exists before, after. repeat split; assumption.
  - destruct (transcript_failure_outcome world_without_intercom
                task_in_conversation "77" started intercom_down
                eq_refl (or_introl eq_refl))
      as (ticketData & before & after & -> & Htrace & Hbefore & Hafter).
    exists before, after. split; [exact Htrace|]. split; [exact Hbefore|].
    exact Hafter.
Defined.

Lemma transcript_helper_counterexample :
  accepted complete_in_conversation = true /\
  fetchIntercomConversation world_without_intercom "77" = inl intercom_down /\
  creations_of (trace (submit world_without_intercom complete_in_conversation started))
  = [] /\
  In (LogError "Error fetching or formatting conversation:" intercom_down)
     (trace (submit world_without_intercom complete_in_conversation started)) /\
  In (LogError "Background processing: Error creating ticket:" intercom_down)
     (trace (submit world_without_intercom complete_in_conversation started)) /\
  ticketTracker (submit world_without_intercom complete_in_conversation started)
    !! alice
  = Some (failed "Request failed with status code 503").
Proof. vm_compute. repeat split; tauto. Qed.

Lemma notification_counterexample :
  accepted complete = true /\
  creations_of (trace (submit world complete started))
  = [task_ticket_data (submitted_task complete) "It is broken"] /\
  ticketTracker (submit world complete started) !! alice = Some (completed 42) /\
  notes_of (trace (submit world complete started)) = [].
Proof. vm_compute. repeat split. Qed.

Lemma description_counterexample :
  is_empty (iv_email (form_values no_description)) = false /\
  is_empty (iv_subject (form_values no_description)) = false /\
  Js.truthy (submitted_product_id no_description) = true /\
  iv_description (form_values no_description) = None /\
  emitted (submit world no_description started) = [(200%N, required_fields_view)] /\
  ticketTracker (submit world no_description started) !! alice = None /\
  creations_of (trace (submit world no_description started)) = [].
Proof. vm_compute. repeat split. Qed.

Lemma description_falls_back_witness :
  (submitted_description described_by_conversation = "From chat" /\
   fst (handler slow_world described_by_conversation (fresh_request ∅ None))
   = Done (Some (submitted_task described_by_conversation)) /\
   bg_description (submitted_task described_by_conversation) = "From chat" /\
   exists tickets,
     emitted (after_handler slow_world described_by_conversation
                            (fresh_request ∅ None))
     = [(200%N, home_view slow_world "Create a Freshdesk Ticket" tickets)]) /\
  (submitted_description no_description = "" /\
   emitted (submit world no_description (fresh_request ∅ None))
   = [(200%N, required_fields_view)] /\
   ticketTracker (submit world no_description (fresh_request ∅ None)) = ∅ /\
   creations_of (trace (submit world no_description (fresh_request ∅ None))) = []).
Proof.
  split.
  - destruct (description_falls_back slow_world described_by_conversation ∅ None
                eq_refl eq_refl eq_refl eq_refl) as (Hd & _ & Haccepted).
    destruct (Haccepted eq_refl eq_refl) as (Hh & Hb & Hview).
    repeat split; assumption.
  - destruct (description_falls_back world no_description ∅ None
                eq_refl eq_refl eq_refl eq_refl) as (Hd & Hrejected & _).
    destruct (Hrejected eq_refl) as (He & Ht & Hc).
    repeat split; assumption.
Defined.

End Examples.

(* ===================================================================== *)
(** * More instances *)
(* ===================================================================== *)

Module MoreExamples.
Import Server Scenario.
Import RetryBounds FormFacts RequestFacts TaskFacts RouteFacts.

Lemma fetchWithRetry_default_sleep_witness :
  exists run,
    Retry.fetchWithRetry_default (fun _ : nat => @Retry.Rejected unit unit tt)
                                 (fun _ : nat => 1 # 2) = Some run /\
    (fold_right Qplus 0 (Retry.waits run) <= 4580)%Q /\
    (forall error, Retry.result run = Retry.Threw error ->
                   length (Retry.waits run) = 3 /\
                   (2580 <= fold_right Qplus 0 (Retry.waits run))%Q).
Proof.
  apply (fetchWithRetry_default_sleep (fun _ : nat => @Retry.Rejected unit unit tt)
                                      (fun _ : nat => 1 # 2)).
  intros k. split; unfold Qle, Qlt; simpl; lia.
Defined.

Lemma fetchWithRetry_delays_bounded_witness :
  exists run,
    Retry.fetchWithRetry (fun _ : nat => @Retry.Rejected unit unit tt)
                         (fun _ : nat => 1 # 2) 3 500 = Some run /\
    Forall (fun d : Q => (0 <= d)%Q /\ (d <= 12000)%Q) (Retry.waits run).
Proof.
  apply (fetchWithRetry_delays_bounded (fun _ : nat => @Retry.Rejected unit unit tt)
                                       (fun _ : nat => 1 # 2)).
  - intros k. split; unfold Qle, Qlt; simpl; lia.
  - unfold Qle; simpl; lia.
  - unfold Qle; simpl; lia.
Defined.

Lemma selection_reaches_ticket_witness :
  td_product_id (task_ticket_data (submitted_task selected) "It is broken")
  = Some 7%Z /\
  td_status (task_ticket_data (submitted_task selected) "It is broken")
  = Some (Some 2%Z) /\
  td_priority (task_ticket_data (submitted_task selected) "It is broken")
  = Some (Some 3%Z).
Proof.
  apply (selection_reaches_ticket selected support_mailbox open_status high_priority
                                  "It is broken");
    first [reflexivity | vm_compute; discriminate].
Defined.

Lemma only_submissions_write_tracker_witness :
  ticketTracker (submit slow_world cancel_click (fresh_request ∅ None)) = ∅ /\
  tracker_writes (trace (submit slow_world cancel_click (fresh_request ∅ None))) = [].
Proof.
  apply (only_submissions_write_tracker slow_world cancel_click ∅ None).
  reflexivity.
Defined.

Lemma answered_exactly_once_witness :
  (exists r, fst (handler slow_world cancel_click (fresh_request ∅ None)) = Done r) /\
  emissions (submit slow_world cancel_click (fresh_request ∅ None)) = 1 /\
  exists view,
    emitted (submit slow_world cancel_click (fresh_request ∅ None)) = [(200%N, view)].
Proof.
  apply (answered_exactly_once slow_world cancel_click ∅ None).
  reflexivity.
Defined.

Lemma load_failure_answered_twice_witness :
  (emissions (submit world_without_mailboxes open_form (fresh_request ∅ None)) = 1 /\
   ~ In (500%N, load_error_view)
        (emitted (submit world_without_mailboxes open_form (fresh_request ∅ None)))
   \/
   emissions (submit world_without_mailboxes open_form (fresh_request ∅ None)) = 2 /\
   In (500%N, load_error_view)
      (emitted (submit world_without_mailboxes open_form (fresh_request ∅ None))))
  /\
  ((exists e, reply (mailboxes_api world_without_mailboxes) = inl e) \/
   (exists e, reply (ticket_fields_api world_without_mailboxes) = inl e) ->
   emissions (submit world_without_mailboxes open_form (fresh_request ∅ None)) = 2).
Proof.
  apply (load_failure_answered_twice world_without_mailboxes open_form ∅ None).
  reflexivity.
Defined.

Lemma background_without_conversation_witness :
  trace (snd (background world task_alone started))
  = trace started
      ++ Call (CreateFreshdeskTicket (task_ticket_data task_alone (bg_description task_alone)))
      :: match createFreshdeskTicket world
                 (task_ticket_data task_alone (bg_description task_alone)) with
         | inr ticketResponse =>
             [TrackerSet (bg_email task_alone) (completed (response_id ticketResponse))]
         | inl error =>
             [LogError "Background processing: Error creating ticket:" error;
              TrackerSet (bg_email task_alone) (failed (error_text error))]
         end /\
  td_description (task_ticket_data task_alone (bg_description task_alone))
  = bg_description task_alone /\
  td_source (task_ticket_data task_alone (bg_description task_alone)) = 2%N /\
  td_intercom_conversation_id (task_ticket_data task_alone (bg_description task_alone))
  = None.
Proof.
  apply (background_without_conversation world task_alone started); reflexivity.
Defined.

Lemma created_ticket_links_conversation_witness :
  exists ticketData,
    creations_of (trace (snd (create_ticket world create_request (fresh_request ∅ None))))
    = [ticketData] /\
    Js.includes (td_description ticketData)
                (Banner.urlLine (Banner.intercomUrl (INTERCOM_INBOX_URL world) "77"))
    = true /\
    Js.includes (td_description ticketData) Banner.anchor = true.
Proof.
  apply (created_ticket_links_conversation world create_request ∅ None "77");
    reflexivity.
Defined.

Lemma lookup_routes_agree_with_form_witness :
  (Lookup.statuses world_with_choices
   = (200%N, Lookup.StatusList
               (map (fun c => (choice_id c, choice_label c))
                    [closed_status; open_status])) /\
   map (fun o => (option_value o, option_text o))
       (map status_option [closed_status; open_status])
   = map (fun c => (Js.showN (choice_id c), choice_label c))
         [closed_status; open_status]
   \/
   [closed_status; open_status] = [] /\
   Lookup.statuses world_with_choices
   = (500%N, Lookup.Failure "Failed to fetch statuses from Freshdesk"))
  /\
  (Lookup.priorities world_with_choices
   = (200%N, Lookup.PriorityList [high_priority]) /\
   map (fun o => (option_value o, option_text o))
       (map priority_option [high_priority])
   = map (fun c => (Js.showN (choice_value c), choice_label c)) [high_priority]
   \/
   [high_priority] = [] /\
   Lookup.priorities world_with_choices
   = (500%N, Lookup.Failure "Failed to fetch priorities from Freshdesk")).
Proof.
  apply (lookup_routes_agree_with_form world_with_choices open_form started
                                       [support_mailbox]).
  reflexivity.
Defined.

End MoreExamples.
